(** * Financial Document Q&A Assistant: extraction and indexing pipeline

    A shallow embedding of the document-to-chunk pipeline
    ([excel_extraction.py], [pdf_extraction.py], [qa_pipeline.py]) and of
    the application script ([main.py]), the properties its specification
    states about it, and further properties of the code.

    Conventions of the embedding.
    - Python [str] is [string]; the characters are the code points below
      128 ([str.lower] and [str.strip] are modelled on that range).
    - A [Document] is its [page_content] and a metadata dictionary, a
      [gmap string value].
    - A pandas [DataFrame] is a list of typed column labels and a list of
      rows; numeric columns hold [int64] cells, object columns hold text.
    - Calls into the outside world (pandas readers, the PDF libraries, the
      file system, the model server) are read from an environment record
      that fixes the outcome of each call; a computation returns either a
      value or the message of the exception it raised, together with the
      trace of the external calls it made. *)

From Stdlib Require Import ZArith List Ascii String Lia Bool Arith.
From Stdlib Require Import DecimalString SpecFloat Sorted Permutation.
From stdpp Require Import base option list gmap strings.

Import ListNotations.
Local Open Scope Z_scope.

(* ===================================================================== *)
(** * Part I: the program                                                 *)
(* ===================================================================== *)

(** ** Text primitives (Python [str]) *)
Module Text.

(** [sep.join(parts)] *)
Definition join (sep : string) (parts : list string) : string :=
  String.concat sep parts.

(** [str(n)] for a non-negative machine integer and for an [int]. *)
Definition str_nat (n : nat) : string :=
  NilZero.string_of_uint (Nat.to_uint n).

Definition str_Z (z : Z) : string :=
  NilZero.string_of_int (Z.to_int z).

(** [c.lower()] on one character: only [A]..[Z] move. *)
Definition lower_ascii (c : ascii) : ascii :=
  let n := nat_of_ascii c in
  if (Nat.leb 65 n && Nat.leb n 90)%bool then ascii_of_nat (n + 32) else c.

Fixpoint lower (s : string) : string :=
  match s with
  | EmptyString => EmptyString
  | String c rest => String (lower_ascii c) (lower rest)
  end.

(** [needle in hay] *)
Fixpoint contains (needle hay : string) : bool :=
  if String.prefix needle hay then true
  else match hay with
       | EmptyString => false
       | String _ rest => contains needle rest
       end.

(** [s.endswith(suffix)] *)
Definition endswith (s suffix : string) : bool :=
  let n := String.length s in
  let k := String.length suffix in
  if Nat.leb k n then String.eqb (String.substring (n - k) k s) suffix
  else false.

(** Characters removed by [str.strip()]. *)
Definition is_space (c : ascii) : bool :=
  let n := nat_of_ascii c in
  ((Nat.leb 9 n && Nat.leb n 13) || (Nat.leb 28 n && Nat.leb n 32))%bool.

Fixpoint lstrip (s : string) : string :=
  match s with
  | EmptyString => EmptyString
  | String c rest => if is_space c then lstrip rest else s
  end.

(** Removes the trailing white space: a character is kept when something
    that is kept follows it, or when it is not white space itself. *)
Fixpoint rstrip (s : string) : string :=
  match s with
  | EmptyString => EmptyString
  | String c rest =>
      match rstrip rest with
      | EmptyString => if is_space c then EmptyString else String c EmptyString
      | kept => String c kept
      end
  end.

Definition strip (s : string) : string := rstrip (lstrip s).

(** Truth value of a string: [bool(s)]. *)
Definition truthy (s : string) : bool :=
  match s with EmptyString => false | _ => true end.

(** [s.split("\n")] *)
Definition newline : ascii := ascii_of_nat 10.

Fixpoint split_on (sep : ascii) (s : string) : list string :=
  match s with
  | EmptyString => [EmptyString]
  | String c rest =>
      if Ascii.eqb c sep then EmptyString :: split_on sep rest
      else match split_on sep rest with
           | [] => [String c EmptyString]
           | piece :: more => String c piece :: more
           end
  end.

Fixpoint has_char (c : ascii) (s : string) : bool :=
  match s with
  | EmptyString => false
  | String d rest => (Ascii.eqb d c || has_char c rest)%bool
  end.

End Text.

(** ** Documents (langchain [Document]) *)

Inductive value : Type :=
| VStr (s : string)
| VInt (n : Z)
| VBool (b : bool).

Record Document : Type := mkDocument {
  page_content : string;
  metadata : gmap string value
}.

(** [metadata={k1: v1, ...}]: a dictionary literal, later keys win. *)
Definition dict (entries : list (string * value)) : gmap string value :=
  fold_left (fun m kv => <[fst kv := snd kv]> m) entries ∅.

(** ** Outcomes of computations with exceptions and external calls *)

Inductive outcome (A : Type) : Type :=
| Ok (a : A)
| Raise (msg : string).
Arguments Ok {A} a.
Arguments Raise {A} msg.

(** ** Numbers: [int64] arithmetic, binary64 values and the [.2f] format *)
Module Num.

(** Two's complement wrap-around of an [int64] accumulator. *)
Definition wrap64 (z : Z) : Z := (z + 2 ^ 63) mod 2 ^ 64 - 2 ^ 63.

(** The integer nearest to [p / q] for [q > 0], ties to the even one. *)
Definition round_half_even (p q : Z) : Z :=
  let d := p / q in
  let r := p mod q in
  if 2 * r <? q then d
  else if q <? 2 * r then d + 1
  else if Z.even d then d else d + 1.

(** A finite binary64 value [(-1)^neg * mant * 2^expo]. *)
Record float64 : Type := mkFloat { neg : bool; mant : Z; expo : Z }.

(** The integer a binary64 holds after [float(z)]: [z] itself up to
    [2^53], beyond that the nearest multiple of the unit in the last
    place (53 significant bits, ties to even). *)
Definition round53 (z : Z) : Z :=
  let a := Z.abs z in
  if a <? 2 ^ 53 then z
  else let e := Z.log2 a - 52 in
       Z.sgn z * (round_half_even a (2 ^ e) * 2 ^ e).

Definition f64_of_Z (z : Z) : float64 :=
  {| neg := z <? 0; mant := Z.abs (round53 z); expo := 0 |}.

(** binary64 addition of two integer-valued doubles. *)
Definition f64_add_int (a b : Z) : Z := round53 (a + b).

(** [x * 2^e] for [e >= 0], and [x] otherwise: a quotient [p / q] is
    scaled by [2^e], whatever the sign of [e], by scaling [p] with [e] and
    [q] with [- e]. *)
Definition scale (x e : Z) : Z := x * 2 ^ Z.max 0 e.

(** [a / n >= 2^k] *)
Definition ratio_ge_pow2 (a n k : Z) : bool := scale n k <=? scale a (- k).

(** binary64 division [s / n] of an integer-valued double by a count
    [n > 0]: with [2^l <= |s| / n < 2^(l+1)] the quotient is scaled by
    [2^(52-l)], so that the mantissa has 53 bits, and rounded to nearest,
    ties to even. *)
Definition f64_div (s n : Z) : float64 :=
  let a := Z.abs s in
  if a =? 0 then {| neg := false; mant := 0; expo := 0 |}
  else
    let k := Z.log2 a - Z.log2 n in
    let l := if ratio_ge_pow2 a n k then k else k - 1 in
    let e := l - 52 in
    {| neg := s <? 0;
       mant := round_half_even (scale a (- e)) (scale n e);
       expo := e |}.

(** [abs(x) * 100] rounded to an integer, ties to even: the digits that
    [format(x, ".2f")] prints. *)
Definition hundredths (x : float64) : Z :=
  round_half_even (scale (100 * mant x) (expo x)) (scale 1 (- expo x)).

Definition digit (n : Z) : ascii := ascii_of_nat (48 + Z.to_nat n).

Definition two_digits (n : Z) : string :=
  String (digit (n / 10)) (String (digit (n mod 10)) EmptyString).

(** [f"{x:.2f}"] for a float. *)
Definition fmt2 (x : float64) : string :=
  let h := hundredths x in
  (if neg x then "-" else "") +:+ Text.str_Z (h / 100) +:+ "."
     +:+ two_digits (h mod 100).

(** [f"{z:.2f}"] for an integer scalar: it is converted with [float]
    and then formatted. *)
Definition fmt2_int (z : Z) : string := fmt2 (f64_of_Z z).

End Num.

(** ** Tables (pandas [DataFrame]) *)

Inductive dtype : Type := DNumber | DObject.

(** A cell: an [int64] of a numeric column, a text of an object column, or
    a missing value (NaN) of an object column. The numeric columns of the
    embedding are [int64] columns: a column of [float64], which is also
    what pandas makes of a column of numbers with a missing value, has no
    cells here, and the properties of numeric columns say nothing of it.
    [well_typed], in Part II, is the condition that a frame is one of the
    embedding. *)
Inductive cell : Type :=
| CInt (z : Z)
| CStr (s : string)
| CNull.

Record DataFrame : Type := mkFrame {
  columns : list (string * dtype);
  rows : list (list cell)
}.

Module Frame.

(** [len(df)] and [len(df.columns)] *)
Definition len (df : DataFrame) : nat := length (rows df).
Definition width (df : DataFrame) : nat := length (columns df).

(** [df.empty]: one of the two axes has length zero. *)
Definition empty (df : DataFrame) : bool :=
  match rows df, columns df with
  | [], _ | _, [] => true
  | _, _ => false
  end.

(** [str(row[col])] *)
Definition str_cell (c : cell) : string :=
  match c with
  | CInt z => Text.str_Z z
  | CStr s => s
  | CNull => "nan"
  end.

(** The cell of a row in the column at position [j]. *)
Definition cell_at (j : nat) (row : list cell) : cell := nth j row CNull.

(** [df[col]] for the column at position [j]. *)
Definition series (df : DataFrame) (j : nat) : list cell :=
  map (cell_at j) (rows df).

(** The [int64] values of a numeric series. *)
Definition ints (s : list cell) : list Z :=
  omap (fun c => match c with CInt z => Some z | _ => None end) s.

(** The non-missing values of an object series, as text. *)
Definition texts (s : list cell) : list string :=
  omap (fun c => match c with
                 | CStr t => Some t
                 | CInt z => Some (Text.str_Z z)
                 | CNull => None
                 end) s.

(** [df.select_dtypes(include=[...]).columns]: positions and labels. *)
Definition dtype_eqb (a b : dtype) : bool :=
  match a, b with
  | DNumber, DNumber | DObject, DObject => true
  | _, _ => false
  end.

Definition select_dtypes (df : DataFrame) (t : dtype) : list (nat * string) :=
  omap (fun jc : nat * (string * dtype) =>
          if dtype_eqb (snd (snd jc)) t then Some (fst jc, fst (snd jc))
          else None)
       (combine (seq 0 (length (columns df))) (columns df)).

(** [df.fillna("")]: every missing value becomes the empty text. The
    missing values of a frame of the embedding are in its object columns,
    which stay object columns, so the dtypes are kept; a numeric column
    with a missing value, which the library turns into an object column,
    is outside the embedding. *)
Definition fillna (df : DataFrame) : DataFrame :=
  {| columns := columns df;
     rows := map (map (fun c => match c with
                                | CNull => CStr ""
                                | other => other
                                end)) (rows df) |}.

(** [df.iloc[i:i+n]] *)
Definition iloc (df : DataFrame) (i n : nat) : DataFrame :=
  {| columns := columns df; rows := take n (drop i (rows df)) |}.

(** Aggregates of an [int64] series. *)
Definition sum (vs : list Z) : Z :=
  fold_left (fun acc v => Num.wrap64 (acc + v)) vs 0.

Definition count (vs : list Z) : nat := length vs.

Definition min (vs : list Z) : Z :=
  match vs with
  | [] => 0
  | v :: rest => fold_left Z.min rest v
  end.

Definition max (vs : list Z) : Z :=
  match vs with
  | [] => 0
  | v :: rest => fold_left Z.max rest v
  end.

(** [Series.mean] of an [int64] series: the values are converted to
    binary64 and accumulated there, and the sum is divided by the count.
    The accumulation is written left to right. The library groups the
    additions in another way (in blocks, pairwise), and where an addition
    rounds the two sums can differ, so [float_sum] is the library's sum
    only while no addition rounds, which is the case while the magnitudes
    add up to less than [2^53]: there every grouping and order gives the
    exact sum ([plan_sum], in Part II). The properties of the mean are
    stated under that bound. *)
Definition float_sum (vs : list Z) : Z :=
  fold_left (fun acc v => Num.f64_add_int acc (Num.round53 v)) vs 0.

Definition mean (vs : list Z) : Num.float64 :=
  Num.f64_div (float_sum vs) (Z.of_nat (length vs)).

(** Distinct values in the order of their first occurrence. *)
Fixpoint distinct (l : list string) : list string :=
  match l with
  | [] => []
  | x :: rest =>
      x :: List.filter (fun y => negb (String.eqb x y)) (distinct rest)
  end.

Definition occurrences (x : string) (l : list string) : nat :=
  length (List.filter (String.eqb x) l).

(** [Series.nunique()] *)
Definition nunique (s : list cell) : nat := length (distinct (texts s)).

(** [Series.value_counts()]: most frequent first. Equal counts are taken
    here in the order of first occurrence; the library does not promise
    an order among equal counts, and the properties of the counts state
    none: larger counts come first. *)
Fixpoint insert_desc (x : string * nat) (l : list (string * nat))
  : list (string * nat) :=
  match l with
  | [] => [x]
  | y :: rest =>
      if Nat.ltb (snd y) (snd x) then x :: y :: rest
      else y :: insert_desc x rest
  end.

Definition value_counts (s : list cell) : list (string * nat) :=
  let vs := texts s in
  fold_left (fun acc x => insert_desc x acc)
            (map (fun v => (v, occurrences v vs)) (distinct vs)) [].

End Frame.

(** ** The tabular renderer ([excel_extraction._df_to_text]) *)
Module Renderer.
Import Text.

Definition nl : string := String newline EmptyString.

Definition marker_rows : string := "=== ALL DATA ROWS ===".

(** One line of the numerical summary, for the column [col] holding the
    values [vs]. *)
Definition numeric_line (col : string) (vs : list Z) : string :=
  let total := Frame.sum vs in
  let mean := Frame.mean vs in
  let count := Frame.count vs in
  let min_val := Frame.min vs in
  let max_val := Frame.max vs in
  col +:+ ": TOTAL=" +:+ Num.fmt2_int total
      +:+ ", AVERAGE=" +:+ Num.fmt2 mean
      +:+ ", COUNT=" +:+ str_nat count
      +:+ ", MIN=" +:+ Num.fmt2_int min_val
      +:+ ", MAX=" +:+ Num.fmt2_int max_val.

Definition numerical_summary (df : DataFrame) : list string :=
  let numeric_cols := Frame.select_dtypes df DNumber in
  match numeric_cols with
  | [] => []
  | _ =>
      ["=== NUMERICAL SUMMARY ==="]
        ++ map (fun jc : nat * string =>
                  numeric_line (snd jc) (Frame.ints (Frame.series df (fst jc))))
               numeric_cols
        ++ [""]
  end.

(** The lines of one object column in the categorical summary. *)
Definition categorical_lines (col : string) (s : list cell) : list string :=
  let unique_count := Frame.nunique s in
  let top_values := take 10 (Frame.value_counts s) in
  (col +:+ ": " +:+ str_nat unique_count +:+ " unique values")
    :: map (fun vc : string * nat =>
              "  " +:+ fst vc +:+ ": " +:+ str_nat (snd vc) +:+ " occurrences")
           top_values.

Definition categorical_summary (df : DataFrame) : list string :=
  let text_cols := Frame.select_dtypes df DObject in
  match text_cols with
  | [] => []
  | _ =>
      ["=== CATEGORICAL SUMMARY ==="]
        ++ concat (map (fun jc : nat * string =>
                          categorical_lines (snd jc) (Frame.series df (fst jc)))
                       text_cols)
        ++ [""]
  end.

(** [" | ".join(f"{col}:{str(row[col])}" for col in df.columns)] *)
Definition row_data (cols : list (string * dtype)) (row : list cell) : string :=
  join " | "
       (map (fun jc : nat * (string * dtype) =>
               fst (snd jc) +:+ ":" +:+ Frame.str_cell (Frame.cell_at (fst jc) row))
            (combine (seq 0 (length cols)) cols)).

(** [f"Row {i+1}: {row_data}"] for the row at position [i]. *)
Definition row_line (cols : list (string * dtype)) (i : nat) (row : list cell)
  : string :=
  "Row " +:+ str_nat (i + 1) +:+ ": " +:+ row_data cols row.

Definition header_lines (df : DataFrame) (title : string) : list string :=
  [ "=== " +:+ title +:+ " ===";
    "Total Rows: " +:+ str_nat (Frame.len df);
    "Total Columns: " +:+ str_nat (Frame.width df);
    "";
    "COLUMN HEADERS: " +:+ join " | " (map fst (columns df));
    "" ].

Definition data_rows (df : DataFrame) : list string :=
  imap (row_line (columns df)) (rows df).

Definition _df_to_text (df : DataFrame) (title : string) : string :=
  if Frame.empty df then ""
  else
    let lines :=
      header_lines df title
        ++ numerical_summary df
        ++ categorical_summary df
        ++ [marker_rows]
        ++ data_rows df in
    join nl lines.

(** Reading the rendered text back. The section of data rows is what
    follows the last line equal to the marker. *)
Fixpoint after_last_marker (lines : list string) : option (list string) :=
  match lines with
  | [] => None
  | l :: rest =>
      match after_last_marker rest with
      | Some tail => Some tail
      | None => if String.eqb l marker_rows then Some rest else None
      end
  end.

Definition data_section (text : string) : list string :=
  match after_last_marker (split_on newline text) with
  | Some ls => ls
  | None => []
  end.

(** Splits at the first occurrence of a character. *)
Fixpoint cut (c : ascii) (s : string) : option (string * string) :=
  match s with
  | EmptyString => None
  | String d rest =>
      if Ascii.eqb d c then Some (EmptyString, rest)
      else match cut c rest with
           | Some (a, b) => Some (String d a, b)
           | None => None
           end
  end.

Definition drop_first (s : string) : string :=
  match s with EmptyString => EmptyString | String _ rest => rest end.

Fixpoint drop_last (s : string) : string :=
  match s with
  | EmptyString => EmptyString
  | String _ EmptyString => EmptyString
  | String c rest => String c (drop_last rest)
  end.

(** The fields of a row between the [" | "] separators: the pieces
    between the bars, without the blank on each side of a bar. *)
Fixpoint unpad (first : bool) (pieces : list string) : list string :=
  match pieces with
  | [] => []
  | [p] => [if first then p else drop_first p]
  | p :: more =>
      drop_last (if first then p else drop_first p) :: unpad false more
  end.

(** A data line read back: the row number and the [(column, value)]
    pairs. *)
Definition parse_row (line : string) : option (string * list (string * string)) :=
  match cut ":" line with
  | None => None
  | Some (label, body) =>
      let fields := unpad true (split_on "|" (drop_first body)) in
      let pairs := omap (cut ":") fields in
      if Nat.eqb (length pairs) (length fields)
      then Some (label, pairs) else None
  end.

Definition parse_rows (text : string) : list (option (string * list (string * string))) :=
  map parse_row (data_section text).

End Renderer.

(** ** Computations: exceptions and the trace of external calls *)

Inductive event : Type :=
| EvWriteTemp                  (* open(tmp, "wb") and fh.write(...) *)
| EvRemoveTemp                 (* os.remove(tmp) *)
| EvReadCsv                    (* pd.read_csv *)
| EvReadExcel (engine : string)  (* pd.read_excel(..., engine=...) *)
| EvPdfplumberText             (* pdfplumber.open + page.extract_text *)
| EvPypdfText                  (* PdfReader + page.extract_text *)
| EvOcr                        (* convert_from_path + image_to_string *)
| EvPdfplumberTables           (* pdfplumber.open + page.extract_tables *)
| EvChatModel (model : string)   (* ChatOllama(model=..., temperature=0) *)
| EvRetriever (k : nat)        (* vector_db.as_retriever(search_kwargs) *)
| EvInvokeChain (question : string)  (* rag_chain.invoke(question) *)
| EvMakeTemp                   (* tempfile.mktemp(suffix=".pdf") *)
| EvListModels                 (* ollama.list() *)
| EvCreateVectorDb.            (* create_vector_db(docs): embedding and storing *)

Definition M (A : Type) : Type := (outcome A * list event)%type.

#[global] Instance M_ret : MRet M := fun A a => (Ok a, []).

#[global] Instance M_bind : MBind M := fun A B k m =>
  match m with
  | (Ok a, t) => let r := k a in (fst r, t ++ snd r)
  | (Raise e, t) => (Raise e, t)
  end.

(** An external call: its outcome is given, the call is recorded. *)
Definition call {A : Type} (ev : event) (r : outcome A) : M A := (r, [ev]).

(** [try: body  except Exception as e: handler(e)] *)
Definition try_except {A : Type} (body : M A) (handler : string -> M A) : M A :=
  match body with
  | (Ok a, t) => (Ok a, t)
  | (Raise e, t) => let r := handler e in (fst r, t ++ snd r)
  end.

(** [try: body  finally: cleanup]: the clean-up always runs; an exception
    it raises replaces the result of the body. *)
Definition try_finally {A : Type} (body : M A) (cleanup : M unit) : M A :=
  match cleanup with
  | (Ok _, t') => (fst body, snd body ++ t')
  | (Raise e, t') => (Raise e, snd body ++ t')
  end.

(** The uploaded file object: only its name is read by the extractors; the
    bytes go to the temporary file. *)
Record upload : Type := mkUpload { name : string }.

(** ** The spreadsheet extractor ([excel_extraction.extract_from_excel]) *)
Module Excel.
Import Text.

Record env : Type := mkEnv {
  write_temp : outcome unit;
  read_csv : outcome DataFrame;
  read_excel_openpyxl : outcome (list (string * DataFrame));
  read_excel_xlrd : outcome (list (string * DataFrame));
  temp_exists : bool;
  remove_temp : outcome unit
}.

(** Python's [range(0, stop, step)]. *)
Definition range_step (stop step : nat) : list nat :=
  map (fun k => (k * step)%nat) (seq 0 ((stop + step - 1) / step)%nat).

Definition complete_document (source type_tag : string)
           (extra : list (string * value)) (title : string) (df : DataFrame)
  : Document :=
  {| page_content := Renderer._df_to_text df title;
     metadata :=
       dict ([("source", VStr source)] ++ extra ++
             [("type", VStr type_tag);
              ("rows", VInt (Z.of_nat (Frame.len df)));
              ("columns", VInt (Z.of_nat (Frame.width df)));
              ("original_filename", VStr source)]) |}.

(** *** CSV: grouped documents *)

(** The key under which [groupby] files a cell; missing values have no
    group. *)
Definition group_key (c : cell) : option string :=
  match c with
  | CStr t => Some t
  | CInt z => Some (str_Z z)
  | CNull => None
  end.

Definition key_is (key : string) (c : cell) : bool :=
  match group_key c with
  | Some t => String.eqb t key
  | None => false
  end.

(** Insertion sort of the group keys: [groupby] iterates in key order. *)
Fixpoint insert_key (k : string) (l : list string) : list string :=
  match l with
  | [] => [k]
  | x :: rest => if String.leb k x then k :: x :: rest else x :: insert_key k rest
  end.

Definition sort_keys (l : list string) : list string :=
  fold_right insert_key [] l.

(** [df.groupby(col)] for the column at position [j]: the keys in order,
    each with the sub-frame of its rows. *)
Definition groupby (df : DataFrame) (j : nat) : list (string * DataFrame) :=
  map (fun key =>
         (key, {| columns := columns df;
                  rows := List.filter (fun row => key_is key (Frame.cell_at j row))
                                      (rows df) |}))
      (sort_keys (Frame.distinct (Frame.texts (Frame.series df j)))).

Definition group_document (source col : string) (g : string * DataFrame)
  : Document :=
  let group_name := fst g in
  let group_df := snd g in
  {| page_content :=
       Renderer._df_to_text group_df
         ("Category Group - " +:+ col +:+ ": " +:+ group_name);
     metadata :=
       dict [("source", VStr source);
             ("type", VStr "csv_group");
             ("group_column", VStr col);
             ("group_value", VStr group_name);
             ("rows", VInt (Z.of_nat (Frame.len group_df)));
             ("original_filename", VStr source)] |}.

(** The groups of one column that are kept: more than one row. *)
Definition groups_of_column (source : string) (df : DataFrame)
           (j : nat) (col : string) : list Document :=
  map (group_document source col)
      (List.filter (fun g : string * DataFrame => Nat.ltb 1 (Frame.len (snd g)))
                   (groupby df j)).

(** [df[col].dtype == 'object' and df[col].nunique() < 20] *)
Definition suitable (df : DataFrame) (j : nat) (t : dtype) : bool :=
  (Frame.dtype_eqb t DObject && Nat.ltb (Frame.nunique (Frame.series df j)) 20)%bool.

(** The loop over the columns, left at the first suitable one. *)
Fixpoint group_loop (source : string) (df : DataFrame)
         (cols : list (nat * (string * dtype))) : list Document :=
  match cols with
  | [] => []
  | (j, (col, t)) :: rest =>
      if suitable df j t then groups_of_column source df j col
      else group_loop source df rest
  end.

Definition indexed_columns (df : DataFrame) : list (nat * (string * dtype)) :=
  combine (seq 0 (length (columns df))) (columns df).

Definition group_documents (source : string) (df : DataFrame) : list Document :=
  if Nat.ltb 100 (Frame.len df)
  then group_loop source df (indexed_columns df)
  else [].

(** *** CSV: the financial summary *)
Definition summary_lines (col : string) (vs : list Z) : list string :=
  [ col +:+ " TOTAL: " +:+ Num.fmt2_int (Frame.sum vs);
    col +:+ " AVERAGE: " +:+ Num.fmt2 (Frame.mean vs);
    col +:+ " COUNT: " +:+ str_nat (Frame.count vs) ].

Definition summary_documents (source : string) (df : DataFrame) : list Document :=
  match Frame.select_dtypes df DNumber with
  | [] => []
  | numeric_cols =>
      [ {| page_content :=
             join Renderer.nl
                  ("=== FINANCIAL SUMMARY ==="
                     :: concat (map (fun jc : nat * string =>
                                       summary_lines (snd jc)
                                         (Frame.ints (Frame.series df (fst jc))))
                                    numeric_cols));
           metadata :=
             dict [("source", VStr source);
                   ("type", VStr "financial_summary");
                   ("focus", VStr "numerical_aggregates");
                   ("original_filename", VStr source)] |} ]
  end.

(** The documents of the CSV branch, for the frame as read. *)
Definition csv_documents (source : string) (raw : DataFrame) : list Document :=
  let df := Frame.fillna raw in
  [complete_document source "csv_complete" [] "Complete CSV Dataset" df]
    ++ group_documents source df
    ++ summary_documents source df.

(** *** Excel: one document per sheet and the chunks of large sheets *)
Definition chunk_document (source sheet_name : string) (df : DataFrame)
           (chunk_size i : nat) : Document :=
  let chunk_df := Frame.iloc df i chunk_size in
  {| page_content :=
       Renderer._df_to_text chunk_df
         ("Sheet " +:+ sheet_name +:+ " - Rows " +:+ str_nat (i + 1)
            +:+ " to " +:+ str_nat (i + Frame.len chunk_df));
     metadata :=
       dict [("source", VStr source);
             ("sheet", VStr sheet_name);
             ("type", VStr "excel_chunk");
             ("chunk_start", VInt (Z.of_nat (i + 1)));
             ("chunk_end", VInt (Z.of_nat (i + Frame.len chunk_df)));
             ("rows", VInt (Z.of_nat (Frame.len chunk_df)));
             ("original_filename", VStr source)] |}.

Definition chunk_documents (source sheet_name : string) (df : DataFrame)
  : list Document :=
  if Nat.ltb 200 (Frame.len df)
  then let chunk_size := 200%nat in
       map (chunk_document source sheet_name df chunk_size)
           (range_step (Frame.len df) chunk_size)
  else [].

Definition sheet_documents (source : string) (sheet : string * DataFrame)
  : list Document :=
  let sheet_name := fst sheet in
  let df := Frame.fillna (snd sheet) in
  complete_document source "excel_sheet_complete" [("sheet", VStr sheet_name)]
                    ("Excel Sheet: " +:+ sheet_name) df
    :: chunk_documents source sheet_name df.

Definition excel_documents (source : string) (sheets : list (string * DataFrame))
  : list Document :=
  concat (map (sheet_documents source) sheets).

Definition error_document (source msg : string) : Document :=
  {| page_content := "Error extracting Excel/CSV data: " +:+ msg;
     metadata := dict [("source", VStr source); ("error", VStr msg)] |}.

Definition extract_body (w : env) (uploaded_file : upload) : M (list Document) :=
  let suffix :=
    if endswith (lower (name uploaded_file)) ".csv" then ".csv" else ".xlsx" in
  _ ← call EvWriteTemp (write_temp w);
  if String.eqb suffix ".csv" then
    df ← call EvReadCsv (read_csv w);
    mret (csv_documents (name uploaded_file) df)
  else
    sheets ← try_except
               (call (EvReadExcel "openpyxl") (read_excel_openpyxl w))
               (fun _ => call (EvReadExcel "xlrd") (read_excel_xlrd w));
    mret (excel_documents (name uploaded_file) sheets).

Definition extract_from_excel (w : env) (uploaded_file : upload)
  : M (list Document) :=
  try_finally
    (try_except (extract_body w uploaded_file)
                (fun e => mret [error_document (name uploaded_file) e]))
    (if temp_exists w then call EvRemoveTemp (remove_temp w) else mret tt).

End Excel.

(** ** The PDF extractor ([pdf_extraction]) *)
Module Pdf.
Import Text.

(** A table as [page.extract_tables()] returns it: rows of optional
    cells. *)
Definition table_row : Type := list (option string).
Definition table : Type := list table_row.

(** What the libraries answer for the file at hand. Opening the file may
    raise; after that each page answers or raises in turn.
    [tempfile.mktemp] raises or returns the name [tmp_path]. *)
Record env : Type := mkEnv {
  make_temp : outcome unit;
  tmp_path : string;
  write_temp : outcome unit;
  plumber_pages : outcome (list (outcome (option string)));
  pypdf_pages : outcome (list (outcome (option string)));
  ocr_pages : outcome (list (outcome string));
  plumber_tables : outcome (list (outcome (option (list table))));
  remove_temp : outcome unit
}.

Definition page_document (path method : string) (i : nat) (txt : string)
  : Document :=
  {| page_content := txt;
     metadata :=
       dict [("source", VStr path);
             ("page", VInt (Z.of_nat i));
             ("method", VStr method);
             ("char_count", VInt (Z.of_nat (String.length txt)))] |}.

(** The loop over the pages, numbered from [i]: a page whose text is
    blank adds nothing; an exception ends the loop and the documents
    collected before it remain. *)
Fixpoint text_pages (path method : string) (i : nat)
         (pages : list (outcome (option string))) : list Document :=
  match pages with
  | [] => []
  | Raise _ :: _ => []
  | Ok extracted :: rest =>
      let txt := match extracted with
                 | Some t => if truthy t then t else ""
                 | None => ""
                 end in
      (if truthy (strip txt) then [page_document path method i txt] else [])
        ++ text_pages path method (S i) rest
  end.

Definition run_strategy (ev : event) (path method : string)
           (answer : outcome (list (outcome (option string))))
  : M (list Document) :=
  try_except (pages ← call ev answer;
              mret (text_pages path method 1 pages))
             (fun _ => mret []).

Definition _text_pdfplumber (w : env) (path : string) : M (list Document) :=
  run_strategy EvPdfplumberText path "pdfplumber" (plumber_pages w).

Definition _text_pypdf (w : env) (path : string) : M (list Document) :=
  run_strategy EvPypdfText path "pypdf" (pypdf_pages w).

Definition _text_ocr (w : env) (path : string) : M (list Document) :=
  run_strategy EvOcr path "ocr"
    (match ocr_pages w with
     | Ok imgs => Ok (map (fun r => match r with
                                    | Ok t => Ok (Some t)
                                    | Raise e => Raise e
                                    end) imgs)
     | Raise e => Raise e
     end).

(** *** Tables *)

(** [any(cell for cell in row if cell)] *)
Definition row_nonempty (row : table_row) : bool :=
  existsb (fun c => match c with Some s => truthy s | None => false end) row.

(** [str(cell or "").strip()] *)
Definition clean_cell (c : option string) : string :=
  strip (match c with Some s => s | None => "" end).

(** Truth value of [headers]: set, and not the empty list. *)
Definition has_headers (headers : option (list string)) : bool :=
  match headers with
  | Some (_ :: _) => true
  | _ => false
  end.

(** [headers[i] if i < len(headers) else f"Col{i+1}"] *)
Definition col_name (headers : list string) (i : nat) : string :=
  match headers !! i with
  | Some h => h
  | None => "Col" +:+ str_nat (i + 1)
  end.

Definition qualified_row (headers clean_row : list string) : string :=
  join " | " (imap (fun i cell => col_name headers i +:+ ": " +:+ cell) clean_row).

(** The loop over the rows of one table, from the row at position
    [row_idx], with the current value of [headers]. *)
Fixpoint table_rows (row_idx : nat) (headers : option (list string))
         (tbl : table) : list string :=
  match tbl with
  | [] => []
  | row :: rest =>
      if negb (row_nonempty row) then table_rows (S row_idx) headers rest
      else
        let clean_row := map clean_cell row in
        if (Nat.eqb row_idx 0 && negb (has_headers headers))%bool then
          ("HEADERS: " +:+ join " | " clean_row)
            :: table_rows (S row_idx) (Some clean_row) rest
        else
          (match headers with
           | Some (h :: hs) => qualified_row (h :: hs) clean_row
           | _ => join " | " clean_row
           end)
            :: table_rows (S row_idx) headers rest
  end.

Definition render_table (tbl : table) : list string := table_rows 0 None tbl.

Definition table_document (path : string) (p t_idx : nat) (rows : list string)
  : Document :=
  {| page_content :=
       "TABLE " +:+ str_nat t_idx +:+ " (Page " +:+ str_nat p +:+ "):"
         +:+ Renderer.nl +:+ join Renderer.nl rows;
     metadata :=
       dict [("source", VStr path);
             ("page", VInt (Z.of_nat p));
             ("type", VStr "table");
             ("table_id", VInt (Z.of_nat t_idx));
             ("rows", VInt (Z.of_nat (length rows)));
             ("method", VStr "table_extraction")] |}.

(** The tables of one page, numbered from [t_idx]. *)
Fixpoint page_tables (path : string) (p t_idx : nat) (tables : list table)
  : list Document :=
  match tables with
  | [] => []
  | tbl :: rest =>
      (match tbl with
       | [] => []
       | _ => match render_table tbl with
              | [] => []
              | rows => [table_document path p t_idx rows]
              end
       end) ++ page_tables path p (S t_idx) rest
  end.

Fixpoint table_pages (path : string) (p : nat)
         (pages : list (outcome (option (list table)))) : list Document :=
  match pages with
  | [] => []
  | Raise _ :: _ => []
  | Ok extracted :: rest =>
      let tables := match extracted with Some ts => ts | None => [] end in
      page_tables path p 1 tables ++ table_pages path (S p) rest
  end.

Definition _tables (w : env) (path : string) : M (list Document) :=
  try_except (pages ← call EvPdfplumberTables (plumber_tables w);
              mret (table_pages path 1 pages))
             (fun _ => mret []).

(** *** The extractor *)

Definition nonempty {A : Type} (l : list A) : bool :=
  match l with [] => false | _ => true end.

(** [a or b or (c if enable_ocr else [])] on lists of documents. *)
Definition text_documents (w : env) (tmp : string) (enable_ocr : bool)
  : M (list Document) :=
  d1 ← _text_pdfplumber w tmp;
  if nonempty d1 then mret d1
  else
    d2 ← _text_pypdf w tmp;
    if nonempty d2 then mret d2
    else if enable_ocr then _text_ocr w tmp else mret [].

Definition with_filename (filename : string) (d : Document) : Document :=
  {| page_content := page_content d;
     metadata := <["original_filename" := VStr filename]> (metadata d) |}.

Definition placeholder_document (source : string) : Document :=
  {| page_content := "No text extracted from PDF";
     metadata := dict [("source", VStr source); ("error", VStr "no_content")] |}.

Definition error_document (source msg : string) : Document :=
  {| page_content := "Error extracting PDF: " +:+ msg;
     metadata := dict [("source", VStr source); ("error", VStr msg)] |}.

Definition extract_body (w : env) (uploaded_file : upload) (enable_ocr : bool)
  : M (list Document) :=
  let tmp := tmp_path w in
  _ ← call EvWriteTemp (write_temp w);
  docs ← text_documents w tmp enable_ocr;
  table_docs ← _tables w tmp;
  let docs := map (with_filename (name uploaded_file)) (docs ++ table_docs) in
  mret (if nonempty docs then docs
        else [placeholder_document (name uploaded_file)]).

(** The name of the temporary file is made before the [try]: an
    exception of [tempfile.mktemp] reaches the caller. *)
Definition extract_from_pdf (w : env) (uploaded_file : upload)
           (enable_ocr : bool) : M (list Document) :=
  _ ← call EvMakeTemp (make_temp w);
  try_finally
    (try_except (extract_body w uploaded_file enable_ocr)
                (fun e => mret [error_document (name uploaded_file) e]))
    (try_except (call EvRemoveTemp (remove_temp w)) (fun _ => mret tt)).

End Pdf.

(** ** Indexing and question answering ([qa_pipeline]) *)
Module Pipeline.
Import Text.

(** The configuration handed to [RecursiveCharacterTextSplitter]. *)
Record splitter_config : Type := mkSplitter {
  chunk_size : nat;
  chunk_overlap : nat;
  separators : list string;
  keep_separator : bool
}.

Definition splitter : splitter_config :=
  {| chunk_size := 1500;
     chunk_overlap := 300;
     separators := [Renderer.nl +:+ Renderer.nl; Renderer.nl;
                    "==="; "TOTAL"; "SUMMARY"; "BREAKDOWN";
                    "---"; "|"; ","; " "];
     keep_separator := true |}.

Definition critical_terms : list string :=
  ["total records:"; "total amount:"; "financial summary";
   "total:"; "sum:"; "breakdown"].

Definition high_terms : list string :=
  ["calculation:"; "average:"; "count:"; "distribution"].

Definition medium_terms : list string := ["record"; "row"; "data"].

(** [any(term in content for term in terms)] *)
Definition any_term (terms : list string) (content : string) : bool :=
  existsb (fun term => contains term content) terms.

(** The body of the loop over the chunks in [create_vector_db], for the
    chunk at position [i]. *)
Definition annotate (i : nat) (chunk : Document) : Document :=
  let md := <["chunk_size" := VInt (Z.of_nat (String.length (page_content chunk)))]>
              (<["chunk_id" := VInt (Z.of_nat i)]> (metadata chunk)) in
  let content := lower (page_content chunk) in
  {| page_content := page_content chunk;
     metadata :=
       if any_term critical_terms content then
         <["contains_totals" := VBool true]> (<["priority" := VStr "critical"]> md)
       else if any_term high_terms content then
         <["contains_calculations" := VBool true]> (<["priority" := VStr "high"]> md)
       else if any_term medium_terms content then
         <["contains_records" := VBool true]> (<["priority" := VStr "medium"]> md)
       else
         <["priority" := VStr "low"]> md |}.

Definition annotate_chunks (chunks : list Document) : list Document :=
  imap annotate chunks.

(** The vector store handle. *)
Record Chroma : Type := mkChroma { collection_name : string }.

(** What the model server and the retrieval chain answer. *)
Record env : Type := mkEnv {
  chat_model : outcome unit;
  as_retriever : outcome unit;
  invoke_chain : outcome string
}.

Definition no_document_message : string :=
  "Please upload and process a financial document first.".

Definition process_question_with_rag (w : env) (question : string)
           (vector_db : option Chroma) (model_name : string) : M string :=
  match vector_db with
  | None => mret no_document_message
  | Some _ =>
      try_except
        (_ ← call (EvChatModel model_name) (chat_model w);
         _ ← call (EvRetriever 100) (as_retriever w);
         result ← call (EvInvokeChain question) (invoke_chain w);
         mret result)
        (fun e => mret ("Error: " +:+ e +:+ ". Please try rephrasing your question."))
  end.

End Pipeline.

(** ** The annotation loop of [create_vector_db], in place

    The loop writes into the metadata dictionary of each chunk. A chunk
    is its text and a reference to its dictionary; the heap holds the
    dictionaries, so that two chunks may share one. *)
Module InPlace.

Record chunk : Type := mkChunk { text : string; md : nat }.

Definition heap : Type := gmap nat (gmap string value).

(** The chunk as a document, read from the heap. *)
Definition view (h : heap) (c : chunk) : option Document :=
  m ← h !! md c;
  Some {| page_content := text c; metadata := m |}.

(** The body of the loop for the chunk at position [i]: the four writes
    go to the dictionary of the chunk. *)
Definition annotate (h : heap) (i : nat) (c : chunk) : heap :=
  match view h c with
  | Some d => <[md c := metadata (Pipeline.annotate i d)]> h
  | None => h
  end.

(** [for i, chunk in enumerate(chunks)], from position [i] on. *)
Fixpoint annotate_from (h : heap) (i : nat) (chunks : list chunk) : heap :=
  match chunks with
  | [] => h
  | c :: rest => annotate_from (annotate h i c) (S i) rest
  end.

Definition annotate_chunks (h : heap) (chunks : list chunk) : heap :=
  annotate_from h 0 chunks.

End InPlace.

(** ** The application ([main.py]): the choice of the extractor *)
Module Main.
Import Text.

(** [file.name.lower().split(".")[-1]] *)
Definition extension (file_name : string) : string :=
  List.last (split_on "." (lower file_name)) EmptyString.

(** The extractors of the two libraries and the decoded bytes of the
    upload, [file.read().decode("utf-8", errors="ignore")]. *)
Record env : Type := mkEnv {
  pdf : Pdf.env;
  spreadsheet : Excel.env;
  decoded : string
}.

Definition text_document (file_name txt type_tag : string) : Document :=
  {| page_content := txt;
     metadata := dict [("source", VStr file_name); ("type", VStr type_tag)] |}.

(** The branches on [ext] in the handler of the button that processes
    the document. *)
Definition extract (w : env) (file : upload) : M (list Document) :=
  let ext := extension (name file) in
  if String.eqb ext "pdf" then
    Pdf.extract_from_pdf (pdf w) file true
  else if existsb (String.eqb ext) ["xlsx"; "xls"; "csv"] then
    Excel.extract_from_excel (spreadsheet w) file
  else if String.eqb ext "txt" then
    mret [text_document (name file) (decoded w) "text"]
  else
    mret [text_document (name file) (decoded w) "unknown"].

(** *** Counting documents by a metadata key

    [counts[k] = counts.get(k, 0) + 1] for [k = doc.metadata.get(key,
    default)], as the extraction summary does for [type] and
    [qa_pipeline.debug_retrieval] for [priority]. The dictionary keeps its
    keys in the order of insertion; keys are compared as Python compares
    them, so that [True] and [1] are one key. *)
Definition get (key : string) (default : value) (d : Document) : value :=
  match metadata d !! key with
  | Some v => v
  | None => default
  end.

Definition key_eqb (a b : value) : bool :=
  match a, b with
  | VStr s, VStr t => String.eqb s t
  | VStr _, _ | _, VStr _ => false
  | VInt x, VInt y => Z.eqb x y
  | VInt x, VBool c => Z.eqb x (if c then 1 else 0)
  | VBool c, VInt y => Z.eqb (if c then 1 else 0) y
  | VBool c, VBool e => Bool.eqb c e
  end.

Fixpoint bump (k : value) (counts : list (value * nat)) : list (value * nat) :=
  match counts with
  | [] => [(k, 1%nat)]
  | (k0, n) :: rest =>
      if key_eqb k0 k then (k0, (n + 1)%nat) :: rest
      else (k0, n) :: bump k rest
  end.

Definition tally (key : string) (default : value) (docs : list Document)
  : list (value * nat) :=
  fold_left (fun counts d => bump (get key default d) counts) docs [].

End Main.

(** ** The application ([main.py]): one run of the script

    Streamlit runs [main()] from top to bottom at every interaction; what
    survives from one run to the next is [st.session_state]. A run is a
    function of that state and of what the widgets and the outside world
    answer during the run. [st.rerun()] and [return] end the run at once:
    the exception of [st.rerun()] is not an [Exception], so that the
    handlers of the script do not catch it. *)
Module Session.
Import Text.

Record message : Type := mkMessage { role : string; content : string }.

(** [st.session_state] once the five [setdefault] calls are done. *)
Record state : Type := mkState {
  messages : list message;
  vector_db : option Pipeline.Chroma;
  last_uploaded_filename : option string;
  processing_complete : bool;
  file_hash : option string
}.

(** The state the [setdefault] calls build in the first run. *)
Definition initial : state :=
  {| messages := [];
     vector_db := None;
     last_uploaded_filename := None;
     processing_complete := false;
     file_hash := None |}.

(** [get_ollama_models]: [ollama.list()] may raise, may lack the key
    [models], and an entry may lack the key [model]; any exception gives
    the empty list. *)
Definition get_ollama_models
           (listing : outcome (option (list (gmap string string)))) : list string :=
  match listing with
  | Raise _ => []
  | Ok None => []
  | Ok (Some entries) =>
      match mapM (fun m : gmap string string => m !! "model") entries with
      | Some names => names
      | None => []
      end
  end.

(** What becomes of the documents between the extraction and the vector
    store: an exception before [create_vector_db] is called ([json.dumps],
    [json.loads] or the constructor of [Document]), the store that
    [st.cache_resource]
    holds for the same arguments, or a call of [create_vector_db], which
    embeds the chunks on the model server. *)
Inductive indexing_outcome : Type :=
| NotIndexed (e : string)
| Cached (db : Pipeline.Chroma)
| Created (r : outcome Pipeline.Chroma).

(** What the widgets and the outside world answer in one run. *)
Record inputs : Type := mkInputs {
  cached_models : option (list string); (* what [st.cache_data] holds for the model list *)
  listing : outcome (option (list (gmap string string))); (* [ollama.list()] *)
  selection : string;              (* the select box, when there are models *)
  clear_pressed : bool;            (* the button of the side bar *)
  clear_cache : outcome unit;      (* [cached_create_vector_db.clear()] there *)
  file : option (upload * string); (* the upload and [str(hash(file.read()))] *)
  reset_cache : outcome unit;      (* [cached_create_vector_db.clear()] for a new file *)
  process_pressed : bool;          (* the button that processes the document *)
  files : Main.env;
  indexing : indexing_outcome;     (* [json.dumps] and [cached_create_vector_db] *)
  truthy_db : Pipeline.Chroma -> bool; (* [bool(vector_db)] *)
  user_q : option string;          (* [st.chat_input] *)
  server : Pipeline.env
}.

(** The call of the cached [get_ollama_models]: the server is asked only
    when the cache holds nothing. *)
Definition models_of (i : inputs) : list string * list event :=
  match cached_models i with
  | Some models => (models, [])
  | None => (get_ollama_models (listing i), [EvListModels])
  end.

(** A run goes on with the next statement or has ended. *)
Inductive flow : Type :=
| Continue (s : state) (t : list event)
| Halt (s : state) (t : list event).

(** The five assignments after the cache is cleared, and those for a
    vanished upload. *)
Definition reset (s : state) : state :=
  {| messages := [];
     vector_db := None;
     last_uploaded_filename := None;
     processing_complete := false;
     file_hash := None |}.

(** The five assignments for a new upload. *)
Definition new_file (file_name hash : string) (s : state) : state :=
  {| messages := [];
     vector_db := None;
     last_uploaded_filename := Some file_name;
     processing_complete := false;
     file_hash := Some hash |}.

(** [a != b] for a value of the session that may be [None]. *)
Definition differs (a : option string) (b : string) : bool :=
  match a with
  | Some x => negb (String.eqb x b)
  | None => true
  end.

(** The button that clears the vector store. Deleting the collection
    touches no key of the session and its failure is only logged. *)
Definition clear_block (i : inputs) (s : state) : flow :=
  if clear_pressed i then
    match clear_cache i with
    | Ok _ => Halt (reset s) []
    | Raise _ => Continue s []
    end
  else Continue s [].

(** The two assignments after the vector store is there. *)
Definition indexed (db : Pipeline.Chroma) (s : state) : state :=
  {| messages := messages s;
     vector_db := Some db;
     last_uploaded_filename := last_uploaded_filename s;
     processing_complete := true;
     file_hash := file_hash s |}.

(** The handler of the button that processes the document. *)
Definition process (i : inputs) (f : upload) (s : state) : flow :=
  let m := Main.extract (files i) f in
  match fst m with
  | Raise _ => Continue s (snd m)
  | Ok [] => Halt s (snd m)
  | Ok _ =>
      match indexing i with
      | NotIndexed _ => Continue s (snd m)
      | Cached db => Halt (indexed db s) (snd m)
      | Created (Raise _) => Continue s (snd m ++ [EvCreateVectorDb])
      | Created (Ok db) => Halt (indexed db s) (snd m ++ [EvCreateVectorDb])
      end
  end.

Definition process_block (i : inputs) (f : upload) (s : state) : flow :=
  if negb (processing_complete s) then
    if process_pressed i then process i f s else Continue s []
  else Continue s [].

(** The part of the script about the upload. The cache is cleared for a
    new file outside of any handler: its exception ends the run. *)
Definition upload_block (i : inputs) (s : state) : flow :=
  match file i with
  | Some (f, hash) =>
      if (differs (last_uploaded_filename s) (name f)
          || differs (file_hash s) hash)%bool
      then
        let s1 := new_file (name f) hash s in
        match reset_cache i with
        | Ok _ => process_block i f s1
        | Raise _ => Halt s1 []
        end
      else process_block i f s
  | None =>
      Continue (match last_uploaded_filename s with
                | Some _ => reset s
                | None => s
                end) []
  end.

Definition append (m : message) (s : state) : state :=
  {| messages := messages s ++ [m];
     vector_db := vector_db s;
     last_uploaded_filename := last_uploaded_filename s;
     processing_complete := processing_complete s;
     file_hash := file_hash s |}.

(** The answer to a question, [None] when there is none to store. *)
Definition answer_to (i : inputs) (selected_model : option string)
           (db : Pipeline.Chroma) (q : string) : option string * list event :=
  if negb (truthy_db i db) then (None, [])
  else match selected_model with
       | None => (None, [])
       | Some model =>
           if negb (truthy model) then (None, [])
           else
             let m := Pipeline.process_question_with_rag (server i) q (Some db) model in
             match fst m with
             | Ok answer => (Some answer, snd m)
             | Raise _ => (None, snd m)
             end
       end.

(** The chat, shown when the session holds a vector store that is
    true. *)
Definition chat_block (i : inputs) (selected_model : option string) (s : state)
  : state * list event :=
  match vector_db s with
  | None => (s, [])
  | Some db =>
      if truthy_db i db then
        match user_q i with
        | None => (s, [])
        | Some q =>
            if truthy q then
              let s1 := append {| role := "user"; content := q |} s in
              let r := answer_to i selected_model db q in
              match fst r with
              | Some answer =>
                  if truthy answer
                  then (append {| role := "assistant"; content := answer |} s1, snd r)
                  else (s1, snd r)
              | None => (s1, snd r)
              end
            else (s, [])
        end
      else (s, [])
  end.

Definition main (i : inputs) (s : state) : state * list event :=
  let models := fst (models_of i) in
  let t0 := snd (models_of i) in
  let selected_model :=
    match models with
    | [] => None
    | _ => Some (selection i)
    end in
  match clear_block i s with
  | Halt s' t => (s', t0 ++ t)
  | Continue s1 t1 =>
      match upload_block i s1 with
      | Halt s' t2 => (s', t0 ++ t1 ++ t2)
      | Continue s2 t2 =>
          let r := chat_block i selected_model s2 in
          (fst r, t0 ++ t1 ++ t2 ++ snd r)
      end
  end.

End Session.

(* ===================================================================== *)
(** * Part II: vocabulary of the properties and sample inputs              *)
(* ===================================================================== *)

Section ClassifierTerms.
Import Pipeline.

(** The keys of the three flags the classifier may set. *)
Definition flag_keys : list string :=
  ["contains_totals"; "contains_calculations"; "contains_records"].

(** The metadata of a chunk before the priority is written. *)
Definition base_metadata (i : nat) (chunk : Document) : gmap string value :=
  <["chunk_size" := VInt (Z.of_nat (String.length (page_content chunk)))]>
    (<["chunk_id" := VInt (Z.of_nat i)]> (metadata chunk)).

End ClassifierTerms.

Section StrategyTerms.
Import Pdf.

(** The documents a helper hands back. *)
Definition yield (m : M (list Document)) : list Document :=
  match fst m with
  | Ok docs => docs
  | Raise _ => []
  end.

(** The documents the specification describes: those of the first of
    the three strategies that yields any. *)
Definition first_yielding_strategy (w : env) (tmp : string) : list Document :=
  let p := yield (_text_pdfplumber w tmp) in
  let q := yield (_text_pypdf w tmp) in
  let o := yield (_text_ocr w tmp) in
  if nonempty p then p else if nonempty q then q else o.

(** A scanned file: the two text layers are blank, recognition reads
    text on the second page. *)
Definition scanned_pdf : env :=
  {| make_temp := Ok tt;
     tmp_path := "/tmp/tmpab12.pdf";
     write_temp := Ok tt;
     plumber_pages := Ok [Ok None; Ok (Some "  ")];
     pypdf_pages := Ok [Ok (Some ""); Ok None];
     ocr_pages := Ok [Ok " "; Ok "Revenue 2023: 1,200"];
     plumber_tables := Ok [Ok None; Ok (Some [])];
     remove_temp := Ok tt |}.

End StrategyTerms.

Section FailureInputs.

(** A damaged file that one library rejects and the other reads. *)
Definition half_readable_pdf : Pdf.env :=
  {| Pdf.make_temp := Ok tt;
     Pdf.tmp_path := "/tmp/tmpcd34.pdf";
     Pdf.write_temp := Ok tt;
     Pdf.plumber_pages := Raise "No /Root object";
     Pdf.pypdf_pages := Ok [Ok (Some "Balance 10")];
     Pdf.ocr_pages := Ok [];
     Pdf.plumber_tables := Raise "No /Root object";
     Pdf.remove_temp := Ok tt |}.

(** A CSV file that pandas cannot decode. *)
Definition undecodable_csv : Excel.env :=
  {| Excel.write_temp := Ok tt;
     Excel.read_csv := Raise "'utf-8' codec can't decode byte 0xff";
     Excel.read_excel_openpyxl := Raise "File is not a zip file";
     Excel.read_excel_xlrd := Raise "Unsupported format, or corrupt file";
     Excel.temp_exists := true;
     Excel.remove_temp := Ok tt |}.

End FailureInputs.

Section TableTerms.
Import Pdf.

(** A row without column names: its stripped cells, joined. *)
Definition plain_row (row : table_row) : string :=
  Text.join " | " (map clean_cell row).

(** The rendering the specification describes: the first non-empty row
    gives the column names, every later non-empty row is qualified by
    them. *)
Definition render_table_first_nonempty (tbl : table) : list string :=
  match List.filter row_nonempty tbl with
  | [] => []
  | header :: body =>
      let headers := map clean_cell header in
      ("HEADERS: " +:+ Text.join " | " headers)
        :: map (fun row => qualified_row headers (map clean_cell row)) body
  end.

(** A table whose first extracted row is blank. *)
Definition table_with_blank_first_row : table :=
  [ [None; Some ""];
    [Some "Item"; Some "Amount"];
    [Some "Rent"; Some " 1200 "] ].

End TableTerms.

Section ChunkTerms.
Import Excel.
Local Open Scope nat_scope.

(** What the metadata of a chunk says about its extent. *)
Definition chunk_bounds (d : Document) : option value * option value * option value :=
  (metadata d !! "chunk_start", metadata d !! "chunk_end", metadata d !! "rows").

End ChunkTerms.

(** A ledger sheet of 450 rows. *)
Definition ledger_sheet : DataFrame :=
  {| columns := [("Account", DObject); ("Amount", DNumber)];
     rows := map (fun k => [CStr "cash"; CInt (Z.of_nat k)]) (seq 1 450) |}.

(** A workbook with that one sheet, read by the first engine. *)
Definition ledger_workbook : Excel.env :=
  {| Excel.write_temp := Ok tt;
     Excel.read_csv := Raise "Error tokenizing data";
     Excel.read_excel_openpyxl := Ok [("Ledger", ledger_sheet)];
     Excel.read_excel_xlrd := Raise "Unsupported format, or corrupt file";
     Excel.temp_exists := true;
     Excel.remove_temp := Ok tt |}.

Section GroupTerms.
Import Excel.
Local Open Scope nat_scope.

(** The [type] tag of a document. *)
Definition doc_type (d : Document) : option value := metadata d !! "type".

(** The column is passed over by the grouping loop. *)
Definition unsuitable (df : DataFrame) (c : nat * (string * dtype)) : Prop :=
  suitable df (fst c) (snd (snd c)) = false.

(** A sales table of 150 rows: the regions are East (148 rows), North and
    West (one row each). *)
Definition lopsided_sales : DataFrame :=
  {| columns := [("Region", DObject); ("Amount", DNumber)];
     rows := map (fun k => [CStr "East"; CInt (Z.of_nat k)]) (seq 1 148)
             ++ [[CStr "North"; CInt 7]; [CStr "West"; CInt 9]] |}.


End GroupTerms.

Section NumberTerms.
Import Text.

(** The character is neither a digit nor the minus sign, so it does not
    occur in a printed integer. *)
Definition not_in_numbers (c : ascii) : Prop :=
  forall d, In d (list_ascii_of_string "-0123456789") -> Ascii.eqb d c = false.

End NumberTerms.

Section RendererTerms.
Import Text Renderer.

(** No label and no cell text of the frame contains the character. *)
Definition labels_free (c : ascii) (df : DataFrame) : bool :=
  forallb (fun col : string * dtype => negb (has_char c (fst col))) (columns df).

Definition cell_free (c : ascii) (x : cell) : bool :=
  negb (has_char c (Frame.str_cell x)).

Definition frame_free (c : ascii) (df : DataFrame) : bool :=
  (labels_free c df && forallb (forallb (cell_free c)) (rows df))%bool.

(** The fields of a data line, and what they are read back as. *)
Definition fields (cols : list (string * dtype)) (row : list cell) : list string :=
  map (fun jc : nat * (string * dtype) =>
         fst (snd jc) +:+ ":" +:+ Frame.str_cell (Frame.cell_at (fst jc) row))
      (combine (seq 0 (length cols)) cols).

Definition pairs (cols : list (string * dtype)) (row : list cell)
  : list (string * string) :=
  map (fun jc : nat * (string * dtype) =>
         (fst (snd jc), Frame.str_cell (Frame.cell_at (fst jc) row)))
      (combine (seq 0 (length cols)) cols).

End RendererTerms.

Section RowInputs.
Import Text Renderer.

(** A note column with a line break inside a cell, as a quoted CSV field
    can hold. *)
Definition two_line_note : DataFrame :=
  {| columns := [("Invoice", DNumber); ("Note", DObject)];
     rows := [ [CInt 17; CStr ("paid" +:+ nl +:+ "late")] ] |}.

End RowInputs.

(** A small sales table. *)
Definition sales_table : DataFrame :=
  {| columns := [("Region", DObject); ("Amount", DNumber)];
     rows := [ [CStr "East"; CInt 10]; [CStr "West"; CInt 20];
               [CStr "East"; CInt (-3)] ] |}.

Section AggregateTerms.
Local Open Scope Z_scope.

(** The sum of a list of integers, and of their magnitudes. *)
Definition total (vs : list Z) : Z := fold_right Z.add 0 vs.


End AggregateTerms.

Section DivisionTerms.
Local Open Scope Z_scope.


End DivisionTerms.

Section SummaryTerms.
Import Text.




End SummaryTerms.

Section IeeeTerms.
Local Open Scope Z_scope.

(** An integer as a value of the IEEE 754 specification of the Standard
    Library, and the comparison of [f64_div] with its division at
    binary64 (53 bits of precision, exponents below 1024). *)
Definition as_spec_float (z : Z) : SpecFloat.spec_float :=
  match z with
  | Z0 => SpecFloat.S754_zero false
  | Zpos p => SpecFloat.S754_finite false p 0
  | Zneg p => SpecFloat.S754_finite true p 0
  end.

Definition agrees_with_ieee (s n : Z) : bool :=
  match SpecFloat.SFdiv 53 1024 (as_spec_float s) (as_spec_float n),
        Num.f64_div s n with
  | SpecFloat.S754_finite sg m e, Num.mkFloat sg' m' e' =>
      (Bool.eqb sg sg' && (Z.pos m =? m') && (e =? e'))%bool
  | SpecFloat.S754_zero _, Num.mkFloat _ m' _ => m' =? 0
  | _, _ => false
  end.

End IeeeTerms.

(** ** Further vocabulary: what a document says about its origin *)
Section OriginTerms.

(** A document with content from the uploaded file: read from [path],
    labelled with the name of the upload. *)
Definition content_document (path filename : string) (d : Document) : Prop :=
  metadata d !! "source" = Some (VStr path)
  /\ metadata d !! "original_filename" = Some (VStr filename)
  /\ metadata d !! "error" = None.

(** A document that stands for a failure: it names the upload as its
    source, carries the [error] key and no [original_filename]. *)
Definition failure_document (filename : string) (d : Document) : Prop :=
  metadata d !! "source" = Some (VStr filename)
  /\ is_Some (metadata d !! "error")
  /\ metadata d !! "original_filename" = None.

(** The page number of a document. *)
Definition page_of (d : Document) : option value := metadata d !! "page".

(** The document of the table at position [k] of the tables of page [p],
    numbered from [t_idx]: none when every row is blank. *)
Definition table_at (path : string) (p t_idx k : nat) (tbl : Pdf.table)
  : list Document :=
  if existsb Pdf.row_nonempty tbl
  then [Pdf.table_document path p (t_idx + k) (Pdf.render_table tbl)]
  else [].

End OriginTerms.

(** ** Further vocabulary: groups and their order *)
Section GroupOrderTerms.

(** The order in which [groupby] presents its keys. *)
Definition key_le (a b : string) : Prop := String.leb a b = true.

(** The number of rows of each group of a grouping. *)
Definition group_sizes (groups : list (string * DataFrame)) : list nat :=
  map (fun g : string * DataFrame => Frame.len (snd g)) groups.

(** The row has a cell in the column at position [j]. *)
Definition reaches (j : nat) (row : list cell) : Prop := (j < length row)%nat.

End GroupOrderTerms.

(** ** Further vocabulary: the documents of a spreadsheet *)
Section SpreadsheetTerms.

(** A document with content from a spreadsheet: source and original file
    name are the name of the upload, there is no [error] key, and the
    type tag is one of [types]. *)
Definition spreadsheet_document (filename : string) (types : list string)
           (d : Document) : Prop :=
  metadata d !! "source" = Some (VStr filename)
  /\ metadata d !! "original_filename" = Some (VStr filename)
  /\ metadata d !! "error" = None
  /\ exists t, In t types /\ metadata d !! "type" = Some (VStr t).

(** The number of rows a document declares. *)
Definition declared_rows (d : Document) : option value := metadata d !! "rows".

(** The events of a computation, and whether one engine of
    [pd.read_excel] was called. *)
Definition trace {A : Type} (m : M A) : list event := snd m.

Definition reads_excel_with (engine : string) (t : list event) : Prop :=
  In (EvReadExcel engine) t.

(** A workbook that only the second engine can read. *)
Definition legacy_workbook : Excel.env :=
  {| Excel.write_temp := Ok tt;
     Excel.read_csv := Raise "Error tokenizing data";
     Excel.read_excel_openpyxl := Raise "File is not a zip file";
     Excel.read_excel_xlrd :=
       Ok [("Q1", {| columns := [("Item", DObject); ("Amount", DNumber)];
                     rows := [[CStr "Rent"; CInt 1200]] |})];
     Excel.temp_exists := true;
     Excel.remove_temp := Ok tt |}.

End SpreadsheetTerms.

(** ** Further vocabulary: priorities and the chunks on the heap *)
Section PriorityTerms.

(** The priority a chunk is given. *)
Definition priority_of (d : Document) : option value := metadata d !! "priority".

(** Every chunk has a dictionary on the heap. *)
Definition allocated (h : InPlace.heap) (chunks : list InPlace.chunk) : Prop :=
  Forall (fun c => is_Some (h !! InPlace.md c)) chunks.

(** No two chunks share a dictionary. *)
Definition unshared (chunks : list InPlace.chunk) : Prop :=
  List.NoDup (map InPlace.md chunks).

(** Two chunks with dictionaries of their own. *)
Definition two_chunks : list InPlace.chunk :=
  [ InPlace.mkChunk "TOTAL: 40" 7; InPlace.mkChunk "see notes" 9 ].

Definition two_chunk_heap : InPlace.heap :=
  <[7%nat := dict [("source", VStr "a.csv")]]>
    (<[9%nat := dict [("source", VStr "a.csv")]]> ∅).

End PriorityTerms.

(** ** Further vocabulary: documents that reach the classifier whole *)
Section WholeDocumentTerms.

(** The priority the classifier gives to a document that passes the
    splitter as one chunk, at position [i], is not [low]. *)
Definition at_least_medium (i : nat) (d : Document) : Prop :=
  exists p, In p ["critical"; "high"; "medium"]
            /\ priority_of (Pipeline.annotate i d) = Some (VStr p).

(** The message returned for a failure [e] of the question pipeline. *)
Definition rephrase_message (e : string) : string :=
  "Error: " +:+ e +:+ ". Please try rephrasing your question.".

End WholeDocumentTerms.

(** A model server that answers. *)
Definition answering_server : Pipeline.env :=
  {| Pipeline.chat_model := Ok tt;
     Pipeline.as_retriever := Ok tt;
     Pipeline.invoke_chain := Ok "Total revenue is 1,200." |}.

(** ** Further vocabulary: the routes of an upload *)
Section RouteTerms.

(** The upload is handed to the spreadsheet extractor. *)
Definition to_spreadsheet (file_name : string) : bool :=
  existsb (String.eqb (Main.extension file_name)) ["xlsx"; "xls"; "csv"].

(** The counts of a tally, and its keys. *)
Definition counts_of (t : list (value * nat)) : list nat := map snd t.

(** An environment of the application in which every library works. *)
Definition working_application : Main.env :=
  {| Main.pdf := scanned_pdf;
     Main.spreadsheet := legacy_workbook;
     Main.decoded := "Revenue 2023: 1,200" |}.

End RouteTerms.

(** ** Further vocabulary: reading a tally *)
Section TallyTerms.

(** [counts.get(k, 0)] *)
Fixpoint count_for (k : value) (counts : list (value * nat)) : nat :=
  match counts with
  | [] => 0%nat
  | (k0, n) :: rest => if Main.key_eqb k0 k then n else count_for k rest
  end.

(** The documents whose value under [key] equals [k]. *)
Definition filed_under (key : string) (default k : value) (docs : list Document)
  : list Document :=
  List.filter (fun d => Main.key_eqb k (Main.get key default d)) docs.

(** What Python's equality of keys looks at: the text of a string, the
    number of an integer or of a truth value. *)
Definition key_class (v : value) : string + Z :=
  match v with
  | VStr s => inl s
  | VInt x => inr x
  | VBool c => inr (if c then 1 else 0)
  end.

End TallyTerms.

(** ** Further vocabulary: the session between two runs *)
Section SessionTerms.
Import Session.

(** What the keys of the session say about each other: the document
    counts as processed exactly when there is a vector store; without a
    vector store there is no history; the file name and the hash are
    known together; a vector store belongs to a named file. *)
Definition consistent (s : state) : Prop :=
  (processing_complete s = true <-> vector_db s <> None)
  /\ (vector_db s = None -> messages s = [])
  /\ (last_uploaded_filename s = None <-> file_hash s = None)
  /\ (vector_db s <> None -> last_uploaded_filename s <> None).

(** The states of the session: the first one and what a run makes of a
    state. *)
Inductive reachable : state -> Prop :=
| reachable_initial : reachable initial
| reachable_run (i : inputs) (s : state) :
    reachable s -> reachable (fst (main i s)).

(** The state a part of the script leaves. *)
Definition flow_state (f : flow) : state :=
  match f with
  | Continue s _ => s
  | Halt s _ => s
  end.

Definition flow_trace (f : flow) : list event :=
  match f with
  | Continue _ t => t
  | Halt _ t => t
  end.

(** The run sees the upload the session knows: same name, same hash. *)
Definition same_file (i : inputs) (s : state) : bool :=
  match file i with
  | Some (f, hash) =>
      negb (differs (last_uploaded_filename s) (name f)
            || differs (file_hash s) hash)
  | None => false
  end.

(** The button that clears the vector store was pressed and the cache
    could be cleared. *)
Definition cleared (i : inputs) : bool :=
  (clear_pressed i
   && match clear_cache i with Ok _ => true | Raise _ => false end)%bool.

Definition user_message (q : string) : message :=
  {| role := "user"; content := q |}.

Definition assistant_message (a : string) : message :=
  {| role := "assistant"; content := a |}.

(** A call that reaches the model server: for the list of the models,
    for the embeddings of [create_vector_db], or for an answer. *)
Definition asks_model (ev : event) : bool :=
  match ev with
  | EvChatModel _ | EvRetriever _ | EvInvokeChain _ => true
  | EvListModels | EvCreateVectorDb => true
  | _ => false
  end.

(** A call made to answer a question. *)
Definition asks_chat (ev : event) : bool :=
  match ev with
  | EvChatModel _ | EvRetriever _ | EvInvokeChain _ => true
  | _ => false
  end.

(** A run in which a workbook is uploaded and processed, and the session
    once it is ready for questions. *)
Definition processing_run : inputs :=
  {| cached_models := None;
     listing := Ok (Some [ {["model" := "llama3"]} ]);
     selection := "llama3";
     clear_pressed := false;
     clear_cache := Ok tt;
     file := Some ({| name := "ledger.xls" |}, "8731");
     reset_cache := Ok tt;
     process_pressed := true;
     files := working_application;
     indexing := Created (Ok (Pipeline.mkChroma "financial_rag"));
     truthy_db := fun _ => true;
     user_q := Some "What is the total?";
     server := answering_server |}.

Definition ready_session : state :=
  {| messages := [];
     vector_db := Some (Pipeline.mkChroma "financial_rag");
     last_uploaded_filename := Some "ledger.xls";
     processing_complete := true;
     file_hash := Some "8731" |}.

End SessionTerms.

(** ** Further vocabulary: the order of value counts *)
Section CountTerms.

(** [a] is listed before [b]: its count is not smaller. *)
Definition count_ge (a b : string * nat) : Prop := (snd b <= snd a)%nat.

(** The values of a column with the number of their occurrences, in the
    order of first occurrence. *)
Definition counted (s : list cell) : list (string * nat) :=
  map (fun v => (v, Frame.occurrences v (Frame.texts s)))
      (Frame.distinct (Frame.texts s)).

End CountTerms.

(** ** Further vocabulary: blank pages *)
Section PageTerms.

(** Every character of the text is white space. *)
Definition blank (s : string) : bool :=
  forallb Text.is_space (list_ascii_of_string s).

(** The text of a page: [page.extract_text() or ""]. *)
Definition page_text (extracted : option string) : string :=
  match extracted with
  | Some t => t
  | None => ""
  end.

(** The pages up to position [k] were read without an exception. *)
Definition read_through (pages : list (outcome (option string))) (k : nat) : Prop :=
  forall j, (j < k)%nat -> exists x, pages !! j = Some (Ok x).

End PageTerms.

(** ** Further vocabulary: the frames of the embedding and the order of
    additions *)
Section FrameTerms.
Local Open Scope Z_scope.







End FrameTerms.

(* ===================================================================== *)
(** * Part III: properties                                                *)
(* ===================================================================== *)

(** ** Facts about text *)
Section TextFacts.
Import Text.

Lemma str_app_cons (c : ascii) (s t : string) :
  String c s +:+ t = String c (s +:+ t).
Proof. reflexivity. Qed.

Lemma str_app_nil_l (t : string) : "" +:+ t = t.
Proof. reflexivity. Qed.

Lemma str_app_nil_r (s : string) : s +:+ "" = s.
Proof. induction s as [|c s IH]; [reflexivity|]. rewrite str_app_cons, IH. reflexivity. Qed.

Lemma str_app_assoc (a b c : string) : (a +:+ b) +:+ c = a +:+ (b +:+ c).
Proof.
  induction a as [|x a IH]; [reflexivity|].
  rewrite !str_app_cons, IH. reflexivity.
Qed.

Lemma lower_app (a b : string) : lower (a +:+ b) = lower a +:+ lower b.
Proof.
  induction a as [|c a IH]; [reflexivity|].
  rewrite str_app_cons. simpl. rewrite IH, str_app_cons. reflexivity.
Qed.

Lemma prefix_app (t rest : string) : String.prefix t (t +:+ rest) = true.
Proof.
  induction t as [|c t IH]; [destruct rest; reflexivity|].
  rewrite str_app_cons. simpl.
  destruct (ascii_dec c c) as [_|Hne]; [exact IH | contradiction].
Qed.

Lemma contains_app (t pre post : string) :
  contains t (pre +:+ t +:+ post) = true.
Proof.
  induction pre as [|c pre IH].
  - rewrite str_app_nil_l.
    destruct t as [|d t]; [destruct post; reflexivity|].
    rewrite str_app_cons. cbn [contains]. rewrite <- str_app_cons, prefix_app. reflexivity.
  - rewrite str_app_cons. cbn [contains]. rewrite IH.
    destruct (String.prefix t _); reflexivity.
Qed.

(** A piece of text that reads [term] once lowered is found in the
    lowered text around it. *)
Lemma contains_lowered (term pre u post : string) :
  lower u = term -> contains term (lower (pre +:+ u +:+ post)) = true.
Proof.
  intros <-. rewrite !lower_app. apply contains_app.
Qed.

End TextFacts.

(** ** The priority classifier *)
Section Classifier.
Import Pipeline.

Lemma annotate_critical (i : nat) (chunk : Document) :
  any_term critical_terms (Text.lower (page_content chunk)) = true ->
  metadata (annotate i chunk)
  = <["contains_totals" := VBool true]>
      (<["priority" := VStr "critical"]> (base_metadata i chunk)).
Proof. intros H. unfold annotate. cbn [metadata]. rewrite H. reflexivity. Qed.

Lemma annotate_high (i : nat) (chunk : Document) :
  any_term critical_terms (Text.lower (page_content chunk)) = false ->
  any_term high_terms (Text.lower (page_content chunk)) = true ->
  metadata (annotate i chunk)
  = <["contains_calculations" := VBool true]>
      (<["priority" := VStr "high"]> (base_metadata i chunk)).
Proof. intros H1 H2. unfold annotate. cbn [metadata]. rewrite H1, H2. reflexivity. Qed.

Lemma annotate_medium (i : nat) (chunk : Document) :
  any_term critical_terms (Text.lower (page_content chunk)) = false ->
  any_term high_terms (Text.lower (page_content chunk)) = false ->
  any_term medium_terms (Text.lower (page_content chunk)) = true ->
  metadata (annotate i chunk)
  = <["contains_records" := VBool true]>
      (<["priority" := VStr "medium"]> (base_metadata i chunk)).
Proof.
  intros H1 H2 H3. unfold annotate. cbn [metadata]. rewrite H1, H2, H3. reflexivity.
Qed.

Lemma annotate_low (i : nat) (chunk : Document) :
  any_term critical_terms (Text.lower (page_content chunk)) = false ->
  any_term high_terms (Text.lower (page_content chunk)) = false ->
  any_term medium_terms (Text.lower (page_content chunk)) = false ->
  metadata (annotate i chunk) = <["priority" := VStr "low"]> (base_metadata i chunk).
Proof.
  intros H1 H2 H3. unfold annotate. cbn [metadata]. rewrite H1, H2, H3. reflexivity.
Qed.

Lemma total_colon_is_critical (content : string) :
  Text.contains "total:" content = true ->
  any_term critical_terms content = true.
Proof.
  intros H. unfold any_term, critical_terms. cbn [existsb]. rewrite H.
  rewrite !orb_true_r. reflexivity.
Qed.

Lemma base_metadata_flag (i : nat) (chunk : Document) (k : string) :
  k ∈ flag_keys -> base_metadata i chunk !! k = metadata chunk !! k.
Proof.
  intros Hk. unfold base_metadata, flag_keys in *.
  repeat (apply elem_of_cons in Hk as [->|Hk]);
    [| | |apply elem_of_nil in Hk; contradiction];
    rewrite !lookup_insert_ne by discriminate; reflexivity.
Qed.

End Classifier.

(** C2. A chunk whose text contains "total:" in any letter case is given
    priority [critical] and the flag [contains_totals], whatever else the
    text contains (so also "row", "record" or "data"). In general the
    lowered text is tested against the critical terms, then the high
    terms, then the medium terms; the first list with a match decides the
    priority and the flag, and a text matching none is [low] and gets no
    flag. *)
Theorem C2_classifier_precedence :
  forall (i : nat) (md : gmap string value) (pre u post : string),
    Text.lower u = "total:" ->
    (let chunk := Pipeline.annotate i (mkDocument (pre +:+ u +:+ post) md) in
     metadata chunk !! "priority" = Some (VStr "critical")
     /\ metadata chunk !! "contains_totals" = Some (VBool true))
    /\ forall (c : Document),
        let content := Text.lower (page_content c) in
        let out := metadata (Pipeline.annotate i c) in
        (Pipeline.any_term Pipeline.critical_terms content = true ->
           out !! "priority" = Some (VStr "critical")
           /\ out !! "contains_totals" = Some (VBool true))
        /\ (Pipeline.any_term Pipeline.critical_terms content = false ->
            Pipeline.any_term Pipeline.high_terms content = true ->
              out !! "priority" = Some (VStr "high")
              /\ out !! "contains_calculations" = Some (VBool true)
              /\ out !! "contains_totals" = metadata c !! "contains_totals")
        /\ (Pipeline.any_term Pipeline.critical_terms content = false ->
            Pipeline.any_term Pipeline.high_terms content = false ->
            Pipeline.any_term Pipeline.medium_terms content = true ->
              out !! "priority" = Some (VStr "medium")
              /\ out !! "contains_records" = Some (VBool true)
              /\ out !! "contains_totals" = metadata c !! "contains_totals"
              /\ out !! "contains_calculations" = metadata c !! "contains_calculations")
        /\ (Pipeline.any_term Pipeline.critical_terms content = false ->
            Pipeline.any_term Pipeline.high_terms content = false ->
            Pipeline.any_term Pipeline.medium_terms content = false ->
              out !! "priority" = Some (VStr "low")
              /\ forall k, k ∈ flag_keys -> out !! k = metadata c !! k).
Proof.
  intros i md pre u post Hu. split.
  - cbn zeta.
    rewrite annotate_critical.
    + split; [|apply lookup_insert_eq].
      rewrite lookup_insert_ne by discriminate. apply lookup_insert_eq.
    + cbn [page_content]. apply total_colon_is_critical.
      apply contains_lowered, Hu.
  - intros c content out. subst content out. repeat split.
    + rewrite annotate_critical by assumption.
      rewrite lookup_insert_ne by discriminate. apply lookup_insert_eq.
    + rewrite annotate_critical by assumption. apply lookup_insert_eq.
    + rewrite annotate_high by assumption.
      rewrite lookup_insert_ne by discriminate. apply lookup_insert_eq.
    + rewrite annotate_high by assumption. apply lookup_insert_eq.
    + rewrite annotate_high by assumption.
      rewrite !lookup_insert_ne by discriminate.
      apply base_metadata_flag. unfold flag_keys. repeat constructor.
    + rewrite annotate_medium by assumption.
      rewrite lookup_insert_ne by discriminate. apply lookup_insert_eq.
    + rewrite annotate_medium by assumption. apply lookup_insert_eq.
    + rewrite annotate_medium by assumption.
      rewrite !lookup_insert_ne by discriminate.
      apply base_metadata_flag. unfold flag_keys. repeat constructor.
    + rewrite annotate_medium by assumption.
      rewrite !lookup_insert_ne by discriminate.
      apply base_metadata_flag. unfold flag_keys. repeat constructor.
    + rewrite annotate_low by assumption. apply lookup_insert_eq.
    + intros k Hk. rewrite annotate_low by assumption.
      rewrite lookup_insert_ne.
      * apply base_metadata_flag, Hk.
      * intros <-. unfold flag_keys in Hk.
        repeat (apply elem_of_cons in Hk as [Hk|Hk]; [discriminate|]).
        apply elem_of_nil in Hk. contradiction.
Qed.

Lemma C2_classifier_precedence_witness :
  Text.lower "TOTAL:" = "total:"
  /\ metadata (Pipeline.annotate 0 (mkDocument ("Row 1 data " +:+ "TOTAL:" +:+ " 5") ∅))
       !! "priority" = Some (VStr "critical").
Proof.
  split; [reflexivity|].
  exact (proj1 (proj1 (C2_classifier_precedence 0 ∅ "Row 1 data " "TOTAL:" " 5" eq_refl))).
Defined.

(** ** Question answering without an index *)

(** C10. Without a vector database the answer is the fixed request to
    upload a document, and nothing is called: no chat model is built, no
    retriever is created and the chain is not invoked. *)
Theorem C10_no_database_short_circuit :
  forall (w : Pipeline.env) (question model_name : string),
    Pipeline.process_question_with_rag w question None model_name
    = (Ok "Please upload and process a financial document first.", []).
Proof. intros w question model_name. reflexivity. Qed.

(** ** The PDF extractor: choice of the text strategy *)
Section PdfStrategies.
Import Pdf.

(** A strategy helper never raises and records exactly its own call. *)
Lemma run_strategy_total (ev : event) (path method : string)
      (answer : outcome (list (outcome (option string)))) :
  exists docs, run_strategy ev path method answer = (Ok docs, [ev]).
Proof.
  destruct answer as [pages|e].
  - exists (text_pages path method 1 pages). reflexivity.
  - exists []. reflexivity.
Qed.

Lemma run_strategy_yield (ev : event) (path method : string)
      (answer : outcome (list (outcome (option string)))) :
  run_strategy ev path method answer
  = (Ok (yield (run_strategy ev path method answer)), [ev]).
Proof.
  destruct (run_strategy_total ev path method answer) as [docs ->].
  reflexivity.
Qed.

Lemma _tables_total (w : env) (path : string) :
  exists docs, _tables w path = (Ok docs, [EvPdfplumberTables]).
Proof.
  unfold _tables. destruct (plumber_tables w) as [pages|e].
  - exists (table_pages path 1 pages). reflexivity.
  - exists []. reflexivity.
Qed.

(** The choice made by [a or b or (c if enable_ocr else [])]. *)
Lemma text_documents_choice (w : env) (tmp : string) (enable_ocr : bool) :
  let p := yield (_text_pdfplumber w tmp) in
  let q := yield (_text_pypdf w tmp) in
  let o := yield (_text_ocr w tmp) in
  text_documents w tmp enable_ocr
  = if nonempty p then (Ok p, [EvPdfplumberText])
    else if nonempty q then (Ok q, [EvPdfplumberText; EvPypdfText])
    else if enable_ocr then (Ok o, [EvPdfplumberText; EvPypdfText; EvOcr])
    else (Ok [], [EvPdfplumberText; EvPypdfText]).
Proof.
  intros p q o. subst p q o. unfold text_documents.
  unfold _text_pdfplumber, _text_pypdf, _text_ocr.
  destruct (run_strategy_total EvPdfplumberText tmp "pdfplumber" (plumber_pages w))
    as [p ->].
  destruct (run_strategy_total EvPypdfText tmp "pypdf" (pypdf_pages w))
    as [q ->].
  match goal with
  | |- context [run_strategy EvOcr tmp "ocr" ?a] =>
      destruct (run_strategy_total EvOcr tmp "ocr" a) as [o ->]
  end.
  unfold yield. cbn [mbind M_bind fst snd].
  destruct (nonempty p); [reflexivity|].
  cbn [app].
  destruct (nonempty q); [reflexivity|].
  destruct enable_ocr; reflexivity.
Qed.

End PdfStrategies.

(** C4, as stated, fails when recognition is switched off: for the scanned
    file the first strategy that would yield text is OCR, but with
    [enable_ocr=False] it is not run and only the placeholder comes
    back. *)
Lemma C4_ocr_disabled_counterexample :
  first_yielding_strategy scanned_pdf (Pdf.tmp_path scanned_pdf)
  = [Pdf.page_document "/tmp/tmpab12.pdf" "ocr" 2 "Revenue 2023: 1,200"]
  /\ Pdf.text_documents scanned_pdf (Pdf.tmp_path scanned_pdf) false
     = (Ok [], [EvPdfplumberText; EvPypdfText])
  /\ fst (Pdf.extract_from_pdf scanned_pdf (mkUpload "scan.pdf") false)
     = Ok [Pdf.placeholder_document "scan.pdf"].
Proof. repeat split; reflexivity. Qed.

(** C4 (amended). The text documents are those of the layout-aware
    strategy if it yields any; otherwise those of the generic page
    strategy if it yields any; otherwise those of OCR when OCR is
    enabled, and none when it is disabled. A later strategy is not run
    once an earlier one has yielded a document, and OCR runs only when
    both earlier strategies yielded none and it is enabled. With the
    temporary file written, the extractor returns these documents
    followed by the table documents, each carrying the original file
    name, or the placeholder when there are none at all; this when
    [tempfile.mktemp] has returned the name of the file, otherwise its
    exception reaches the caller. *)
Theorem C4_first_yielding_strategy :
  forall (w : Pdf.env) (uploaded_file : upload) (enable_ocr : bool),
    Pdf.write_temp w = Ok tt ->
    let tmp := Pdf.tmp_path w in
    let p := yield (Pdf._text_pdfplumber w tmp) in
    let q := yield (Pdf._text_pypdf w tmp) in
    let o := yield (Pdf._text_ocr w tmp) in
    let chosen :=
      if Pdf.nonempty p then p
      else if Pdf.nonempty q then q
      else if enable_ocr then o else [] in
    let calls :=
      if Pdf.nonempty p then [EvPdfplumberText]
      else if Pdf.nonempty q then [EvPdfplumberText; EvPypdfText]
      else if enable_ocr then [EvPdfplumberText; EvPypdfText; EvOcr]
      else [EvPdfplumberText; EvPypdfText] in
    Pdf.text_documents w tmp enable_ocr = (Ok chosen, calls)
    /\ (enable_ocr = true -> chosen = first_yielding_strategy w tmp)
    /\ (In EvOcr calls -> p = [] /\ q = [] /\ enable_ocr = true)
    /\ (In EvPypdfText calls -> p = [])
    /\ exists table_docs,
        Pdf._tables w tmp = (Ok table_docs, [EvPdfplumberTables])
        /\ fst (Pdf.extract_from_pdf w uploaded_file enable_ocr)
           = match Pdf.make_temp w with
             | Ok _ =>
                 Ok (let docs := map (Pdf.with_filename (name uploaded_file))
                                     (chosen ++ table_docs) in
                     if Pdf.nonempty docs then docs
                     else [Pdf.placeholder_document (name uploaded_file)])
             | Raise e => Raise e
             end.
Proof.
  intros w uploaded_file enable_ocr Hw tmp p q o chosen calls.
  assert (Htxt : Pdf.text_documents w tmp enable_ocr = (Ok chosen, calls)).
  { rewrite text_documents_choice. fold p q o. subst chosen calls.
    destruct (Pdf.nonempty p); [reflexivity|].
    destruct (Pdf.nonempty q); [reflexivity|].
    destruct enable_ocr; reflexivity. }
  split; [exact Htxt|]. split; [|split; [|split]].
  - intros ->. subst chosen. unfold first_yielding_strategy. fold tmp p q o.
    reflexivity.
  - subst calls. destruct p as [|d p']; cbn [Pdf.nonempty].
    + destruct q as [|d q']; cbn [Pdf.nonempty].
      * destruct enable_ocr; [auto|].
        cbn [In]. intros [H|[H|[]]]; discriminate.
      * cbn [In]. intros [H|[H|[]]]; discriminate.
    + cbn [In]. intros [H|[]]; discriminate.
  - subst calls. destruct p as [|d p']; cbn [Pdf.nonempty]; [auto|].
    cbn [In]. intros [H|[]]; discriminate.
  - destruct (_tables_total w tmp) as [table_docs Ht].
    exists table_docs. split; [exact Ht|].
    unfold Pdf.extract_from_pdf, Pdf.extract_body. fold tmp.
    rewrite Hw, Htxt, Ht.
    destruct (Pdf.make_temp w) as [[]|e]; [|reflexivity].
    destruct (Pdf.remove_temp w); reflexivity.
Qed.

Lemma C4_first_yielding_strategy_witness :
  Pdf.write_temp scanned_pdf = Ok tt
  /\ fst (Pdf.extract_from_pdf scanned_pdf (mkUpload "scan.pdf") true)
     = Ok [Pdf.with_filename "scan.pdf"
             (Pdf.page_document "/tmp/tmpab12.pdf" "ocr" 2 "Revenue 2023: 1,200")].
Proof.
  split; [reflexivity|].
  destruct (C4_first_yielding_strategy scanned_pdf (mkUpload "scan.pdf") true eq_refl)
    as (_ & _ & _ & _ & table_docs & Ht & Hres).
  rewrite Hres. injection Ht as <-. reflexivity.
Defined.

(** ** The page loop of the text strategies *)
Section PageLoop.
Import Pdf.

(** The documents of the page loop, by page. *)
Lemma text_pages_cons (path method : string) (i : nat)
      (extracted : option string) (rest : list (outcome (option string))) :
  text_pages path method i (Ok extracted :: rest)
  = (let txt := match extracted with
                | Some t => if Text.truthy t then t else ""
                | None => ""
                end in
     if Text.truthy (Text.strip txt) then [page_document path method i txt] else [])
      ++ text_pages path method (S i) rest.
Proof. reflexivity. Qed.

(** A page that raises ends the loop: the pages before it are kept, the
    pages after it are not looked at. *)
Lemma text_pages_stop (path method : string) (i : nat)
      (before : list (option string)) (e : string)
      (after : list (outcome (option string))) :
  text_pages path method i (map Ok before ++ Raise e :: after)
  = text_pages path method i (map Ok before).
Proof.
  revert i. induction before as [|x before IH]; intros i; [reflexivity|].
  cbn [map app]. rewrite !text_pages_cons, IH. reflexivity.
Qed.

Lemma text_pages_no_error (path method : string) (i : nat)
      (pages : list (outcome (option string))) :
  Forall (fun d => metadata d !! "error" = None) (text_pages path method i pages).
Proof.
  revert i. induction pages as [|[extracted|e] rest IH]; intros i;
    [constructor | | constructor].
  rewrite text_pages_cons. cbn zeta. apply Forall_app. split; [|apply IH].
  destruct (Text.truthy (Text.strip _)); [|constructor].
  constructor; [|constructor].
  unfold page_document, dict. cbn [metadata fold_left fst snd].
  repeat (rewrite lookup_insert_ne by discriminate). apply lookup_empty.
Qed.

End PageLoop.

(** ** The extractors and exceptions *)
Section Failures.

Lemma dict_error_key (source msg : string) :
  dict [("source", VStr source); ("error", VStr msg)] !! "error" = Some (VStr msg).
Proof. unfold dict. cbn [fold_left fst snd]. apply lookup_insert_eq. Qed.

(** The clean-up of the PDF extractor swallows its own exception. *)
Lemma pdf_cleanup_total (w : Pdf.env) :
  exists t, try_except (call EvRemoveTemp (Pdf.remove_temp w)) (fun _ => mret tt)
            = (Ok tt, t).
Proof.
  destruct (Pdf.remove_temp w) as [[]|e]; eexists; reflexivity.
Qed.

(** In the body of the PDF extractor only writing the temporary file
    can raise: every library call sits in a helper that catches. *)
Lemma pdf_body_raises_only_on_write (w : Pdf.env) (f : upload) (ocr : bool) (e : string) :
  fst (Pdf.extract_body w f ocr) = Raise e -> Pdf.write_temp w = Raise e.
Proof.
  unfold Pdf.extract_body.
  destruct (Pdf.write_temp w) as [[]|e'] eqn:Hw.
  - pose proof (text_documents_choice w (Pdf.tmp_path w) ocr) as Ht.
    cbn zeta in Ht. rewrite Ht.
    destruct (_tables_total w (Pdf.tmp_path w)) as [td ->].
    repeat match goal with |- context [if ?b then _ else _] => destruct b end;
      cbn; discriminate.
  - cbn. intros [= ->]. reflexivity.
Qed.

(** The PDF extractor lets an exception of [tempfile.mktemp] escape: the
    name is made before its [try], while the spreadsheet extractor makes
    it inside. Nothing is written or removed then. *)
Lemma pdf_make_temp_failure_escapes (w : Pdf.env) (f : upload) (ocr : bool)
      (e : string) :
  Pdf.make_temp w = Raise e ->
  Pdf.extract_from_pdf w f ocr = (Raise e, [EvMakeTemp]).
Proof.
  intros Hmk. unfold Pdf.extract_from_pdf. rewrite Hmk. reflexivity.
Qed.

(** With the name made, the extractor is its [try] statement. *)
Lemma pdf_extract_named (w : Pdf.env) (f : upload) (ocr : bool) :
  Pdf.make_temp w = Ok tt ->
  let r := try_finally
             (try_except (Pdf.extract_body w f ocr)
                         (fun e => mret [Pdf.error_document (name f) e]))
             (try_except (call EvRemoveTemp (Pdf.remove_temp w))
                         (fun _ => mret tt)) in
  Pdf.extract_from_pdf w f ocr = (fst r, EvMakeTemp :: snd r).
Proof.
  intros Hmk. unfold Pdf.extract_from_pdf. rewrite Hmk. reflexivity.
Qed.

(** The spreadsheet extractor lets an exception of its clean-up escape:
    [os.remove] in its [finally] block is not guarded, unlike the one of
    the PDF extractor. *)
Lemma excel_cleanup_failure_escapes (w : Excel.env) (f : upload) (e : string) :
  Excel.temp_exists w = true ->
  Excel.remove_temp w = Raise e ->
  fst (Excel.extract_from_excel w f) = Raise e.
Proof.
  intros Hex Hrm. unfold Excel.extract_from_excel. rewrite Hex, Hrm. reflexivity.
Qed.

(** The body of the spreadsheet extractor raises only when the temporary
    file cannot be written, the CSV reader fails, or both Excel engines
    fail. *)
Lemma excel_body_raises (w : Excel.env) (f : upload) (e : string) :
  fst (Excel.extract_body w f) = Raise e ->
  Excel.write_temp w = Raise e
  \/ Excel.read_csv w = Raise e
  \/ (exists e1, Excel.read_excel_openpyxl w = Raise e1)
      /\ Excel.read_excel_xlrd w = Raise e.
Proof.
  unfold Excel.extract_body.
  destruct (Excel.write_temp w) as [[]|e0]; [|cbn; intros [= ->]; auto].
  destruct (String.eqb _ ".csv").
  - destruct (Excel.read_csv w) as [df|e0]; cbn; [discriminate|].
    intros [= ->]. auto.
  - destruct (Excel.read_excel_openpyxl w) as [sheets|e1]; cbn; [discriminate|].
    destruct (Excel.read_excel_xlrd w) as [sheets|e2]; cbn; [discriminate|].
    intros [= ->]. right. right. eauto.
Qed.

(** The documents of a CSV upload and of an Excel upload that are read
    without failure. *)
Lemma extract_from_excel_csv (w : Excel.env) (f : upload) (df : DataFrame) :
  Text.endswith (Text.lower (name f)) ".csv" = true ->
  Excel.write_temp w = Ok tt ->
  Excel.read_csv w = Ok df ->
  Excel.temp_exists w = false \/ Excel.remove_temp w = Ok tt ->
  fst (Excel.extract_from_excel w f) = Ok (Excel.csv_documents (name f) df).
Proof.
  intros Hcsv Hw Hr Hc. unfold Excel.extract_from_excel, Excel.extract_body.
  rewrite Hcsv, Hw, Hr. cbn.
  destruct Hc as [-> | Hrm]; [reflexivity|].
  rewrite Hrm. destruct (Excel.temp_exists w); reflexivity.
Qed.

Lemma extract_from_excel_sheets (w : Excel.env) (f : upload)
      (sheets : list (string * DataFrame)) :
  Text.endswith (Text.lower (name f)) ".csv" = false ->
  Excel.write_temp w = Ok tt ->
  Excel.read_excel_openpyxl w = Ok sheets ->
  Excel.temp_exists w = false \/ Excel.remove_temp w = Ok tt ->
  fst (Excel.extract_from_excel w f)
  = Ok (concat (map (Excel.sheet_documents (name f)) sheets)).
Proof.
  intros Hcsv Hw Hr Hc. unfold Excel.extract_from_excel, Excel.extract_body.
  rewrite Hcsv, Hw, Hr. cbn.
  destruct Hc as [-> | Hrm]; [reflexivity|].
  rewrite Hrm. destruct (Excel.temp_exists w); reflexivity.
Qed.

(** The same when the first engine raised and the second read the
    workbook. *)
Lemma extract_from_excel_retry (w : Excel.env) (f : upload) (e : string)
      (sheets : list (string * DataFrame)) :
  Text.endswith (Text.lower (name f)) ".csv" = false ->
  Excel.write_temp w = Ok tt ->
  Excel.read_excel_openpyxl w = Raise e ->
  Excel.read_excel_xlrd w = Ok sheets ->
  Excel.temp_exists w = false \/ Excel.remove_temp w = Ok tt ->
  fst (Excel.extract_from_excel w f)
  = Ok (concat (map (Excel.sheet_documents (name f)) sheets)).
Proof.
  intros Hcsv Hw Ho Hr Hc. unfold Excel.extract_from_excel, Excel.extract_body.
  rewrite Hcsv, Hw, Ho, Hr. cbn.
  destruct Hc as [-> | Hrm]; [reflexivity|].
  rewrite Hrm. destruct (Excel.temp_exists w); reflexivity.
Qed.

End Failures.

(** C9, as stated, fails for failures inside a PDF strategy: pdfplumber
    raises on the damaged file, both for text and for tables, and the
    extractor returns the page read by PyPDF2, a document without the
    [error] key whose content is the page text. *)
Lemma C9_swallowed_failure_counterexample :
  Pdf.plumber_pages half_readable_pdf = Raise "No /Root object"
  /\ exists d,
      fst (Pdf.extract_from_pdf half_readable_pdf (mkUpload "report.pdf") true) = Ok [d]
      /\ page_content d = "Balance 10"
      /\ metadata d !! "error" = None.
Proof.
  split; [reflexivity|].
  eexists. split; [reflexivity|]. split; [reflexivity|].
  vm_compute. reflexivity.
Qed.

(** C9 (amended). Once [tempfile.mktemp] has returned the name of the
    temporary file, [extract_from_pdf] does not raise: it returns a list
    of documents, and when its body raises (which only writing the
    temporary file can do) the list is the single error document. A
    failure inside one of its helpers is caught there and gives no error
    document: a text strategy returns the documents of the pages it read
    before the failure, none when the file could not be opened, and the
    table extraction returns none when the file could not be opened.
    [extract_from_excel] returns a list of documents whenever its
    clean-up does not raise; when the body raises (after the retry of the
    Excel reader with the second engine) the list is the single error
    document. An error document carries the message in its content and
    under the [error] key. *)
Theorem C9_failures_become_documents :
  (forall (w : Pdf.env) (f : upload) (ocr : bool),
      Pdf.make_temp w = Ok tt ->
      exists docs,
        fst (Pdf.extract_from_pdf w f ocr) = Ok docs
        /\ (forall e, fst (Pdf.extract_body w f ocr) = Raise e ->
                      docs = [Pdf.error_document (name f) e]
                      /\ Pdf.write_temp w = Raise e)
        /\ (forall ds, fst (Pdf.extract_body w f ocr) = Ok ds -> docs = ds))
  /\ (forall (ev : event) (path method : string)
             (answer : outcome (list (outcome (option string)))),
         exists docs,
           Pdf.run_strategy ev path method answer = (Ok docs, [ev])
           /\ Forall (fun d => metadata d !! "error" = None) docs
           /\ (forall e, answer = Raise e -> docs = [])
           /\ (forall before e after,
                  answer = Ok (map Ok before ++ Raise e :: after) ->
                  docs = Pdf.text_pages path method 1 (map Ok before)))
  /\ (forall (w : Pdf.env) (path : string),
         exists docs,
           Pdf._tables w path = (Ok docs, [EvPdfplumberTables])
           /\ (forall e, Pdf.plumber_tables w = Raise e -> docs = []))
  /\ (forall (w : Excel.env) (f : upload),
         Excel.temp_exists w = false \/ Excel.remove_temp w = Ok tt ->
         exists docs,
           fst (Excel.extract_from_excel w f) = Ok docs
           /\ (forall e, fst (Excel.extract_body w f) = Raise e ->
                         docs = [Excel.error_document (name f) e]
                         /\ (Excel.write_temp w = Raise e
                             \/ Excel.read_csv w = Raise e
                             \/ (exists e1, Excel.read_excel_openpyxl w = Raise e1)
                                 /\ Excel.read_excel_xlrd w = Raise e))
           /\ (forall ds, fst (Excel.extract_body w f) = Ok ds -> docs = ds))
  /\ (forall source e,
         page_content (Pdf.error_document source e) = "Error extracting PDF: " +:+ e
         /\ metadata (Pdf.error_document source e) !! "error" = Some (VStr e)
         /\ page_content (Excel.error_document source e)
            = "Error extracting Excel/CSV data: " +:+ e
         /\ metadata (Excel.error_document source e) !! "error" = Some (VStr e)).
Proof.
  split; [|split; [|split; [|split]]].
  - intros w f ocr Hmk. unfold Pdf.extract_from_pdf. rewrite Hmk.
    destruct (pdf_cleanup_total w) as [t ->].
    pose proof (pdf_body_raises_only_on_write w f ocr) as Hwrite.
    destruct (Pdf.extract_body w f ocr) as [[ds|e] tb].
    + exists ds. cbn. split; [reflexivity|]. split; [discriminate | congruence].
    + exists [Pdf.error_document (name f) e]. cbn.
      split; [reflexivity|]. split; [|discriminate].
      intros e' [= <-]. split; [reflexivity|]. apply Hwrite. reflexivity.
  - intros ev path method answer. destruct answer as [pages|e0].
    + exists (Pdf.text_pages path method 1 pages).
      split; [reflexivity|]. split; [apply text_pages_no_error|].
      split; [discriminate|].
      intros before e after [= ->]. apply text_pages_stop.
    + exists []. split; [reflexivity|]. split; [constructor|].
      split; [reflexivity | discriminate].
  - intros w path. unfold Pdf._tables.
    destruct (Pdf.plumber_tables w) as [pages|e0].
    + eexists. split; [reflexivity | discriminate].
    + exists []. split; reflexivity.
  - intros w f Hclean. unfold Excel.extract_from_excel.
    assert (Hc : exists t,
               (if Excel.temp_exists w
                then call EvRemoveTemp (Excel.remove_temp w) else mret tt)
               = (Ok tt, t)).
    { destruct Hclean as [-> | Hrm]; [eexists; reflexivity|].
      rewrite Hrm. destruct (Excel.temp_exists w); eexists; reflexivity. }
    destruct Hc as [t ->].
    pose proof (excel_body_raises w f) as Hwhy.
    destruct (Excel.extract_body w f) as [[ds|e] tb].
    + exists ds. cbn. split; [reflexivity|]. split; [discriminate | congruence].
    + exists [Excel.error_document (name f) e]. cbn.
      split; [reflexivity|]. split; [|discriminate].
      intros e' [= <-]. split; [reflexivity|]. apply Hwhy. reflexivity.
  - intros source e. repeat split; apply dict_error_key.
Qed.

Lemma C9_failures_become_documents_witness :
  (Excel.temp_exists undecodable_csv = false
   \/ Excel.remove_temp undecodable_csv = Ok tt)
  /\ fst (Excel.extract_from_excel undecodable_csv (mkUpload "ledger.csv"))
     = Ok [Excel.error_document "ledger.csv" "'utf-8' codec can't decode byte 0xff"]
  /\ Pdf.make_temp half_readable_pdf = Ok tt
  /\ exists docs,
      fst (Pdf.extract_from_pdf half_readable_pdf (mkUpload "report.pdf") true) = Ok docs.
Proof.
  split; [right; reflexivity|]. split.
  - destruct (proj1 (proj2 (proj2 (proj2 C9_failures_become_documents)))
                undecodable_csv (mkUpload "ledger.csv") (or_intror eq_refl))
      as (docs & Hres & Herr & _).
    rewrite Hres. f_equal. apply (Herr _ eq_refl).
  - split; [reflexivity|].
    destruct (proj1 C9_failures_become_documents
                half_readable_pdf (mkUpload "report.pdf") true eq_refl)
      as (docs & Hres & _).
    exists docs. exact Hres.
Defined.

(** ** Tables of a PDF page *)
Section PdfTables.
Import Pdf.

(** Past the first position of a table the header can no longer be
    set: the rows are qualified by the header found at position 0, or
    plain when none was found. *)
Lemma table_rows_with_header (h : string) (hs : list string) (tbl : table) (idx : nat) :
  table_rows (S idx) (Some (h :: hs)) tbl
  = map (fun row => qualified_row (h :: hs) (map clean_cell row))
        (List.filter row_nonempty tbl).
Proof.
  revert idx. induction tbl as [|row tbl IH]; intros idx; [reflexivity|].
  cbn [table_rows List.filter].
  destruct (row_nonempty row); cbn [negb].
  - cbn [Nat.eqb andb map]. rewrite IH. reflexivity.
  - apply IH.
Qed.

Lemma table_rows_without_header (tbl : table) (idx : nat) :
  table_rows (S idx) None tbl = map plain_row (List.filter row_nonempty tbl).
Proof.
  revert idx. induction tbl as [|row tbl IH]; intros idx; [reflexivity|].
  cbn [table_rows List.filter].
  destruct (row_nonempty row); cbn [negb].
  - cbn [Nat.eqb andb map]. rewrite IH. reflexivity.
  - apply IH.
Qed.

Lemma row_nonempty_cons (row : table_row) :
  row_nonempty row = true -> exists c cs, row = c :: cs.
Proof. destruct row as [|c cs]; [discriminate|]. eauto. Qed.

End PdfTables.

(** C8, as stated, fails for a table whose first row is blank: the header
    is looked for at position 0 only, so no header is found and the later
    rows are rendered without column names. *)
Lemma C8_blank_first_row_counterexample :
  Pdf.render_table table_with_blank_first_row = ["Item | Amount"; "Rent | 1200"]
  /\ render_table_first_nonempty table_with_blank_first_row
     = ["HEADERS: Item | Amount"; "Item: Rent | Amount: 1200"]
  /\ Pdf.render_table table_with_blank_first_row
     <> render_table_first_nonempty table_with_blank_first_row.
Proof. repeat split; try reflexivity. discriminate. Qed.

(** C8 (amended). The header of a table is its first row, provided that
    row is not blank: its stripped cells become the column names, and
    every later non-blank row is rendered as [ColumnName: value | ...],
    a cell beyond the width of the header being named [Col<position>].
    This is then the rendering from the first non-blank row. When the
    first row is blank no header is detected, and every non-blank row is
    rendered as its stripped cells joined by [" | "]. *)
Theorem C8_header_is_first_row :
  forall (row0 : Pdf.table_row) (rest : Pdf.table),
    Pdf.render_table (row0 :: rest)
    = (if Pdf.row_nonempty row0 then
         let headers := map Pdf.clean_cell row0 in
         ("HEADERS: " +:+ Text.join " | " headers)
           :: map (fun row => Pdf.qualified_row headers (map Pdf.clean_cell row))
                  (List.filter Pdf.row_nonempty rest)
       else map plain_row (List.filter Pdf.row_nonempty rest))
    /\ (if Pdf.row_nonempty row0
        then Pdf.render_table (row0 :: rest)
             = render_table_first_nonempty (row0 :: rest)
        else True)
    /\ forall (headers cells : list string) (i : nat) (c : string),
        cells !! i = Some c ->
        imap (fun i cell => Pdf.col_name headers i +:+ ": " +:+ cell) cells !! i
        = Some ((match headers !! i with
                 | Some h => h
                 | None => "Col" +:+ Text.str_nat (i + 1)
                 end) +:+ ": " +:+ c).
Proof.
  intros row0 rest.
  assert (Hmain : Pdf.render_table (row0 :: rest)
    = (if Pdf.row_nonempty row0 then
         let headers := map Pdf.clean_cell row0 in
         ("HEADERS: " +:+ Text.join " | " headers)
           :: map (fun row => Pdf.qualified_row headers (map Pdf.clean_cell row))
                  (List.filter Pdf.row_nonempty rest)
       else map plain_row (List.filter Pdf.row_nonempty rest))).
  { unfold Pdf.render_table. cbn [Pdf.table_rows].
    destruct (Pdf.row_nonempty row0) eqn:Hrow; cbn [negb].
    - cbn [Nat.eqb Pdf.has_headers negb andb].
      destruct (row_nonempty_cons row0 Hrow) as (c & cs & ->).
      cbn [map]. rewrite table_rows_with_header. reflexivity.
    - apply table_rows_without_header. }
  split; [exact Hmain|]. split.
  - destruct (Pdf.row_nonempty row0) eqn:Hrow; [|exact I].
    rewrite Hmain. unfold render_table_first_nonempty.
    cbn [List.filter]. rewrite Hrow. reflexivity.
  - intros headers cells i c Hc.
    rewrite list_lookup_imap, Hc. reflexivity.
Qed.

Lemma C8_header_is_first_row_witness :
  ["Rent"; "1200"; "EUR"] !! 2%nat = Some "EUR"
  /\ Pdf.render_table [ [Some "Item"; Some " Amount"];
                        [None; None];
                        [Some "Rent"; Some "1200"; Some "EUR"] ]
     = ["HEADERS: Item | Amount"; "Item: Rent | Amount: 1200 | Col3: EUR"]
  /\ imap (fun i cell => Pdf.col_name ["Item"; "Amount"] i +:+ ": " +:+ cell)
          ["Rent"; "1200"; "EUR"] !! 2%nat
     = Some ("Col3" +:+ ": " +:+ "EUR").
Proof.
  split; [reflexivity|]. split.
  - refine (eq_trans (proj1 (C8_header_is_first_row
                               [Some "Item"; Some " Amount"]
                               [ [None; None];
                                 [Some "Rent"; Some "1200"; Some "EUR"] ])) _).
    reflexivity.
  - exact (proj2 (proj2 (C8_header_is_first_row [] []))
                 ["Item"; "Amount"] ["Rent"; "1200"; "EUR"] 2%nat "EUR" eq_refl).
Defined.

(** ** Dictionary literals *)

(** Looks a literal key up in a dictionary literal. *)
Ltac dict_lookup :=
  unfold dict; cbn [fold_left fst snd app];
  repeat (rewrite lookup_insert_ne by discriminate);
  first [apply lookup_insert_eq | apply lookup_empty].

(** ** Chunks of a large Excel sheet *)
Section ExcelChunks.
Import Excel.

Local Open Scope nat_scope.

Lemma len_fillna (df : DataFrame) : Frame.len (Frame.fillna df) = Frame.len df.
Proof. unfold Frame.len, Frame.fillna. cbn [rows]. apply length_map. Qed.

Lemma len_iloc (df : DataFrame) (i n : nat) :
  Frame.len (Frame.iloc df i n) = Nat.min n (Frame.len df - i).
Proof.
  unfold Frame.len, Frame.iloc. cbn [rows].
  rewrite length_take, length_drop. reflexivity.
Qed.

Lemma range_step_200 (n : nat) :
  range_step n 200 = map (fun k => k * 200) (seq 0 ((n + 199) / 200)).
Proof.
  unfold range_step. replace (n + 200 - 1) with (n + 199) by lia. reflexivity.
Qed.

(** Consecutive blocks of [s] elements, enough of them to reach the end,
    put the list together again. *)
Lemma blocks_cover {A : Type} (s m : nat) (l : list A) :
  length l <= m * s ->
  concat (map (fun k => take s (drop (k * s) l)) (seq 0 m)) = l.
Proof.
  revert l. induction m as [|m IH]; intros l Hlen.
  - destruct l; [reflexivity | cbn in Hlen; lia].
  - cbn [seq map concat]. rewrite <- seq_shift, map_map.
    transitivity (take s l ++ drop s l); [|apply take_drop].
    f_equal.
    rewrite <- (IH (drop s l)) by (rewrite length_drop; lia).
    f_equal. apply map_ext. intros k.
    rewrite drop_drop. reflexivity.
Qed.

Lemma chunk_document_metadata (source sheet_name : string) (df : DataFrame) (i : nat) :
  let d := chunk_document source sheet_name df 200 i in
  let k := Nat.min 200 (Frame.len df - i) in
  metadata d !! "type" = Some (VStr "excel_chunk")
  /\ metadata d !! "chunk_start" = Some (VInt (Z.of_nat (i + 1)))
  /\ metadata d !! "chunk_end" = Some (VInt (Z.of_nat (i + k)))
  /\ metadata d !! "rows" = Some (VInt (Z.of_nat k)).
Proof.
  intros d k. subst d k. unfold chunk_document. cbn [metadata].
  rewrite !len_iloc. repeat split; dict_lookup.
Qed.

End ExcelChunks.

(** C6. A sheet of more than 200 rows gives, after the document of the
    complete sheet, one chunk document for each block of 200 consecutive
    rows, the last block holding what remains, and [extract_from_excel]
    returns these documents, between those of the sheets before and
    after, for a workbook read by either engine. The chunk at position [k]
    renders the rows from position [200 k] on, is tagged [excel_chunk],
    starts at row [200 k + 1] and ends at row [min (200 k + 200) n],
    counted from 1 and inclusive; the blocks together are all the rows of
    the sheet. A sheet of 450 rows gives the three chunks (1,200),
    (201,400), (401,450) of 200, 200 and 50 rows. *)
Theorem C6_excel_chunks :
  forall (source sheet_name : string) (raw : DataFrame),
    (200 < Frame.len raw)%nat ->
    let df := Frame.fillna raw in
    let n := Frame.len raw in
    let count := ((n + 199) / 200)%nat in
    let chunks := Excel.chunk_documents source sheet_name df in
    Excel.sheet_documents source (sheet_name, raw)
    = Excel.complete_document source "excel_sheet_complete"
        [("sheet", VStr sheet_name)] ("Excel Sheet: " +:+ sheet_name) df
        :: chunks
    /\ chunks = map (fun k => Excel.chunk_document source sheet_name df 200 (k * 200))
                    (seq 0 count)
    /\ (forall k, (k < count)%nat ->
          let d := Excel.chunk_document source sheet_name df 200 (k * 200) in
          let last := Nat.min (k * 200 + 200) n in
          page_content d
          = Renderer._df_to_text (Frame.iloc df (k * 200) 200)
              ("Sheet " +:+ sheet_name +:+ " - Rows " +:+ Text.str_nat (k * 200 + 1)
                 +:+ " to " +:+ Text.str_nat last)
          /\ metadata d !! "type" = Some (VStr "excel_chunk")
          /\ metadata d !! "chunk_start" = Some (VInt (Z.of_nat (k * 200 + 1)))
          /\ metadata d !! "chunk_end" = Some (VInt (Z.of_nat last))
          /\ metadata d !! "rows" = Some (VInt (Z.of_nat (last - k * 200)))
          /\ (0 < last - k * 200 <= 200)%nat
          /\ (S k < count -> last - k * 200 = 200)%nat)
    /\ concat (map (fun k => rows (Frame.iloc df (k * 200) 200)) (seq 0 count))
       = rows df
    /\ (n = 450%nat ->
        map chunk_bounds chunks
        = [ (Some (VInt 1), Some (VInt 200), Some (VInt 200));
            (Some (VInt 201), Some (VInt 400), Some (VInt 200));
            (Some (VInt 401), Some (VInt 450), Some (VInt 50)) ])
    /\ (forall (w : Excel.env) (before after : list (string * DataFrame)),
          let uploaded_file := {| name := source |} in
          let sheets := before ++ (sheet_name, raw) :: after in
          Text.endswith (Text.lower source) ".csv" = false ->
          Excel.write_temp w = Ok tt ->
          Excel.read_excel_openpyxl w = Ok sheets
          \/ ((exists e, Excel.read_excel_openpyxl w = Raise e)
              /\ Excel.read_excel_xlrd w = Ok sheets) ->
          Excel.temp_exists w = false \/ Excel.remove_temp w = Ok tt ->
          fst (Excel.extract_from_excel w uploaded_file)
          = Ok (Excel.excel_documents source before
                  ++ (Excel.complete_document source "excel_sheet_complete"
                        [("sheet", VStr sheet_name)]
                        ("Excel Sheet: " +:+ sheet_name) df
                        :: chunks)
                  ++ Excel.excel_documents source after)).
Proof.
  intros source sheet_name raw Hbig df n count chunks.
  assert (Hlen : Frame.len df = n) by apply len_fillna.
  assert (Hchunks : chunks
            = map (fun k => Excel.chunk_document source sheet_name df 200 (k * 200)%nat)
                  (seq 0 count)).
  { subst chunks. unfold Excel.chunk_documents. rewrite Hlen.
    destruct (Nat.ltb_spec 200 n) as [_|Hle]; [|subst n; lia].
    rewrite range_step_200, map_map. reflexivity. }
  assert (Hcount : forall k, (k < count)%nat -> (k * 200 < n)%nat).
  { intros k Hk. subst count.
    pose proof (Nat.div_mod_eq (n + 199) 200) as Hdm.
    pose proof (Nat.mod_upper_bound (n + 199) 200 ltac:(lia)) as Hmod.
    nia. }
  split; [reflexivity|]. split; [exact Hchunks|]. split; [|split; [|split]].
  - intros k Hk d last. specialize (Hcount k Hk).
    assert (Hmin : (k * 200 + Nat.min 200 (n - k * 200) = last)%nat)
      by (subst last; lia).
    destruct (chunk_document_metadata source sheet_name df (k * 200)%nat)
      as (Hty & Hs & He & Hr).
    cbn zeta in *. rewrite Hlen in *.
    split.
    { subst d. unfold Excel.chunk_document. cbn [page_content].
      rewrite len_iloc, Hlen, Hmin. reflexivity. }
    split; [exact Hty|]. split; [exact Hs|].
    split; [rewrite <- Hmin; exact He|].
    split; [replace (last - k * 200)%nat with (Nat.min 200 (n - k * 200))
              by (subst last; lia); exact Hr|].
    split; [subst last; lia|].
    intros Hnext. subst count last.
    pose proof (Nat.div_mod_eq (n + 199) 200) as Hdm.
    pose proof (Nat.mod_upper_bound (n + 199) 200 ltac:(lia)) as Hmod.
    nia.
  - unfold Frame.iloc. cbn [rows]. apply blocks_cover.
    change (length (rows df)) with (Frame.len df). rewrite Hlen. subst count.
    pose proof (Nat.div_mod_eq (n + 199) 200) as Hdm.
    pose proof (Nat.mod_upper_bound (n + 199) 200 ltac:(lia)) as Hmod.
    nia.
  - intros H450. rewrite Hchunks. subst count. rewrite H450.
    change ((450 + 199) / 200)%nat with 3%nat. cbn [seq map].
    unfold chunk_bounds.
    repeat match goal with
    | |- context [Excel.chunk_document source sheet_name df 200 ?i] =>
        let H := fresh in
        destruct (chunk_document_metadata source sheet_name df i) as (_ & ? & ? & ?);
        generalize dependent (Excel.chunk_document source sheet_name df 200 i);
        intros
    end.
    cbn zeta in *. rewrite Hlen, H450 in *.
    repeat match goal with H : _ !! _ = _ |- _ => rewrite H; clear H end.
    reflexivity.
  - intros w before after uploaded_file sheets Hcsv Hw Hread Hclean.
    assert (Hres : fst (Excel.extract_from_excel w uploaded_file)
                   = Ok (concat (map (Excel.sheet_documents source) sheets))).
    { destruct Hread as [Ho|[[e Ho] Hx]].
      - apply (extract_from_excel_sheets w uploaded_file sheets Hcsv Hw Ho Hclean).
      - apply (extract_from_excel_retry w uploaded_file e sheets Hcsv Hw Ho Hx Hclean). }
    rewrite Hres. subst sheets. unfold Excel.excel_documents.
    rewrite map_app, concat_app. cbn [map concat]. reflexivity.
Qed.

Lemma C6_excel_chunks_witness :
  (200 < Frame.len ledger_sheet)%nat
  /\ map chunk_bounds
         (Excel.chunk_documents "book.xlsx" "Ledger" (Frame.fillna ledger_sheet))
     = [ (Some (VInt 1), Some (VInt 200), Some (VInt 200));
         (Some (VInt 201), Some (VInt 400), Some (VInt 200));
         (Some (VInt 401), Some (VInt 450), Some (VInt 50)) ]
  /\ fst (Excel.extract_from_excel ledger_workbook {| name := "book.xlsx" |})
     = Ok (Excel.complete_document "book.xlsx" "excel_sheet_complete"
             [("sheet", VStr "Ledger")] "Excel Sheet: Ledger"
             (Frame.fillna ledger_sheet)
             :: Excel.chunk_documents "book.xlsx" "Ledger" (Frame.fillna ledger_sheet)).
Proof.
  assert (Hbig : (200 < Frame.len ledger_sheet)%nat)
    by (apply Nat.ltb_lt; vm_compute; reflexivity).
  split; [exact Hbig|].
  destruct (C6_excel_chunks "book.xlsx" "Ledger" ledger_sheet Hbig)
    as (_ & _ & _ & _ & Hbounds & Hextract).
  split; [apply Hbounds; vm_compute; reflexivity|].
  rewrite (Hextract ledger_workbook [] [] eq_refl eq_refl
             (or_introl eq_refl) (or_intror eq_refl)).
  cbn [Excel.excel_documents map concat app]. rewrite List.app_nil_r.
  reflexivity.
Defined.

(** ** Grouped documents of a CSV table *)
Section CsvGroups.
Import Excel.

Local Open Scope nat_scope.


Lemma group_loop_none (source : string) (df : DataFrame)
      (cols : list (nat * (string * dtype))) :
  Forall (unsuitable df) cols -> group_loop source df cols = [].
Proof.
  intros H. induction H as [|[j [col t]] cols Hc _ IH]; [reflexivity|].
  cbn [group_loop]. unfold unsuitable in Hc. cbn [fst snd] in Hc.
  rewrite Hc. exact IH.
Qed.

(** The size of the group of a key is the number of its occurrences in
    the column. *)
Lemma group_size (key : string) (j : nat) (rs : list (list cell)) :
  length (List.filter (fun row => key_is key (Frame.cell_at j row)) rs)
  = Frame.occurrences key (Frame.texts (map (Frame.cell_at j) rs)).
Proof.
  unfold Frame.occurrences, Frame.texts.
  induction rs as [|row rs IH]; [reflexivity|].
  cbn [List.filter map omap list_omap]. unfold key_is at 1.
  destruct (Frame.cell_at j row) as [z|s|]; cbn [group_key List.filter].
  - rewrite String.eqb_sym. destruct (String.eqb key (Text.str_Z z));
      cbn [length]; rewrite IH; reflexivity.
  - rewrite String.eqb_sym. destruct (String.eqb key s);
      cbn [length]; rewrite IH; reflexivity.
  - exact IH.
Qed.




Lemma insert_key_length (k : string) (l : list string) :
  length (insert_key k l) = S (length l).
Proof.
  induction l as [|x l IH]; [reflexivity|].
  cbn [insert_key]. destruct (String.leb k x); cbn [length]; rewrite ?IH; reflexivity.
Qed.

Lemma sort_keys_length (l : list string) : length (sort_keys l) = length l.
Proof.
  induction l as [|x l IH]; [reflexivity|].
  unfold sort_keys in *. cbn [fold_right]. rewrite insert_key_length.
  cbn [length]. f_equal. exact IH.
Qed.




Lemma group_document_metadata (source col : string) (g : string * DataFrame) :
  doc_type (group_document source col g) = Some (VStr "csv_group")
  /\ metadata (group_document source col g) !! "group_column" = Some (VStr col)
  /\ metadata (group_document source col g) !! "group_value" = Some (VStr (fst g))
  /\ metadata (group_document source col g) !! "rows"
     = Some (VInt (Z.of_nat (Frame.len (snd g)))).
Proof.
  unfold doc_type, group_document. cbn [metadata]. repeat split; dict_lookup.
Qed.

Lemma summary_documents_length (source : string) (df : DataFrame) :
  length (summary_documents source df)
  = match Frame.select_dtypes df DNumber with [] => 0 | _ => 1 end.
Proof.
  unfold summary_documents. destruct (Frame.select_dtypes df DNumber); reflexivity.
Qed.

End CsvGroups.

(** ** Frames of the embedding *)
Section TypedFrames.






End TypedFrames.




(** ** Splitting and joining *)
Section Splitting.
Import Text.

Lemma has_char_app (c : ascii) (a b : string) :
  has_char c (a +:+ b) = (has_char c a || has_char c b)%bool.
Proof.
  induction a as [|d a IH]; [reflexivity|].
  rewrite str_app_cons. cbn [has_char]. rewrite IH, orb_assoc. reflexivity.
Qed.

Lemma has_char_join (c : ascii) (sep : string) (parts : list string) :
  has_char c sep = false ->
  (forall p, In p parts -> has_char c p = false) ->
  has_char c (join sep parts) = false.
Proof.
  intros Hsep. induction parts as [|p parts IH]; intros Hparts; [reflexivity|].
  unfold join in *. cbn [String.concat].
  destruct parts as [|q parts]; [apply Hparts; left; reflexivity|].
  rewrite !has_char_app, Hsep, (Hparts p (or_introl eq_refl)).
  cbn [orb]. apply IH. intros r Hr. apply Hparts. right. exact Hr.
Qed.

Lemma split_on_nonempty (c : ascii) (s : string) : split_on c s <> [].
Proof.
  destruct s as [|d s]; cbn [split_on]; [discriminate|].
  destruct (Ascii.eqb d c); [discriminate|].
  destruct (split_on c s); discriminate.
Qed.

Lemma split_on_free (c : ascii) (s : string) :
  has_char c s = false -> split_on c s = [s].
Proof.
  induction s as [|d s IH]; [reflexivity|].
  cbn [has_char split_on]. intros H.
  apply orb_false_iff in H as [Hd Hs]. rewrite Hd, (IH Hs). reflexivity.
Qed.

(** Splitting at a separator that is known to be there. *)
Lemma split_on_app (c : ascii) (a b : string) :
  split_on c (a +:+ String c b) = split_on c a ++ split_on c b.
Proof.
  induction a as [|d a IH].
  - rewrite str_app_nil_l. cbn [split_on]. rewrite Ascii.eqb_refl. reflexivity.
  - rewrite str_app_cons. cbn [split_on]. rewrite IH.
    destruct (Ascii.eqb d c); [reflexivity|].
    destruct (split_on c a) as [|p m] eqn:Hsplit; [|reflexivity].
    destruct (split_on_nonempty c a Hsplit).
Qed.

Lemma split_join (c : ascii) (parts : list string) :
  parts <> [] ->
  split_on c (join (String c EmptyString) parts) = concat (map (split_on c) parts).
Proof.
  induction parts as [|p parts IH]; intros Hne; [contradiction|].
  unfold join in *. cbn [String.concat].
  destruct parts as [|q parts].
  - cbn [map concat]. rewrite List.app_nil_r. reflexivity.
  - rewrite str_app_cons, str_app_nil_l, split_on_app, IH by discriminate. reflexivity.
Qed.

Lemma concat_split_free (c : ascii) (parts : list string) :
  (forall p, In p parts -> has_char c p = false) ->
  concat (map (split_on c) parts) = parts.
Proof.
  induction parts as [|p parts IH]; intros H; [reflexivity|].
  cbn [map concat]. rewrite (split_on_free c p) by (apply H; left; reflexivity).
  cbn [app]. f_equal. apply IH. intros q Hq. apply H. right. exact Hq.
Qed.

Lemma cut_app (c : ascii) (a b : string) :
  has_char c a = false -> Renderer.cut c (a +:+ String c b) = Some (a, b).
Proof.
  induction a as [|d a IH].
  - intros _. rewrite str_app_nil_l. cbn [Renderer.cut]. rewrite Ascii.eqb_refl. reflexivity.
  - cbn [has_char]. intros H. apply orb_false_iff in H as [Hd Ha].
    rewrite str_app_cons. cbn [Renderer.cut]. rewrite Hd, (IH Ha). reflexivity.
Qed.

Lemma drop_last_app (a : string) (x : ascii) :
  Renderer.drop_last (a +:+ String x EmptyString) = a.
Proof.
  induction a as [|d a IH]; [reflexivity|].
  rewrite str_app_cons. cbn [Renderer.drop_last]. rewrite IH.
  destruct a; reflexivity.
Qed.

Lemma has_char_uint (c : ascii) (u : Decimal.uint) :
  not_in_numbers c -> has_char c (NilEmpty.string_of_uint u) = false.
Proof.
  intros Hc. induction u; cbn [NilEmpty.string_of_uint has_char];
    [reflexivity | rewrite IHu, orb_false_r; apply Hc; cbn; tauto ..].
Qed.

Lemma has_char_uint_zero (c : ascii) (u : Decimal.uint) :
  not_in_numbers c -> has_char c (NilZero.string_of_uint u) = false.
Proof.
  intros Hc. unfold NilZero.string_of_uint.
  destruct u; try apply (has_char_uint c _ Hc).
  cbn [has_char]. rewrite orb_false_r. apply Hc. cbn. tauto.
Qed.

Lemma has_char_str_nat (c : ascii) (n : nat) :
  not_in_numbers c -> has_char c (str_nat n) = false.
Proof. intros Hc. apply has_char_uint_zero, Hc. Qed.


Lemma newline_not_in_numbers : not_in_numbers newline.
Proof. intros d Hd. cbn in Hd. intuition (subst; reflexivity). Qed.

Lemma bar_not_in_numbers : not_in_numbers "|".
Proof. intros d Hd. cbn in Hd. intuition (subst; reflexivity). Qed.

Lemma colon_not_in_numbers : not_in_numbers ":".
Proof. intros d Hd. cbn in Hd. intuition (subst; reflexivity). Qed.

End Splitting.

(** ** The rendered table read back *)
Section RendererFacts.
Import Text Renderer.

Lemma row_data_fields (cols : list (string * dtype)) (row : list cell) :
  row_data cols row = join " | " (fields cols row).
Proof. reflexivity. Qed.

Lemma cell_at_free (c : ascii) (j : nat) (row : list cell) :
  has_char c "nan" = false ->
  forallb (cell_free c) row = true ->
  has_char c (Frame.str_cell (Frame.cell_at j row)) = false.
Proof.
  intros Hnan Hrow. unfold Frame.cell_at.
  destruct (nth_in_or_default j row CNull) as [Hin | ->]; [|exact Hnan].
  rewrite forallb_forall in Hrow. specialize (Hrow _ Hin).
  unfold cell_free in Hrow. apply negb_true_iff in Hrow. exact Hrow.
Qed.

Lemma fields_free (c : ascii) (cols : list (string * dtype)) (row : list cell) :
  has_char c ":" = false ->
  has_char c "nan" = false ->
  forallb (fun col : string * dtype => negb (has_char c (fst col))) cols = true ->
  forallb (cell_free c) row = true ->
  forall f, In f (fields cols row) -> has_char c f = false.
Proof.
  intros Hcolon Hnan Hcols Hrow f Hf. unfold fields in Hf.
  apply in_map_iff in Hf as ([j col] & <- & Hin).
  apply in_combine_r in Hin. cbn [fst snd].
  rewrite forallb_forall in Hcols. specialize (Hcols _ Hin).
  apply negb_true_iff in Hcols.
  rewrite !has_char_app, Hcols, Hcolon, (cell_at_free c j row Hnan Hrow).
  reflexivity.
Qed.

Lemma row_line_free_newline (cols : list (string * dtype)) (i : nat) (row : list cell) :
  forallb (fun col : string * dtype => negb (has_char newline (fst col))) cols = true ->
  forallb (cell_free newline) row = true ->
  has_char newline (row_line cols i row) = false.
Proof.
  intros Hcols Hrow. unfold row_line.
  rewrite !has_char_app, (has_char_str_nat _ _ newline_not_in_numbers).
  rewrite row_data_fields, has_char_join; [reflexivity | reflexivity |].
  apply fields_free; [reflexivity | reflexivity | exact Hcols | exact Hrow].
Qed.

Lemma row_line_not_marker (cols : list (string * dtype)) (i : nat) (row : list cell) :
  String.eqb (row_line cols i row) marker_rows = false.
Proof. reflexivity. Qed.

(** The marker search. *)
Lemma after_last_marker_none (ls : list string) :
  (forall l, In l ls -> String.eqb l marker_rows = false) ->
  after_last_marker ls = None.
Proof.
  induction ls as [|l ls IH]; intros H; [reflexivity|].
  cbn [after_last_marker]. rewrite IH by (intros x Hx; apply H; right; exact Hx).
  rewrite (H l (or_introl eq_refl)). reflexivity.
Qed.

Lemma after_last_marker_app (before after : list string) :
  (forall l, In l after -> String.eqb l marker_rows = false) ->
  after_last_marker (before ++ marker_rows :: after) = Some after.
Proof.
  intros H. induction before as [|l before IH].
  - cbn [app after_last_marker]. rewrite (after_last_marker_none after H).
    reflexivity.
  - cbn [app after_last_marker]. rewrite IH. reflexivity.
Qed.

Lemma In_imap {A B : Type} (f : nat -> A -> B) (l : list A) (y : B) :
  In y (imap f l) -> exists i x, In x l /\ y = f i x.
Proof.
  revert f. induction l as [|a l IH]; intros f; [intros []|].
  rewrite imap_cons. intros [<-|H].
  - exists 0%nat, a. split; [left|]; reflexivity.
  - destruct (IH _ H) as (i & x & Hx & ->).
    exists (S i), x. split; [right; exact Hx | reflexivity].
Qed.

Lemma data_rows_plain (df : DataFrame) :
  frame_free newline df = true ->
  forall l, In l (data_rows df) ->
            has_char newline l = false /\ String.eqb l marker_rows = false.
Proof.
  intros Hfree l Hl. unfold frame_free in Hfree.
  apply andb_true_iff in Hfree as [Hcols Hrows].
  unfold data_rows in Hl. apply In_imap in Hl as (i & row & Hrow & ->).
  rewrite forallb_forall in Hrows.
  split; [|apply row_line_not_marker].
  apply row_line_free_newline; [exact Hcols | apply Hrows, Hrow].
Qed.

(** The data section of a rendered table is the list of its data
    lines. *)
Lemma data_section_render (df : DataFrame) (title : string) :
  Frame.empty df = false ->
  frame_free newline df = true ->
  data_section (_df_to_text df title) = data_rows df.
Proof.
  intros Hne Hfree. unfold _df_to_text. rewrite Hne.
  unfold data_section, nl.
  rewrite split_join by (unfold header_lines; discriminate).
  rewrite !List.app_assoc, <- List.app_assoc.
  cbn [app]. rewrite map_app, concat_app. cbn [map concat].
  rewrite (split_on_free newline marker_rows) by reflexivity.
  rewrite (concat_split_free newline (data_rows df))
    by (intros p Hp; apply (data_rows_plain df Hfree p Hp)).
  cbn [app]. rewrite after_last_marker_app; [reflexivity|].
  intros l Hl. apply (data_rows_plain df Hfree l Hl).
Qed.

Lemma empty_false_columns (df : DataFrame) :
  Frame.empty df = false -> columns df <> [].
Proof.
  unfold Frame.empty. destruct (rows df); [discriminate|].
  destruct (columns df); [discriminate | discriminate].
Qed.

End RendererFacts.

Section RowParsing.
Import Text Renderer.

Lemma join_cons (sep x y : string) (more : list string) :
  join sep (x :: y :: more) = x +:+ sep +:+ join sep (y :: more).
Proof. reflexivity. Qed.

Lemma unpad_cons (first : bool) (x y : string) (more : list string) :
  unpad first (x :: y :: more)
  = drop_last (if first then x else drop_first x) :: unpad false (y :: more).
Proof. reflexivity. Qed.

(** The fields come back from between the bars. *)
Lemma unpad_split (fs : list string) (first : bool) :
  fs <> [] ->
  (forall f, In f fs -> has_char "|" f = false) ->
  unpad first (split_on "|" ((if first then "" else " ") +:+ join " | " fs)) = fs.
Proof.
  revert first. induction fs as [|f fs IH]; intros first Hne Hfree; [contradiction|].
  assert (Hf : has_char "|" f = false) by (apply Hfree; left; reflexivity).
  destruct fs as [|g fs].
  - unfold join. cbn [String.concat].
    rewrite split_on_free
      by (rewrite has_char_app, Hf; destruct first; reflexivity).
    destruct first; reflexivity.
  - rewrite join_cons.
    set (rest := join " | " (g :: fs)) in *.
    replace ((if first then "" else " ") +:+ f +:+ " | " +:+ rest)
      with (((if first then "" else " ") +:+ f +:+ " ") +:+ String "|" (" " +:+ rest))
      by (rewrite !str_app_assoc; reflexivity).
    rewrite split_on_app.
    rewrite (split_on_free "|" ((if first then "" else " ") +:+ f +:+ " "))
      by (rewrite !has_char_app, Hf; destruct first; reflexivity).
    cbn [app].
    specialize (IH false ltac:(discriminate)
                   (fun x Hx => Hfree x (or_intror Hx))).
    cbn iota in IH.
    destruct (split_on "|" (" " +:+ rest)) as [|p m] eqn:Hsplit;
      [destruct (split_on_nonempty _ _ Hsplit)|].
    rewrite unpad_cons, IH. f_equal.
    destruct first.
    + rewrite str_app_nil_l. apply drop_last_app.
    + change (drop_first (" " +:+ f +:+ " ")) with (f +:+ " ").
      apply drop_last_app.
Qed.

Lemma cut_fields (cols : list (string * dtype)) (row : list cell) :
  forallb (fun col : string * dtype => negb (has_char ":" (fst col))) cols = true ->
  omap (cut ":") (fields cols row) = pairs cols row.
Proof.
  intros Hcols. unfold fields, pairs.
  assert (H : forall jc, In jc (combine (seq 0 (length cols)) cols) ->
                         has_char ":" (fst (snd jc)) = false).
  { intros [j col] Hin. apply in_combine_r in Hin.
    rewrite forallb_forall in Hcols. specialize (Hcols _ Hin).
    apply negb_true_iff in Hcols. exact Hcols. }
  induction (combine (seq 0 (length cols)) cols) as [|jc l IH]; [reflexivity|].
  cbn [map omap list_omap].
  change (fst (snd jc) +:+ ":" +:+ Frame.str_cell (Frame.cell_at (fst jc) row))
    with (fst (snd jc) +:+ String ":" (Frame.str_cell (Frame.cell_at (fst jc) row))).
  rewrite cut_app by (apply H; left; reflexivity).
  f_equal. apply IH. intros x Hx. apply H. right. exact Hx.
Qed.

(** The pairs read back name every column, in column order. *)
Lemma pairs_labels (cols : list (string * dtype)) (row : list cell) :
  map fst (pairs cols row) = map fst cols.
Proof.
  unfold pairs. rewrite map_map. cbn [fst].
  generalize 0%nat. induction cols as [|col cols IH]; intros s; [reflexivity|].
  cbn [length seq combine map snd fst]. f_equal. apply IH.
Qed.

(** A data line read back gives its label and its fields. *)
Lemma parse_row_line (cols : list (string * dtype)) (i : nat) (row : list cell) :
  cols <> [] ->
  forallb (fun col : string * dtype => negb (has_char "|" (fst col))) cols = true ->
  forallb (fun col : string * dtype => negb (has_char ":" (fst col))) cols = true ->
  forallb (cell_free "|") row = true ->
  parse_row (row_line cols i row)
  = Some ("Row " +:+ str_nat (i + 1), pairs cols row).
Proof.
  intros Hne Hbar Hcolon Hrow. unfold parse_row, row_line.
  replace ("Row " +:+ str_nat (i + 1) +:+ ": " +:+ row_data cols row)
    with (("Row " +:+ str_nat (i + 1)) +:+ String ":" (" " +:+ row_data cols row))
    by (rewrite str_app_assoc; reflexivity).
  rewrite cut_app
    by (rewrite has_char_app, (has_char_str_nat _ _ colon_not_in_numbers);
        reflexivity).
  change (drop_first (" " +:+ row_data cols row)) with ("" +:+ row_data cols row).
  rewrite row_data_fields.
  rewrite (unpad_split (fields cols row) true).
  - rewrite cut_fields by exact Hcolon.
    unfold pairs, fields. rewrite !length_map, Nat.eqb_refl. reflexivity.
  - unfold fields. destruct cols as [|col cols]; [contradiction|]. discriminate.
  - apply fields_free; [reflexivity | reflexivity | exact Hbar | exact Hrow].
Qed.

End RowParsing.

(** C1, as stated, fails for a cell that contains a line break: the
    table has one row, and the section after the marker has two lines,
    the second of which is not a row line. *)
Lemma C1_line_break_counterexample :
  Frame.empty two_line_note = false
  /\ Frame.len two_line_note = 1%nat
  /\ Renderer.data_section (Renderer._df_to_text two_line_note "Complete CSV Dataset")
     = ["Row 1: Invoice:17 | Note:paid"; "late"]
  /\ Renderer.parse_rows (Renderer._df_to_text two_line_note "Complete CSV Dataset")
     = [Some ("Row 1", [("Invoice", "17"); ("Note", "paid")]); None].
Proof. vm_compute. repeat split; reflexivity. Qed.

(** C1 (amended). An empty table renders to the empty string. For a
    non-empty table none of whose column labels and cell texts contains a
    line break, what follows the ['=== ALL DATA ROWS ==='] marker is
    exactly one line per table row, in row order, the line of the row at
    position [i] being [Row <i+1>: col1:val1 | col2:val2 | ...] over all
    the columns. If moreover no label or cell text contains a bar and no
    label contains a colon, reading these lines back gives, for each row
    in order, the row number and for every column, in column order, its
    label with the text of the cell. *)
Theorem C1_data_rows_round_trip :
  forall (df : DataFrame) (title : string),
    (Frame.empty df = true -> Renderer._df_to_text df title = "")
    /\ (Frame.empty df = false ->
        frame_free Text.newline df = true ->
        let section := Renderer.data_section (Renderer._df_to_text df title) in
        section = imap (Renderer.row_line (columns df)) (rows df)
        /\ length section = Frame.len df
        /\ (forall i row, rows df !! i = Some row ->
              section !! i
              = Some ("Row " +:+ Text.str_nat (i + 1) +:+ ": "
                        +:+ Text.join " | " (fields (columns df) row)))
        /\ (forall row, map fst (pairs (columns df) row) = map fst (columns df))
        /\ (frame_free "|" df = true ->
            labels_free ":" df = true ->
            Renderer.parse_rows (Renderer._df_to_text df title)
            = imap (fun i row =>
                      Some ("Row " +:+ Text.str_nat (i + 1), pairs (columns df) row))
                   (rows df))).
Proof.
  intros df title. split.
  - intros Hempty. unfold Renderer._df_to_text. rewrite Hempty. reflexivity.
  - intros Hne Hfree section.
    assert (Hsec : section = imap (Renderer.row_line (columns df)) (rows df))
      by (apply data_section_render; assumption).
    split; [exact Hsec|]. split; [|split; [|split]].
    + rewrite Hsec, length_imap. reflexivity.
    + intros i row Hrow. rewrite Hsec, list_lookup_imap, Hrow. reflexivity.
    + intros row. apply pairs_labels.
    + intros Hbar Hcolon. unfold Renderer.parse_rows. fold section.
      rewrite Hsec.
      change (map Renderer.parse_row) with (fmap (M:=list) Renderer.parse_row).
      rewrite fmap_imap. apply imap_ext. intros i row Hrow. cbn [compose].
      unfold frame_free in Hbar. apply andb_true_iff in Hbar as [Hlabels Hrows].
      apply parse_row_line.
      * apply empty_false_columns, Hne.
      * exact Hlabels.
      * exact Hcolon.
      * rewrite forallb_forall in Hrows. apply Hrows.
        apply list_elem_of_In. eapply list_elem_of_lookup_2. exact Hrow.
Qed.

Lemma C1_data_rows_round_trip_witness :
  Frame.empty sales_table = false
  /\ frame_free Text.newline sales_table = true
  /\ frame_free "|" sales_table = true
  /\ labels_free ":" sales_table = true
  /\ Renderer.parse_rows (Renderer._df_to_text sales_table "Complete CSV Dataset")
     = [ Some ("Row 1", [("Region", "East"); ("Amount", "10")]);
         Some ("Row 2", [("Region", "West"); ("Amount", "20")]);
         Some ("Row 3", [("Region", "East"); ("Amount", "-3")]) ].
Proof.
  repeat (split; [reflexivity|]).
  destruct (C1_data_rows_round_trip sales_table "Complete CSV Dataset")
    as [_ Hparse].
  destruct (Hparse eq_refl eq_refl) as (_ & _ & _ & _ & Hrows).
  rewrite (Hrows eq_refl eq_refl). reflexivity.
Defined.

(** ** Aggregates and the two-decimal format *)
Section Aggregates.

Local Open Scope Z_scope.












End Aggregates.

(** ** Rounding *)
Section Rounding.

Local Open Scope Z_scope.








End Rounding.

Section Division.

Local Open Scope Z_scope.



End Division.

(** ** The numerical summary *)
Section NumericalSummary.
Import Text.





End NumericalSummary.


Section SummaryValues.

Local Open Scope Z_scope.



(** On a grid of sums and counts [f64_div] computes the quotient of the
    IEEE 754 division. *)
Lemma f64_div_agrees_on_grid :
  forallb (fun s => forallb (agrees_with_ieee s) (map Z.of_nat (seq 1 40)))
          (map (fun k => Z.of_nat k - 150) (seq 0 300) ++ [2 ^ 53 - 1; 1 - 2 ^ 53])
  = true.
Proof. vm_compute. reflexivity. Qed.

End SummaryValues.

(** ** Sums that do not round *)
Section ExactSums.

Local Open Scope Z_scope.








End ExactSums.



(** ** The splitter configuration *)

(** What [create_vector_db] hands to the text splitter of the library:
    chunks of 1500 characters with 300 of overlap, separators kept, and
    ten separators from the paragraph break down to the single blank; the
    empty separator, at which the library would split between any two
    characters, is not among them. *)
Lemma splitter_configuration :
  Pipeline.chunk_size Pipeline.splitter = 1500%nat
  /\ Pipeline.chunk_overlap Pipeline.splitter = 300%nat
  /\ Pipeline.keep_separator Pipeline.splitter = true
  /\ length (Pipeline.separators Pipeline.splitter) = 10%nat
  /\ last (Pipeline.separators Pipeline.splitter) = Some " "
  /\ ~ In "" (Pipeline.separators Pipeline.splitter).
Proof.
  repeat split; try reflexivity.
  cbn. intros H. repeat (destruct H as [H|H]; [discriminate|]). exact H.
Qed.

(* ===================================================================== *)
(** * Part IV: further properties of the extractors and the pipeline      *)
(* ===================================================================== *)

(** ** The PDF extractor *)
Section PdfDocuments.
Import Pdf.

Lemma page_document_metadata (path method : string) (i : nat) (txt : string) :
  let d := page_document path method i txt in
  metadata d !! "source" = Some (VStr path)
  /\ page_of d = Some (VInt (Z.of_nat i))
  /\ metadata d !! "method" = Some (VStr method)
  /\ metadata d !! "char_count" = Some (VInt (Z.of_nat (String.length txt)))
  /\ metadata d !! "error" = None
  /\ metadata d !! "original_filename" = None.
Proof.
  unfold page_of, page_document. cbn [metadata]. repeat split; dict_lookup.
Qed.

Lemma table_document_metadata (path : string) (p t_idx : nat) (rs : list string) :
  let d := table_document path p t_idx rs in
  metadata d !! "source" = Some (VStr path)
  /\ page_of d = Some (VInt (Z.of_nat p))
  /\ metadata d !! "type" = Some (VStr "table")
  /\ metadata d !! "table_id" = Some (VInt (Z.of_nat t_idx))
  /\ metadata d !! "rows" = Some (VInt (Z.of_nat (length rs)))
  /\ metadata d !! "error" = None
  /\ metadata d !! "original_filename" = None.
Proof.
  unfold page_of, table_document. cbn [metadata]. repeat split; dict_lookup.
Qed.

Lemma text_pages_from (path method : string) (i : nat)
      (pages : list (outcome (option string))) :
  Forall (fun d => exists k txt,
              d = page_document path method k txt
              /\ (i <= k < i + length pages)%nat
              /\ Text.truthy (Text.strip txt) = true)
         (text_pages path method i pages).
Proof.
  revert i. induction pages as [|[extracted|e] rest IH]; intros i;
    [constructor | | constructor].
  rewrite text_pages_cons. cbn zeta. apply Forall_app. split.
  - destruct (Text.truthy (Text.strip _)) eqn:Hblank; constructor; [|constructor].
    eexists i, _. split; [reflexivity|]. split; [cbn [length]; lia | exact Hblank].
  - eapply Forall_impl; [apply (IH (S i))|].
    intros d (k & txt & -> & Hk & Hblank). exists k, txt.
    split; [reflexivity|]. split; [cbn [length]; lia | exact Hblank].
Qed.

(** The page numbers of the documents increase strictly. *)
Lemma text_pages_increasing (path method : string) (i : nat)
      (pages : list (outcome (option string))) :
  exists ks : list nat,
    map page_of (text_pages path method i pages)
    = map (fun k => Some (VInt (Z.of_nat k))) ks
    /\ StronglySorted lt ks
    /\ Forall (fun k => (i <= k < i + length pages)%nat) ks.
Proof.
  revert i. induction pages as [|[extracted|e] rest IH]; intros i;
    [exists []; repeat split; constructor | | exists []; repeat split; constructor].
  destruct (IH (S i)) as (ks & Hmap & Hsorted & Hrange).
  assert (Hrange' : Forall (fun k => (i <= k < i + length (Ok extracted :: rest))%nat) ks).
  { eapply Forall_impl; [exact Hrange|]. cbn [length]. intros k Hk. lia. }
  rewrite text_pages_cons. cbn zeta.
  destruct (Text.truthy (Text.strip _)).
  - exists (i :: ks). cbn [app map]. rewrite Hmap.
    split; [reflexivity|]. split.
    + constructor; [exact Hsorted|].
      eapply Forall_impl; [exact Hrange|]. intros k Hk. cbn beta in Hk. lia.
    + constructor; [cbn [length]; lia | exact Hrange'].
  - exists ks. cbn [app]. auto.
Qed.

End PdfDocuments.

Section PdfResults.
Import Pdf.

Lemma yield_run_strategy (ev : event) (path method : string)
      (answer : outcome (list (outcome (option string)))) :
  yield (run_strategy ev path method answer)
  = match answer with
    | Ok pages => text_pages path method 1 pages
    | Raise _ => []
    end.
Proof. destruct answer; reflexivity. Qed.

Lemma page_tables_cons (path : string) (p t_idx : nat) (tbl : table)
      (rest : list table) :
  page_tables path p t_idx (tbl :: rest)
  = table_at path p t_idx 0 tbl ++ page_tables path p (S t_idx) rest.
Proof.
  cbn [page_tables]. f_equal. unfold table_at. rewrite Nat.add_0_r.
  destruct tbl as [|row0 tbl]; [reflexivity|].
  destruct (existsb row_nonempty (row0 :: tbl)) eqn:Hany.
  - destruct (render_table (row0 :: tbl)) as [|r rs] eqn:Hr; [|reflexivity].
    exfalso. revert Hr. unfold render_table.
    generalize 0%nat, (@None (list string)).
    induction (row0 :: tbl) as [|row t IH]; intros idx headers; [discriminate|].
    cbn [existsb] in Hany. cbn [table_rows].
    destruct (row_nonempty row); cbn [negb].
    + destruct (Nat.eqb idx 0 && negb (has_headers headers))%bool; discriminate.
    + apply IH. exact Hany.
  - assert (Hnone : render_table (row0 :: tbl) = []); [|rewrite Hnone; reflexivity].
    unfold render_table. generalize 0%nat, (@None (list string)).
    induction (row0 :: tbl) as [|row t IH]; intros idx headers; [reflexivity|].
    cbn [existsb] in Hany. apply orb_false_iff in Hany as [Hrow Hrest].
    cbn [table_rows]. rewrite Hrow. cbn [negb]. apply IH, Hrest.
Qed.

(** Every non-blank row of a table gives exactly one line. *)
Lemma table_rows_length (tbl : table) (idx : nat) (headers : option (list string)) :
  length (table_rows idx headers tbl) = length (List.filter row_nonempty tbl).
Proof.
  revert idx headers. induction tbl as [|row tbl IH]; intros idx headers;
    [reflexivity|].
  cbn [table_rows List.filter]. destruct (row_nonempty row); cbn [negb].
  - destruct (Nat.eqb idx 0 && negb (has_headers headers))%bool;
      cbn [length]; rewrite IH; reflexivity.
  - apply IH.
Qed.

Lemma page_tables_positions (path : string) (p t_idx : nat) (tables : list table) :
  page_tables path p t_idx tables
  = concat (imap (table_at path p t_idx) tables).
Proof.
  revert t_idx. induction tables as [|tbl rest IH]; intros t_idx; [reflexivity|].
  rewrite page_tables_cons, imap_cons. cbn [concat]. f_equal.
  rewrite IH. f_equal. apply imap_ext. intros k tbl' _.
  unfold table_at, compose. replace (S t_idx + k)%nat with (t_idx + S k)%nat by lia.
  reflexivity.
Qed.

Lemma page_tables_docs (path : string) (p t_idx : nat) (tables : list table) :
  Forall (fun d => exists t rs, d = table_document path p t rs)
         (page_tables path p t_idx tables).
Proof.
  revert t_idx. induction tables as [|tbl rest IH]; intros t_idx; [constructor|].
  rewrite page_tables_cons. apply Forall_app. split; [|apply IH].
  unfold table_at. destruct (existsb row_nonempty tbl); constructor; eauto.
Qed.

Lemma table_pages_docs (path : string) (p : nat)
      (pages : list (outcome (option (list table)))) :
  Forall (fun d => exists q t rs, d = table_document path q t rs)
         (table_pages path p pages).
Proof.
  revert p. induction pages as [|[extracted|e] rest IH]; intros p;
    [constructor | | constructor].
  cbn [table_pages]. apply Forall_app. split; [|apply IH].
  eapply Forall_impl; [apply page_tables_docs|].
  intros d (t & rs & ->). eauto.
Qed.

Lemma with_filename_content (path filename : string) (d : Document) :
  metadata d !! "source" = Some (VStr path) ->
  metadata d !! "error" = None ->
  content_document path filename (with_filename filename d).
Proof.
  intros Hs He. unfold content_document, with_filename. cbn [metadata].
  split; [|split].
  - rewrite lookup_insert_ne by discriminate. exact Hs.
  - apply lookup_insert_eq.
  - rewrite lookup_insert_ne by discriminate. exact He.
Qed.

Lemma failure_documents (filename e : string) :
  failure_document filename (error_document filename e)
  /\ failure_document filename (placeholder_document filename).
Proof.
  unfold failure_document, error_document, placeholder_document. cbn [metadata].
  repeat split; try dict_lookup.
  - exists (VStr e). dict_lookup.
  - exists (VStr "no_content"). dict_lookup.
Qed.

(** The text documents and the table documents are read from the
    temporary file. *)
Lemma text_documents_from_tmp (w : env) (tmp : string) (enable_ocr : bool) :
  exists docs calls,
    text_documents w tmp enable_ocr = (Ok docs, calls)
    /\ Forall (fun d => metadata d !! "source" = Some (VStr tmp)
                        /\ metadata d !! "error" = None) docs.
Proof.
  pose proof (text_documents_choice w tmp enable_ocr) as H. cbn zeta in H.
  assert (Hpages : forall ev method answer,
             Forall (fun d => metadata d !! "source" = Some (VStr tmp)
                              /\ metadata d !! "error" = None)
                    (yield (run_strategy ev tmp method answer))).
  { intros ev method answer. rewrite yield_run_strategy.
    destruct answer as [pages|e]; [|constructor].
    eapply Forall_impl; [apply text_pages_from|].
    intros d (k & txt & -> & _ & _).
    destruct (page_document_metadata tmp method k txt) as (Hs & _ & _ & _ & He & _).
    split; assumption. }
  unfold _text_pdfplumber, _text_pypdf, _text_ocr in H.
  repeat match type of H with
         | context [if ?b then _ else _] => destruct b
         end;
    eexists _, _; (split; [exact H|]); first [apply Hpages | constructor].
Qed.

Lemma _tables_from_tmp (w : env) (tmp : string) :
  exists docs,
    _tables w tmp = (Ok docs, [EvPdfplumberTables])
    /\ Forall (fun d => metadata d !! "source" = Some (VStr tmp)
                        /\ metadata d !! "error" = None) docs.
Proof.
  unfold _tables. destruct (plumber_tables w) as [pages|e].
  - exists (table_pages tmp 1 pages). split; [reflexivity|].
    eapply Forall_impl; [apply table_pages_docs|].
    intros d (q & t & rs & ->).
    destruct (table_document_metadata tmp q t rs) as (Hs & _ & _ & _ & _ & He & _).
    split; assumption.
  - exists []. split; [reflexivity | constructor].
Qed.

End PdfResults.

(** X1. [extract_from_pdf] raises only when [tempfile.mktemp], called
    before its [try], raises; nothing has been written then. In every
    other case it returns a list, and the list is never empty. It is the
    single error document, the single placeholder, or a list of documents
    read from the temporary file: each of these names the temporary path
    as its [source], the name of the upload as its [original_filename],
    and has no [error] key. The error document and the placeholder name
    the upload as [source] and have no [original_filename]. *)
Theorem pdf_result_is_labelled :
  forall (w : Pdf.env) (f : upload) (enable_ocr : bool),
    match Pdf.make_temp w with
    | Raise e => Pdf.extract_from_pdf w f enable_ocr = (Raise e, [EvMakeTemp])
    | Ok _ =>
        exists docs,
          fst (Pdf.extract_from_pdf w f enable_ocr) = Ok docs
          /\ docs <> []
          /\ ((exists e, docs = [Pdf.error_document (name f) e]
                         /\ failure_document (name f) (Pdf.error_document (name f) e))
              \/ (docs = [Pdf.placeholder_document (name f)]
                  /\ failure_document (name f) (Pdf.placeholder_document (name f)))
              \/ Forall (content_document (Pdf.tmp_path w) (name f)) docs)
    end.
Proof.
  intros w f enable_ocr.
  destruct (Pdf.make_temp w) as [[]|e0] eqn:Hmk;
    [|apply pdf_make_temp_failure_escapes, Hmk].
  rewrite (pdf_extract_named w f enable_ocr Hmk). cbn [fst].
  destruct (pdf_cleanup_total w) as [t ->].
  unfold Pdf.extract_body.
  destruct (Pdf.write_temp w) as [[]|e].
  - destruct (text_documents_from_tmp w (Pdf.tmp_path w) enable_ocr)
      as (docs & calls & -> & Hdocs).
    destruct (_tables_from_tmp w (Pdf.tmp_path w)) as (tdocs & -> & Htdocs).
    cbn [mbind M_bind mret M_ret fst snd try_except try_finally].
    assert (Hall : Forall (content_document (Pdf.tmp_path w) (name f))
                          (map (Pdf.with_filename (name f)) (docs ++ tdocs))).
    { apply Forall_map. apply Forall_app. split;
        (eapply Forall_impl; [eassumption|]);
        intros d [Hs He]; apply with_filename_content; assumption. }
    destruct (map (Pdf.with_filename (name f)) (docs ++ tdocs)) as [|d ds] eqn:Hm.
    + eexists. split; [reflexivity|]. split; [discriminate|].
      right. left. split; [reflexivity | apply failure_documents; exact ""].
    + eexists. split; [reflexivity|]. split; [discriminate|].
      right. right. exact Hall.
  - cbn. eexists. split; [reflexivity|]. split; [discriminate|].
    left. exists e. split; [reflexivity | apply failure_documents].
Qed.

(** X2. The documents of a text strategy ([_text_pdfplumber],
    [_text_pypdf], [_text_ocr]) are numbered by the position of their
    page in the file, from 1: the page numbers increase strictly and none
    exceeds the number of pages, so no page gives two documents. Each
    document carries the method of its strategy, a text that is not
    blank, and the length of that text as [char_count]. *)
Theorem strategy_pages_are_numbered :
  forall (ev : event) (path method : string)
         (answer : outcome (list (outcome (option string)))),
    let docs := yield (Pdf.run_strategy ev path method answer) in
    let count := match answer with Ok pages => length pages | Raise _ => 0%nat end in
    (exists ks : list nat,
        map page_of docs = map (fun k => Some (VInt (Z.of_nat k))) ks
        /\ StronglySorted lt ks
        /\ Forall (fun k => (1 <= k <= count)%nat) ks)
    /\ Forall (fun d =>
                 metadata d !! "method" = Some (VStr method)
                 /\ metadata d !! "char_count"
                    = Some (VInt (Z.of_nat (String.length (page_content d))))
                 /\ Text.truthy (Text.strip (page_content d)) = true) docs.
Proof.
  intros ev path method answer docs count. subst docs count.
  rewrite yield_run_strategy. destruct answer as [pages|e].
  - split.
    + destruct (text_pages_increasing path method 1 pages) as (ks & Hmap & Hs & Hr).
      exists ks. split; [exact Hmap|]. split; [exact Hs|].
      eapply Forall_impl; [exact Hr|]. intros k Hk. cbn beta in Hk. lia.
    + eapply Forall_impl; [apply text_pages_from|].
      intros d (k & txt & -> & _ & Hblank).
      destruct (page_document_metadata path method k txt) as (_ & _ & Hm & Hc & _).
      split; [exact Hm|]. split; [exact Hc | exact Hblank].
  - split; [|constructor].
    exists []. repeat split; constructor.
Qed.

(** X3. When a page raises inside a text strategy, the strategy does not
    raise: it returns the documents of the pages before the failing one,
    exactly as if the file ended there, and the later pages are not
    read. When the file cannot be opened at all it returns no
    documents. *)
Theorem strategy_keeps_pages_before_failure :
  forall (ev : event) (path method : string)
         (before : list (option string)) (e : string)
         (after : list (outcome (option string))),
    Pdf.run_strategy ev path method (Ok (map Ok before ++ Raise e :: after))
    = Pdf.run_strategy ev path method (Ok (map Ok before))
    /\ Pdf.run_strategy ev path method (Ok (map Ok before ++ Raise e :: after))
       = (Ok (Pdf.text_pages path method 1 (map Ok before)), [ev])
    /\ Pdf.run_strategy ev path method (Raise e) = (Ok [], [ev]).
Proof.
  intros ev path method before e after.
  assert (H : Pdf.run_strategy ev path method (Ok (map Ok before ++ Raise e :: after))
              = (Ok (Pdf.text_pages path method 1 (map Ok before)), [ev])).
  { unfold Pdf.run_strategy. cbn. rewrite text_pages_stop. reflexivity. }
  split; [|split; [exact H | reflexivity]].
  rewrite H. reflexivity.
Qed.

(** X4. The external calls of [extract_from_pdf], in order: the name of
    the temporary file is made first; if that fails no other call is made,
    nothing is written and nothing removed. Otherwise the temporary file
    is written; if that fails nothing is read and only the removal
    follows; otherwise the text strategies run (the layout-aware one
    always first), then the table extraction, always and exactly once,
    whatever the text strategies gave. Once the name is made, the removal
    of the temporary file is the last call on every path. *)
Theorem pdf_calls_in_order :
  forall (w : Pdf.env) (f : upload) (enable_ocr : bool),
    snd (Pdf.extract_from_pdf w f enable_ocr)
    = EvMakeTemp
        :: match Pdf.make_temp w, Pdf.write_temp w with
           | Raise _, _ => []
           | Ok _, Ok _ =>
               [EvWriteTemp]
                 ++ snd (Pdf.text_documents w (Pdf.tmp_path w) enable_ocr)
                 ++ [EvPdfplumberTables; EvRemoveTemp]
           | Ok _, Raise _ => [EvWriteTemp; EvRemoveTemp]
           end
    /\ exists later,
        snd (Pdf.text_documents w (Pdf.tmp_path w) enable_ocr)
        = EvPdfplumberText :: later
        /\ ~ In EvPdfplumberTables later
        /\ ~ In EvRemoveTemp later
        /\ ~ In EvWriteTemp later.
Proof.
  intros w f enable_ocr. split.
  - destruct (Pdf.make_temp w) as [[]|e0] eqn:Hmk;
      [|rewrite (pdf_make_temp_failure_escapes w f enable_ocr e0 Hmk); reflexivity].
    rewrite (pdf_extract_named w f enable_ocr Hmk). cbn [snd]. f_equal.
    unfold Pdf.extract_body.
    assert (Hclean : snd (try_except (call EvRemoveTemp (Pdf.remove_temp w))
                                      (fun _ => mret tt)) = [EvRemoveTemp]
                     /\ exists u, fst (try_except (call EvRemoveTemp (Pdf.remove_temp w))
                                                  (fun _ => mret tt)) = Ok u).
    { destruct (Pdf.remove_temp w) as [[]|e]; split; try reflexivity; eexists;
        reflexivity. }
    destruct Hclean as [Hsnd [u Hfst]].
    destruct (try_except (call EvRemoveTemp _) _) as [c tc]. cbn [fst snd] in *.
    subst c tc.
    destruct (Pdf.write_temp w) as [[]|e]; [|reflexivity].
    destruct (text_documents_from_tmp w (Pdf.tmp_path w) enable_ocr)
      as (docs & calls & -> & _).
    destruct (_tables_from_tmp w (Pdf.tmp_path w)) as (tdocs & -> & _).
    unfold call.
    cbn [mbind M_bind mret M_ret fst snd try_except try_finally app].
    rewrite <- List.app_assoc. reflexivity.
  - pose proof (text_documents_choice w (Pdf.tmp_path w) enable_ocr) as H.
    cbn zeta in H. rewrite H.
    repeat match goal with
           | |- context [if ?b then _ else _] => destruct b
           end;
      cbn [snd]; eexists; (split; [reflexivity|]);
      repeat split; cbn [In]; intuition discriminate.
Qed.

(** X5. On a page, the table at position [k] (counted from 0) gives a
    document exactly when one of its rows is not blank. Its [table_id] is
    [k + 1]: the tables before it are counted whether or not they gave a
    document. Its [rows] entry is the number of its non-blank rows, the
    header row included: no row is dropped or written twice. *)
Theorem page_tables_by_position :
  forall (path : string) (p : nat) (tables : list Pdf.table)
         (k : nat) (tbl : Pdf.table),
    tables !! k = Some tbl ->
    Pdf.page_tables path p 1 tables = concat (imap (table_at path p 1) tables)
    /\ length (Pdf.render_table tbl) = length (List.filter Pdf.row_nonempty tbl)
    /\ (existsb Pdf.row_nonempty tbl = false ->
        table_at path p 1 k tbl = [])
    /\ (existsb Pdf.row_nonempty tbl = true ->
        let d := Pdf.table_document path p (1 + k) (Pdf.render_table tbl) in
        In d (Pdf.page_tables path p 1 tables)
        /\ metadata d !! "table_id" = Some (VInt (Z.of_nat (k + 1)))
        /\ metadata d !! "rows"
           = Some (VInt (Z.of_nat (length (List.filter Pdf.row_nonempty tbl))))).
Proof.
  intros path p tables k tbl Hk.
  split; [apply page_tables_positions|].
  split; [apply table_rows_length|].
  split; [intros Hnone; unfold table_at; rewrite Hnone; reflexivity|].
  intros Hany d.
  destruct (table_document_metadata path p (1 + k) (Pdf.render_table tbl))
    as (_ & _ & _ & Hid & Hrows & _).
  split; [|split].
  - rewrite page_tables_positions. apply in_concat.
    exists (table_at path p 1 k tbl). split.
    + apply list_elem_of_In. apply list_elem_of_lookup. exists k.
      rewrite list_lookup_imap, Hk. reflexivity.
    + unfold table_at. rewrite Hany. left. reflexivity.
  - subst d. rewrite Hid. do 3 f_equal. lia.
  - subst d. rewrite Hrows. unfold Pdf.render_table.
    rewrite table_rows_length. reflexivity.
Qed.

Lemma page_tables_by_position_witness :
  [ [[None]]; table_with_blank_first_row ] !! 1%nat = Some table_with_blank_first_row
  /\ map (fun d => (metadata d !! "table_id", metadata d !! "rows"))
         (Pdf.page_tables "/tmp/t.pdf" 3 1 [ [[None]]; table_with_blank_first_row ])
     = [(Some (VInt 2), Some (VInt 2))].
Proof.
  split; [reflexivity|].
  rewrite (proj1 (page_tables_by_position "/tmp/t.pdf" 3
                    [ [[None]]; table_with_blank_first_row ] 1
                    table_with_blank_first_row eq_refl)).
  vm_compute. reflexivity.
Defined.

(** ** The renderer and the spreadsheet extractor *)
Section RendererHeader.
Import Text Renderer.

Lemma rendered_head (df : DataFrame) (title : string) :
  Frame.empty df = false ->
  exists rest,
    _df_to_text df title
    = "=== " +:+ title +:+ " ===" +:+ nl
        +:+ "Total Rows: " +:+ str_nat (Frame.len df) +:+ nl
        +:+ "Total Columns: " +:+ str_nat (Frame.width df) +:+ nl +:+ rest.
Proof.
  intros Hne. unfold _df_to_text. rewrite Hne. unfold header_lines.
  cbn [app]. do 3 rewrite join_cons. rewrite !str_app_assoc.
  eexists. reflexivity.
Qed.

End RendererHeader.

(** X6. [_df_to_text] returns the empty string for the empty tables and
    for no other: the text of a table with at least one row and one
    column begins with the title line [=== title ===], followed by the
    lines [Total Rows: n] and [Total Columns: m] with the numbers of
    rows and columns of the table. *)
Theorem rendered_text_begins_with_header :
  forall (df : DataFrame) (title : string),
    (Renderer._df_to_text df title = "" <-> Frame.empty df = true)
    /\ (Frame.empty df = false ->
        exists rest,
          Renderer._df_to_text df title
          = "=== " +:+ title +:+ " ===" +:+ Renderer.nl
              +:+ "Total Rows: " +:+ Text.str_nat (length (rows df)) +:+ Renderer.nl
              +:+ "Total Columns: " +:+ Text.str_nat (length (columns df))
              +:+ Renderer.nl +:+ rest).
Proof.
  intros df title. split; [|apply rendered_head].
  split.
  - intros Htext. destruct (Frame.empty df) eqn:Hne; [reflexivity|].
    destruct (rendered_head df title Hne) as [rest Hrest].
    rewrite Hrest in Htext. discriminate Htext.
  - intros Hempty. unfold Renderer._df_to_text. rewrite Hempty. reflexivity.
Qed.

Lemma rendered_text_begins_with_header_witness :
  Frame.empty sales_table = false
  /\ exists rest,
      Renderer._df_to_text sales_table "Complete CSV Dataset"
      = "=== Complete CSV Dataset ===" +:+ Renderer.nl
          +:+ "Total Rows: 3" +:+ Renderer.nl
          +:+ "Total Columns: 2" +:+ Renderer.nl +:+ rest.
Proof.
  split; [reflexivity|].
  destruct (proj2 (rendered_text_begins_with_header sales_table "Complete CSV Dataset")
                  eq_refl) as [rest Hrest].
  exists rest. rewrite Hrest. reflexivity.
Defined.

Section GroupCoverage.
Import Excel.

Local Open Scope nat_scope.

Lemma distinct_In (x : string) (l : list string) :
  In x (Frame.distinct l) <-> In x l.
Proof.
  induction l as [|y l IH]; [reflexivity|].
  cbn [Frame.distinct In]. rewrite List.filter_In, IH.
  destruct (String.eqb_spec y x) as [->|Hne]; cbn [negb]; intuition congruence.
Qed.

Lemma distinct_NoDup (l : list string) : List.NoDup (Frame.distinct l).
Proof.
  induction l as [|y l IH]; [constructor|].
  cbn [Frame.distinct]. constructor.
  - rewrite List.filter_In, String.eqb_refl. cbn [negb]. intros [_ H]. discriminate.
  - apply List.NoDup_filter, IH.
Qed.

Lemma occurrences_cons (k x : string) (l : list string) :
  Frame.occurrences k (x :: l)
  = (if String.eqb k x then 1 else 0) + Frame.occurrences k l.
Proof.
  unfold Frame.occurrences. cbn [List.filter].
  destruct (String.eqb k x); reflexivity.
Qed.

Lemma occurrences_absent (x : string) (l : list string) :
  ~ In x l -> Frame.occurrences x l = 0.
Proof.
  induction l as [|y l IH]; intros Hx; [reflexivity|].
  rewrite occurrences_cons, IH by (intros H; apply Hx; right; exact H).
  destruct (String.eqb_spec x y) as [->|_]; [|reflexivity].
  exfalso. apply Hx. left. reflexivity.
Qed.

Lemma occurrences_present (x : string) (l : list string) :
  In x l -> 1 <= Frame.occurrences x l.
Proof.
  induction l as [|y l IH]; [intros []|].
  rewrite occurrences_cons. intros [->|H].
  - rewrite String.eqb_refl. lia.
  - specialize (IH H). lia.
Qed.

Lemma list_sum_cons (a : nat) (l : list nat) : list_sum (a :: l) = a + list_sum l.
Proof. reflexivity. Qed.

(** A sum over a list without repetition, with the term of [x] taken
    out. *)
Lemma sum_without (f : string -> nat) (x : string) (keys : list string) :
  List.NoDup keys ->
  list_sum (map f keys)
  = (if in_dec string_dec x keys then f x else 0)
    + list_sum (map f (List.filter (fun y => negb (String.eqb x y)) keys)).
Proof.
  induction 1 as [|y keys Hy Hnd IH]; [reflexivity|].
  cbn [map List.filter]. rewrite list_sum_cons, IH.
  destruct (String.eqb_spec x y) as [<-|Hne]; cbn [negb].
  - destruct (in_dec string_dec x (x :: keys)) as [_|Hn];
      [|exfalso; apply Hn; left; reflexivity].
    destruct (in_dec string_dec x keys) as [Hin|_]; [contradiction|].
    lia.
  - cbn [map]. rewrite list_sum_cons.
    destruct (in_dec string_dec x keys) as [Hin|Hn];
      destruct (in_dec string_dec x (y :: keys)) as [Hin'|Hn'];
      try lia.
    + exfalso. apply Hn'. right. exact Hin.
    + destruct Hin' as [Heq|Hin']; [congruence | contradiction].
Qed.

(** The occurrences of the distinct values add up to the length. *)
Lemma occurrences_total (l : list string) :
  list_sum (map (fun k => Frame.occurrences k l) (Frame.distinct l)) = length l.
Proof.
  induction l as [|x l IH]; [reflexivity|].
  cbn [Frame.distinct map length]. rewrite list_sum_cons.
  rewrite occurrences_cons, String.eqb_refl.
  rewrite (map_ext_in (fun k => Frame.occurrences k (x :: l))
                      (fun k => Frame.occurrences k l)).
  - rewrite <- IH.
    rewrite (sum_without (fun k => Frame.occurrences k l) x (Frame.distinct l))
      by apply distinct_NoDup.
    destruct (in_dec string_dec x (Frame.distinct l)) as [_|Hn]; [lia|].
    rewrite occurrences_absent by (rewrite <- distinct_In; exact Hn). lia.
  - intros k Hk. apply List.filter_In in Hk as [_ Hk].
    rewrite occurrences_cons.
    rewrite String.eqb_sym. destruct (String.eqb x k); [discriminate | reflexivity].
Qed.

Lemma insert_key_perm (k : string) (l : list string) :
  Permutation (insert_key k l) (k :: l).
Proof.
  induction l as [|x l IH]; [reflexivity|].
  cbn [insert_key]. destruct (String.leb k x); [reflexivity|].
  rewrite IH. apply perm_swap.
Qed.

Lemma sort_keys_perm (l : list string) : Permutation (sort_keys l) l.
Proof.
  induction l as [|x l IH]; [reflexivity|].
  unfold sort_keys in *. cbn [fold_right]. rewrite insert_key_perm, IH. reflexivity.
Qed.

Lemma perm_sum (f : string -> nat) (l l' : list string) :
  Permutation l l' -> list_sum (map f l) = list_sum (map f l').
Proof.
  induction 1; cbn [map]; rewrite ?list_sum_cons; lia.
Qed.

Lemma insert_key_hd (a k : string) (l : list string) :
  key_le a k -> HdRel key_le a l -> HdRel key_le a (insert_key k l).
Proof.
  intros Hak Hal. destruct l as [|x l]; cbn [insert_key];
    [constructor; exact Hak|].
  destruct (String.leb k x); constructor; [exact Hak|].
  inversion Hal; assumption.
Qed.

Lemma insert_key_sorted (k : string) (l : list string) :
  Sorted key_le l -> Sorted key_le (insert_key k l).
Proof.
  induction 1 as [|x l Hs IH Hhd]; cbn [insert_key]; [repeat constructor|].
  destruct (String.leb k x) eqn:Hkx.
  - constructor; [constructor; assumption | constructor; exact Hkx].
  - constructor; [exact IH|]. apply insert_key_hd; [|exact Hhd].
    destruct (String.leb_total k x) as [H|H]; [congruence | exact H].
Qed.

Lemma sort_keys_sorted (l : list string) : Sorted key_le (sort_keys l).
Proof.
  induction l as [|x l IH]; [constructor|].
  unfold sort_keys in *. cbn [fold_right]. apply insert_key_sorted, IH.
Qed.

(** After [fillna] a column holds a text for every row that reaches
    it. *)
Lemma texts_fillna_length (raw : DataFrame) (j : nat) :
  Forall (reaches j) (rows raw) ->
  length (Frame.texts (Frame.series (Frame.fillna raw) j)) = length (rows raw).
Proof.
  unfold Frame.texts, Frame.series, Frame.fillna. cbn [rows].
  induction 1 as [|row rs Hrow _ IH]; [reflexivity|].
  cbn [map omap list_omap length].
  assert (Hcell : exists c, c <> CNull
             /\ Frame.cell_at j
                  (map (fun c : cell => match c with
                                        | CNull => CStr ""
                                        | other => other
                                        end) row) = c).
  { unfold Frame.cell_at.
    rewrite (nth_indep _ CNull (CStr "")) by (rewrite length_map; exact Hrow).
    change (CStr "") with ((fun c : cell => match c with
                                            | CNull => CStr ""
                                            | other => other
                                            end) CNull).
    rewrite map_nth. eexists. split; [|reflexivity].
    destruct (nth j row CNull); discriminate. }
  destruct Hcell as (c & Hc & ->).
  destruct c; [| |contradiction]; cbn [length]; rewrite IH; reflexivity.
Qed.

End GroupCoverage.

(** X7. Grouping a CSV table after [fillna] loses no row and doubles
    none: for a column that every row reaches, the sizes of the groups of
    [groupby] add up to the number of rows of the table, a row with a
    missing value being filed under the empty text. The keys of the
    groups are pairwise different and in ascending order; every group
    keeps the columns of the table, has at least one row, and holds only
    rows whose cell in the column is its key. *)
Theorem groups_partition_the_rows :
  forall (raw : DataFrame) (j : nat),
    Forall (reaches j) (rows raw) ->
    let df := Frame.fillna raw in
    let groups := Excel.groupby df j in
    list_sum (group_sizes groups) = Frame.len raw
    /\ List.NoDup (map fst groups)
    /\ Sorted key_le (map fst groups)
    /\ Forall (fun g : string * DataFrame =>
                 columns (snd g) = columns raw
                 /\ (1 <= Frame.len (snd g))%nat
                 /\ Forall (fun row =>
                              Excel.group_key (Frame.cell_at j row) = Some (fst g))
                           (rows (snd g)))
              groups.
Proof.
  intros raw j Hreach df groups.
  set (vs := Frame.texts (Frame.series df j)).
  assert (Hkeys : map fst groups = Excel.sort_keys (Frame.distinct vs)).
  { subst groups. unfold Excel.groupby. rewrite map_map. cbn [fst].
    apply map_id. }
  assert (Hsizes : group_sizes groups
                   = map (fun k => Frame.occurrences k vs)
                         (Excel.sort_keys (Frame.distinct vs))).
  { subst groups. unfold group_sizes, Excel.groupby. rewrite map_map.
    apply map_ext. intros key. cbn [snd]. unfold Frame.len. cbn [rows].
    apply group_size. }
  split; [|split; [|split]].
  - rewrite Hsizes, (perm_sum _ _ _ (sort_keys_perm _)), occurrences_total.
    subst vs df. apply texts_fillna_length, Hreach.
  - rewrite Hkeys.
    eapply Permutation_NoDup; [symmetry; apply sort_keys_perm|].
    apply distinct_NoDup.
  - rewrite Hkeys. apply sort_keys_sorted.
  - subst groups. unfold Excel.groupby. apply Forall_map.
    apply Forall_forall. intros key Hkey. apply list_elem_of_In in Hkey.
    cbn [fst snd columns rows]. split; [reflexivity|]. split.
    + unfold Frame.len. cbn [rows]. rewrite group_size. fold df. fold vs.
      apply occurrences_present. apply distinct_In.
      eapply Permutation_in; [apply sort_keys_perm | exact Hkey].
    + apply Forall_forall. intros row Hrow. apply list_elem_of_In in Hrow.
      apply List.filter_In in Hrow as [_ Hrow]. unfold Excel.key_is in Hrow.
      destruct (Excel.group_key (Frame.cell_at j row)) as [t|]; [|discriminate].
      apply String.eqb_eq in Hrow. congruence.
Qed.

Lemma groups_partition_the_rows_witness :
  Forall (reaches 0) (rows lopsided_sales)
  /\ group_sizes (Excel.groupby (Frame.fillna lopsided_sales) 0) = [148; 1; 1]%nat
  /\ list_sum (group_sizes (Excel.groupby (Frame.fillna lopsided_sales) 0))
     = Frame.len lopsided_sales.
Proof.
  assert (H : Forall (reaches 0) (rows lopsided_sales)).
  { apply Forall_forall. intros row Hrow. apply list_elem_of_In in Hrow.
    unfold lopsided_sales in Hrow. cbn [rows] in Hrow.
    apply in_app_or in Hrow as [Hrow|Hrow].
    - apply in_map_iff in Hrow as (k & <- & _). unfold reaches. cbn. lia.
    - destruct Hrow as [<-|[<-|[]]]; unfold reaches; cbn; lia. }
  split; [exact H|]. split; [vm_compute; reflexivity|].
  exact (proj1 (groups_partition_the_rows lopsided_sales 0 H)).
Defined.

(** ** The documents of a spreadsheet *)
Section SpreadsheetDocuments.
Import Excel.
Local Open Scope nat_scope.

Lemma complete_csv_labelled (source title : string) (df : DataFrame) (types : list string) :
  In "csv_complete" types ->
  spreadsheet_document source types
    (complete_document source "csv_complete" [] title df).
Proof.
  intros Hin. unfold spreadsheet_document, complete_document. cbn [metadata].
  split; [dict_lookup|]. split; [dict_lookup|]. split; [dict_lookup|].
  exists "csv_complete". split; [exact Hin | dict_lookup].
Qed.

Lemma complete_sheet_labelled (source sheet title : string) (df : DataFrame)
      (types : list string) :
  In "excel_sheet_complete" types ->
  let d := complete_document source "excel_sheet_complete"
                             [("sheet", VStr sheet)] title df in
  spreadsheet_document source types d
  /\ metadata d !! "sheet" = Some (VStr sheet).
Proof.
  intros Hin d. subst d. unfold spreadsheet_document, complete_document.
  cbn [metadata].
  split; [|dict_lookup].
  split; [dict_lookup|]. split; [dict_lookup|]. split; [dict_lookup|].
  exists "excel_sheet_complete". split; [exact Hin | dict_lookup].
Qed.

Lemma chunk_labelled (source sheet : string) (df : DataFrame) (n i : nat)
      (types : list string) :
  In "excel_chunk" types ->
  let d := chunk_document source sheet df n i in
  spreadsheet_document source types d
  /\ metadata d !! "sheet" = Some (VStr sheet).
Proof.
  intros Hin d. subst d. unfold spreadsheet_document, chunk_document.
  cbn [metadata].
  split; [|dict_lookup].
  split; [dict_lookup|]. split; [dict_lookup|]. split; [dict_lookup|].
  exists "excel_chunk". split; [exact Hin | dict_lookup].
Qed.

Lemma group_labelled (source col : string) (g : string * DataFrame)
      (types : list string) :
  In "csv_group" types ->
  spreadsheet_document source types (group_document source col g).
Proof.
  intros Hin. unfold spreadsheet_document, group_document. cbn [metadata].
  split; [dict_lookup|]. split; [dict_lookup|]. split; [dict_lookup|].
  exists "csv_group". split; [exact Hin | dict_lookup].
Qed.

Lemma summary_labelled (source : string) (df : DataFrame) (types : list string) :
  In "financial_summary" types ->
  Forall (fun d => spreadsheet_document source types d
                   /\ doc_type d = Some (VStr "financial_summary"))
         (summary_documents source df).
Proof.
  intros Hin. unfold summary_documents.
  destruct (Frame.select_dtypes df DNumber); [apply List.Forall_nil|].
  apply List.Forall_cons; [|apply List.Forall_nil].
  unfold spreadsheet_document, doc_type. cbn [metadata].
  split; [|dict_lookup].
  split; [dict_lookup|]. split; [dict_lookup|]. split; [dict_lookup|].
  exists "financial_summary". split; [exact Hin | dict_lookup].
Qed.

(** The loop over the columns yields nothing, or the groups of one
    suitable column. *)
Lemma group_loop_cases (source : string) (df : DataFrame)
      (cols : list (nat * (string * dtype))) :
  group_loop source df cols = []
  \/ exists j col t, suitable df j t = true
                     /\ group_loop source df cols = groups_of_column source df j col.
Proof.
  induction cols as [|[j [col t]] cols IH]; [left; reflexivity|].
  cbn [group_loop]. destruct (suitable df j t) eqn:Hs; [|exact IH].
  right. exists j, col, t. split; [exact Hs | reflexivity].
Qed.

Lemma groups_of_column_bound (source : string) (df : DataFrame) (j : nat)
      (col : string) (t : dtype) :
  suitable df j t = true ->
  length (groups_of_column source df j col) <= 19.
Proof.
  intros Hs. unfold suitable in Hs. apply andb_true_iff in Hs as [_ Hs].
  apply Nat.ltb_lt in Hs. unfold Frame.nunique in Hs.
  unfold groups_of_column. rewrite length_map.
  eapply Nat.le_trans; [apply filter_length_le|].
  unfold groupby. rewrite length_map, sort_keys_length. lia.
Qed.

Lemma groups_of_column_rows (source : string) (df : DataFrame) (j : nat) (col : string) :
  Forall (fun d => doc_type d = Some (VStr "csv_group")
                   /\ exists n, declared_rows d = Some (VInt (Z.of_nat n))
                                /\ 2 <= n <= Frame.len df)
         (groups_of_column source df j col).
Proof.
  unfold groups_of_column. apply Forall_map.
  apply Forall_forall. intros g Hg. apply list_elem_of_In in Hg.
  apply List.filter_In in Hg as [Hg Hlen]. apply Nat.ltb_lt in Hlen.
  destruct (group_document_metadata source col g) as (Ht & _ & _ & Hr).
  split; [exact Ht|].
  exists (Frame.len (snd g)). split; [exact Hr|]. split; [lia|].
  unfold groupby in Hg. apply in_map_iff in Hg as (key & <- & _).
  cbn [snd]. unfold Frame.len. cbn [rows]. apply filter_length_le.
Qed.

Lemma length_concat_map {A B : Type} (f : A -> list B) (l : list A) :
  length (concat (map f l)) = list_sum (map (fun a => length (f a)) l).
Proof.
  induction l as [|a l IH]; [reflexivity|].
  cbn [map concat]. rewrite length_app, IH. reflexivity.
Qed.

Lemma length_chunk_documents (source sheet : string) (df : DataFrame) :
  length (chunk_documents source sheet df)
  = if Nat.ltb 200 (Frame.len df) then (Frame.len df + 199) / 200 else 0.
Proof.
  unfold chunk_documents. destruct (Nat.ltb 200 (Frame.len df)); [|reflexivity].
  rewrite length_map, range_step_200, length_map, length_seq. reflexivity.
Qed.

Lemma sheet_documents_labelled (source : string) (sheet : string * DataFrame) :
  Forall (fun d => spreadsheet_document source ["excel_sheet_complete"; "excel_chunk"] d
                   /\ metadata d !! "sheet" = Some (VStr (fst sheet)))
         (sheet_documents source sheet).
Proof.
  unfold sheet_documents. apply List.Forall_cons.
  - apply complete_sheet_labelled. left. reflexivity.
  - unfold chunk_documents.
    destruct (Nat.ltb 200 _); [|apply List.Forall_nil].
    apply Forall_map. apply Forall_forall. intros i _.
    apply chunk_labelled. right. left. reflexivity.
Qed.

End SpreadsheetDocuments.

(** X8. Every document of a CSV file names the upload as its source and
    as its original file name, has no [error] key and one of the three
    CSV type tags. There are between 1 and 21 documents: the complete
    table, at most 19 groups and at most one financial summary. A table of
    100 rows or fewer gets no group document, and a group document always
    declares at least two rows, never more than the table has. *)
Theorem csv_documents_shape :
  forall (source : string) (raw : DataFrame),
    let docs := Excel.csv_documents source raw in
    Forall (spreadsheet_document source
              ["csv_complete"; "csv_group"; "financial_summary"]) docs
    /\ (1 <= length docs <= 21)%nat
    /\ ((Frame.len raw <= 100)%nat ->
        Forall (fun d => doc_type d <> Some (VStr "csv_group")) docs)
    /\ Forall (fun d => doc_type d = Some (VStr "csv_group") ->
                        exists n, declared_rows d = Some (VInt (Z.of_nat n))
                                  /\ (2 <= n <= Frame.len raw)%nat) docs.
Proof.
  intros source raw docs. subst docs. unfold Excel.csv_documents.
  set (df := Frame.fillna raw).
  set (types := ["csv_complete"; "csv_group"; "financial_summary"]).
  assert (Hc : spreadsheet_document source types
                 (Excel.complete_document source "csv_complete" []
                                          "Complete CSV Dataset" df)).
  { apply complete_csv_labelled. left. reflexivity. }
  assert (Hct : doc_type (Excel.complete_document source "csv_complete" []
                                                  "Complete CSV Dataset" df)
                = Some (VStr "csv_complete")).
  { unfold doc_type, Excel.complete_document. cbn [metadata]. dict_lookup. }
  pose proof (summary_labelled source df types
                (or_intror (or_intror (or_introl eq_refl)))) as Hs.
  pose proof (summary_documents_length source df) as Hsl.
  assert (Hg : Excel.group_documents source df = []
               \/ (100 < Frame.len raw)%nat
                  /\ exists j col t,
                       Excel.suitable df j t = true
                       /\ Excel.group_documents source df
                          = Excel.groups_of_column source df j col).
  { unfold Excel.group_documents. subst df. rewrite len_fillna.
    destruct (Nat.ltb 100 (Frame.len raw)) eqn:Hlen; [|left; reflexivity].
    apply Nat.ltb_lt in Hlen.
    destruct (group_loop_cases source (Frame.fillna raw)
                (Excel.indexed_columns (Frame.fillna raw))) as [->|H];
      [left; reflexivity | right; split; [exact Hlen | exact H]]. }
  split; [|split; [|split]].
  - apply List.Forall_cons; [exact Hc|]. apply Forall_app. split.
    + destruct Hg as [->|(_ & j & col & t & _ & ->)]; [apply List.Forall_nil|].
      unfold Excel.groups_of_column. apply Forall_map.
      apply Forall_forall. intros g _. apply group_labelled.
      right. left. reflexivity.
    + eapply Forall_impl; [exact Hs|]. intros d [Hd _]. exact Hd.
  - cbn [app length]. rewrite length_app, Hsl.
    assert (length (Excel.group_documents source df) <= 19)%nat.
    { destruct Hg as [->|(_ & j & col & t & Hsuit & ->)]; [cbn; lia|].
      eapply groups_of_column_bound, Hsuit. }
    destruct (Frame.select_dtypes df DNumber); lia.
  - intros Hsmall. apply List.Forall_cons; [rewrite Hct; discriminate|].
    destruct Hg as [->|(Hbig & _)]; [|lia].
    cbn [app]. eapply Forall_impl; [exact Hs|].
    intros d [_ Hd]. rewrite Hd. discriminate.
  - apply List.Forall_cons; [rewrite Hct; discriminate|].
    apply Forall_app. split.
    + destruct Hg as [->|(_ & j & col & t & _ & ->)]; [apply List.Forall_nil|].
      eapply Forall_impl; [apply groups_of_column_rows|].
      intros d [_ (n & Hn & Hle)] _. exists n. split; [exact Hn|].
      subst df. rewrite len_fillna in Hle. exact Hle.
    + eapply Forall_impl; [exact Hs|].
      intros d [_ Hd]. rewrite Hd. discriminate.
Qed.

Lemma csv_documents_shape_witness :
  (Frame.len sales_table <= 100)%nat
  /\ Forall (fun d => doc_type d <> Some (VStr "csv_group"))
            (Excel.csv_documents "sales.csv" sales_table).
Proof.
  assert (H : (Frame.len sales_table <= 100)%nat) by (cbn; lia).
  split; [exact H|].
  exact (proj1 (proj2 (proj2 (csv_documents_shape "sales.csv" sales_table))) H).
Defined.

(** X9. Every document of an Excel workbook names the upload as its
    source and as its original file name, has no [error] key, is tagged
    as a complete sheet or as a chunk, and carries the name of one of the
    sheets of the workbook. A sheet of [n] rows contributes one document
    when [n <= 200] and one more than the number of blocks of 200 rows
    otherwise; a workbook whose sheets all have at most 200 rows gives
    exactly one document per sheet, in the order of the sheets. *)
Theorem excel_documents_shape :
  forall (source : string) (sheets : list (string * DataFrame)),
    let docs := Excel.excel_documents source sheets in
    Forall (fun d =>
              spreadsheet_document source ["excel_sheet_complete"; "excel_chunk"] d
              /\ exists s, In s (map fst sheets)
                           /\ metadata d !! "sheet" = Some (VStr s)) docs
    /\ length docs
       = list_sum (map (fun s : string * DataFrame =>
                          let n := Frame.len (snd s) in
                          if Nat.ltb 200 n then (1 + (n + 199) / 200)%nat else 1%nat)
                       sheets)
    /\ (Forall (fun s : string * DataFrame => (Frame.len (snd s) <= 200)%nat) sheets ->
        docs = map (fun s : string * DataFrame =>
                      Excel.complete_document source "excel_sheet_complete"
                        [("sheet", VStr (fst s))]
                        ("Excel Sheet: " +:+ fst s) (Frame.fillna (snd s)))
                   sheets).
Proof.
  intros source sheets docs. subst docs. unfold Excel.excel_documents.
  split; [|split].
  - induction sheets as [|sheet sheets IH]; [apply List.Forall_nil|].
    cbn [map concat]. apply Forall_app. split.
    + eapply Forall_impl; [apply sheet_documents_labelled|].
      intros d [Hd Hs]. split; [exact Hd|].
      exists (fst sheet). split; [left; reflexivity | exact Hs].
    + eapply Forall_impl; [exact IH|].
      intros d [Hd (s & Hin & Hs)]. split; [exact Hd|].
      exists s. split; [right; exact Hin | exact Hs].
  - rewrite length_concat_map. f_equal. apply map_ext. intros sheet.
    unfold Excel.sheet_documents. cbn [length].
    rewrite length_chunk_documents, len_fillna.
    destruct (Nat.ltb 200 (Frame.len (snd sheet))); reflexivity.
  - intros Hsmall. induction Hsmall as [|sheet sheets Hlen _ IH]; [reflexivity|].
    cbn [map concat]. rewrite IH.
    unfold Excel.sheet_documents at 1, Excel.chunk_documents.
    rewrite len_fillna.
    destruct (Nat.ltb 200 (Frame.len (snd sheet))) eqn:Hbig;
      [apply Nat.ltb_lt in Hbig; lia | reflexivity].
Qed.

Lemma excel_documents_shape_witness :
  Forall (fun s : string * DataFrame => (Frame.len (snd s) <= 200)%nat)
         [("Q1", sales_table); ("Q2", sales_table)]
  /\ length (Excel.excel_documents "book.xlsx"
               [("Q1", sales_table); ("Q2", sales_table)]) = 2%nat.
Proof.
  assert (H : Forall (fun s : string * DataFrame => (Frame.len (snd s) <= 200)%nat)
                     [("Q1", sales_table); ("Q2", sales_table)]).
  { repeat (apply List.Forall_cons; [cbn; lia|]). apply List.Forall_nil. }
  split; [exact H|].
  rewrite (proj2 (proj2 (excel_documents_shape "book.xlsx"
                           [("Q1", sales_table); ("Q2", sales_table)])) H).
  reflexivity.
Defined.

(** ** The data lines of a chunk *)
Section ChunkLines.
Import Text Renderer Excel.
Local Open Scope nat_scope.

Lemma frame_free_iloc (c : ascii) (df : DataFrame) (i n : nat) :
  frame_free c df = true -> frame_free c (Frame.iloc df i n) = true.
Proof.
  unfold frame_free, labels_free, Frame.iloc. cbn [columns rows].
  intros H. apply andb_true_iff in H as [Hcols Hrows].
  apply andb_true_iff. split; [exact Hcols|].
  rewrite forallb_forall in Hrows. apply forallb_forall. intros row Hrow.
  apply Hrows. apply list_elem_of_In.
  apply (subseteq_drop i), (subseteq_take n), list_elem_of_In, Hrow.
Qed.

Lemma frame_free_fillna (c : ascii) (df : DataFrame) :
  frame_free c df = true -> frame_free c (Frame.fillna df) = true.
Proof.
  unfold frame_free, labels_free, Frame.fillna. cbn [columns rows].
  intros H. apply andb_true_iff in H as [Hcols Hrows].
  apply andb_true_iff. split; [exact Hcols|].
  rewrite forallb_forall in Hrows. apply forallb_forall. intros row Hrow.
  apply in_map_iff in Hrow as (row0 & <- & Hrow0).
  specialize (Hrows _ Hrow0). rewrite forallb_forall in Hrows.
  apply forallb_forall. intros x Hx.
  apply in_map_iff in Hx as (x0 & <- & Hx0).
  destruct x0; [apply Hrows, Hx0 | apply Hrows, Hx0 | reflexivity].
Qed.

Lemma data_rows_iloc (df : DataFrame) (i n j : nat) (row : list cell) :
  j < n ->
  rows df !! (i + j) = Some row ->
  data_rows (Frame.iloc df i n) !! j = Some (row_line (columns df) j row).
Proof.
  intros Hj Hrow. unfold data_rows, Frame.iloc. cbn [columns rows].
  rewrite list_lookup_imap, (lookup_take_lt _ _ _ Hj), lookup_drop, Hrow.
  reflexivity.
Qed.

End ChunkLines.

(** X10. The data lines of a chunk are numbered from 1 again: in the
    chunk that starts at position [i] of a sheet, the row at position
    [i + j] of the sheet is the line [j] of the data section and is
    labelled [Row j+1], while the metadata of the chunk gives [i + 1] as
    its first row. The data section has one line for each row of the
    chunk. This holds when no label and no cell of the sheet contains a
    line break. *)
Theorem chunk_rows_are_renumbered :
  forall (source sheet : string) (raw : DataFrame) (i : nat),
    frame_free Text.newline raw = true ->
    columns raw <> [] ->
    (i < Frame.len raw)%nat ->
    let df := Frame.fillna raw in
    let d := Excel.chunk_document source sheet df 200 i in
    let lines := Renderer.data_section (page_content d) in
    length lines = Nat.min 200 (Frame.len raw - i)
    /\ metadata d !! "chunk_start" = Some (VInt (Z.of_nat (i + 1)))
    /\ forall (j : nat) (row : list cell),
         (j < 200)%nat ->
         rows df !! (i + j)%nat = Some row ->
         lines !! j = Some ("Row " +:+ Text.str_nat (j + 1) +:+ ": "
                              +:+ Renderer.row_data (columns raw) row).
Proof.
  intros source sheet raw i Hfree Hcols Hi df d lines.
  assert (Hlines : lines = Renderer.data_rows (Frame.iloc df i 200)).
  { subst lines d. unfold Excel.chunk_document. cbn [page_content].
    apply data_section_render.
    - subst df. unfold Frame.empty, Frame.iloc. cbn [columns rows].
      change (columns (Frame.fillna raw)) with (columns raw).
      destruct (columns raw) eqn:Hc; [contradiction|].
      destruct (take 200 (drop i (rows (Frame.fillna raw)))) eqn:Ht;
        [|reflexivity].
      apply (f_equal (@length _)) in Ht.
      rewrite length_take, length_drop in Ht.
      change (length (rows (Frame.fillna raw)))
        with (Frame.len (Frame.fillna raw)) in Ht.
      rewrite len_fillna in Ht. cbn [length] in Ht. lia.
    - apply frame_free_iloc, frame_free_fillna, Hfree. }
  split; [|split].
  - rewrite Hlines. unfold Renderer.data_rows. rewrite length_imap.
    change (length (rows (Frame.iloc df i 200)))
      with (Frame.len (Frame.iloc df i 200)).
    rewrite len_iloc. subst df. rewrite len_fillna. reflexivity.
  - apply (chunk_document_metadata source sheet df i).
  - intros j row Hj Hrow. rewrite Hlines.
    apply (data_rows_iloc df i 200 j row Hj Hrow).
Qed.

Lemma chunk_rows_are_renumbered_witness :
  frame_free Text.newline ledger_sheet = true
  /\ rows (Frame.fillna ledger_sheet) !! 200%nat = Some [CStr "cash"; CInt 201]
  /\ Renderer.data_section
       (page_content (Excel.chunk_document "ledger.xlsx" "Ledger"
                        (Frame.fillna ledger_sheet) 200 200)) !! 0%nat
     = Some "Row 1: Account:cash | Amount:201".
Proof.
  assert (Hfree : frame_free Text.newline ledger_sheet = true)
    by (vm_compute; reflexivity).
  assert (Hrow : rows (Frame.fillna ledger_sheet) !! (200 + 0)%nat
                 = Some [CStr "cash"; CInt 201])
    by (vm_compute; reflexivity).
  split; [exact Hfree|]. split; [exact Hrow|].
  assert (Hcols : columns ledger_sheet <> []) by discriminate.
  assert (Hi : (200 < Frame.len ledger_sheet)%nat) by (vm_compute; lia).
  exact (proj2 (proj2 (chunk_rows_are_renumbered "ledger.xlsx" "Ledger"
                         ledger_sheet 200 Hfree Hcols Hi))
               0%nat [CStr "cash"; CInt 201] ltac:(lia) Hrow).
Defined.

(** ** The readers of the spreadsheet extractor *)
Section ExcelReaders.
Import Text Excel.

Lemma extract_from_excel_trace (w : env) (f : upload) :
  trace (extract_from_excel w f)
  = trace (extract_body w f)
      ++ (if temp_exists w then [EvRemoveTemp] else []).
Proof.
  unfold trace, extract_from_excel, try_finally, try_except.
  destruct (extract_body w f) as [[docs|e] t]; cbn [fst snd];
    destruct (temp_exists w); unfold call; cbn [mret M_ret fst snd];
    try destruct (remove_temp w) as [[]|e']; cbn [fst snd];
    rewrite ?app_nil_r; reflexivity.
Qed.

Lemma extract_body_trace (w : env) (f : upload) :
  trace (extract_body w f)
  = EvWriteTemp
      :: match write_temp w with
         | Raise _ => []
         | Ok _ =>
             if endswith (lower (name f)) ".csv" then [EvReadCsv]
             else EvReadExcel "openpyxl"
                    :: match read_excel_openpyxl w with
                       | Ok _ => []
                       | Raise _ => [EvReadExcel "xlrd"]
                       end
         end.
Proof.
  unfold trace, extract_body, try_except, call.
  destruct (write_temp w) as [[]|e0]; [|reflexivity].
  destruct (endswith (lower (name f)) ".csv").
  - destruct (read_csv w) as [df|e1]; reflexivity.
  - destruct (read_excel_openpyxl w) as [sheets|e1]; [reflexivity|].
    destruct (read_excel_xlrd w) as [sheets|e2]; reflexivity.
Qed.

End ExcelReaders.

(** X11. The spreadsheet extractor reads a file whose lowered name ends
    in [.csv] with the CSV reader only, and any other file with
    [read_excel] only. The engine [xlrd] is called only after [openpyxl]
    has raised. When it then reads the workbook, the result is the
    documents of its sheets, with no trace of the first failure; when it
    raises too, the result is the single error document with the message
    of [xlrd], the message of [openpyxl] being lost. *)
Theorem excel_engine_fallback :
  forall (w : Excel.env) (f : upload),
    let m := Excel.extract_from_excel w f in
    let csv := Text.endswith (Text.lower (name f)) ".csv" in
    (In EvReadCsv (trace m) ->
     csv = true /\ forall engine, ~ reads_excel_with engine (trace m))
    /\ (forall engine, reads_excel_with engine (trace m) ->
        csv = false /\ ~ In EvReadCsv (trace m))
    /\ (reads_excel_with "xlrd" (trace m) ->
        exists e, Excel.read_excel_openpyxl w = Raise e)
    /\ (forall e1 : string,
          csv = false ->
          Excel.write_temp w = Ok tt ->
          Excel.read_excel_openpyxl w = Raise e1 ->
          Excel.temp_exists w = false \/ Excel.remove_temp w = Ok tt ->
          fst m = match Excel.read_excel_xlrd w with
                  | Ok sheets => Ok (Excel.excel_documents (name f) sheets)
                  | Raise e2 => Ok [Excel.error_document (name f) e2]
                  end).
Proof.
  intros w f m csv.
  assert (Ht : trace m
               = EvWriteTemp
                   :: match Excel.write_temp w with
                      | Raise _ => []
                      | Ok _ =>
                          if csv then [EvReadCsv]
                          else EvReadExcel "openpyxl"
                                 :: match Excel.read_excel_openpyxl w with
                                    | Ok _ => []
                                    | Raise _ => [EvReadExcel "xlrd"]
                                    end
                      end
                   ++ (if Excel.temp_exists w then [EvRemoveTemp] else [])).
  { subst m csv. rewrite extract_from_excel_trace, extract_body_trace.
    reflexivity. }
  assert (Hin : forall ev, In ev (trace m) ->
                  ev = EvWriteTemp \/ ev = EvRemoveTemp
                  \/ (ev = EvReadCsv /\ csv = true)
                  \/ (ev = EvReadExcel "openpyxl" /\ csv = false)
                  \/ (ev = EvReadExcel "xlrd" /\ csv = false
                      /\ exists e, Excel.read_excel_openpyxl w = Raise e)).
  { intros ev. rewrite Ht. cbn [In]. intros [<-|H]; [auto|].
    apply in_app_or in H as [H|H].
    - destruct (Excel.write_temp w); [|destruct H].
      destruct csv.
      + destruct H as [<-|[]]. auto.
      + destruct H as [<-|H]; [auto 6|].
        destruct (Excel.read_excel_openpyxl w) as [sheets|e1]; [destruct H|].
        destruct H as [<-|[]]. right. right. right. right. eauto.
    - destruct (Excel.temp_exists w); [|destruct H].
      destruct H as [<-|[]]. auto. }
  split; [|split; [|split]].
  - intros H. apply Hin in H.
    destruct H as [H|[H|[[_ Hc]|[[H _]|[H _]]]]]; try discriminate.
    split; [exact Hc|]. intros engine He. apply Hin in He.
    destruct He as [He|[He|[[He _]|[[_ He]|[_ [He _]]]]]];
      try discriminate; congruence.
  - intros engine He. pose proof (Hin _ He) as H.
    destruct H as [H|[H|[[H _]|[[_ Hc]|[_ [Hc _]]]]]]; try discriminate.
    + split; [exact Hc|]. intros H'. apply Hin in H'.
      destruct H' as [H'|[H'|[[_ H']|[[H' _]|[H' _]]]]];
        try discriminate; congruence.
    + split; [exact Hc|]. intros H'. apply Hin in H'.
      destruct H' as [H'|[H'|[[_ H']|[[H' _]|[H' _]]]]];
        try discriminate; congruence.
  - intros H. apply Hin in H.
    destruct H as [H|[H|[[H _]|[[H _]|[_ [_ H]]]]]]; try discriminate.
    exact H.
  - intros e1 Hcsv Hw Ho Hc. subst m csv.
    unfold Excel.extract_from_excel, Excel.extract_body.
    rewrite Hcsv, Hw, Ho.
    destruct (Excel.read_excel_xlrd w) as [sheets|e2]; cbn;
      (destruct Hc as [-> | Hrm]; [reflexivity|]);
      rewrite Hrm; destruct (Excel.temp_exists w); reflexivity.
Qed.

Lemma excel_engine_fallback_witness :
  reads_excel_with "xlrd"
    (trace (Excel.extract_from_excel legacy_workbook {| name := "ledger.xls" |}))
  /\ (exists e, Excel.read_excel_openpyxl legacy_workbook = Raise e)
  /\ length (yield (Excel.extract_from_excel legacy_workbook
                      {| name := "ledger.xls" |})) = 1%nat.
Proof.
  assert (H : reads_excel_with "xlrd"
                (trace (Excel.extract_from_excel legacy_workbook
                          {| name := "ledger.xls" |}))).
  { vm_compute. right. right. left. reflexivity. }
  split; [exact H|]. split.
  - exact (proj1 (proj2 (proj2 (excel_engine_fallback legacy_workbook
                                  {| name := "ledger.xls" |}))) H).
  - vm_compute. reflexivity.
Defined.

(** ** The annotation loop on shared dictionaries *)
Section InPlaceLoop.
Import InPlace.
Local Open Scope nat_scope.

Lemma annotate_ids (i : nat) (d : Document) :
  metadata (Pipeline.annotate i d) !! "chunk_id" = Some (VInt (Z.of_nat i))
  /\ metadata (Pipeline.annotate i d) !! "chunk_size"
     = Some (VInt (Z.of_nat (String.length (page_content d)))).
Proof.
  unfold Pipeline.annotate. cbn [metadata].
  destruct (Pipeline.any_term Pipeline.critical_terms _);
    [|destruct (Pipeline.any_term Pipeline.high_terms _);
      [|destruct (Pipeline.any_term Pipeline.medium_terms _)]];
    split; repeat (rewrite lookup_insert_ne by discriminate);
    apply lookup_insert_eq.
Qed.

Lemma annotate_other (h : heap) (i : nat) (c : chunk) (r : nat) :
  r <> md c -> annotate h i c !! r = h !! r.
Proof.
  intros Hr. unfold annotate. destruct (view h c); [|reflexivity].
  apply lookup_insert_ne. congruence.
Qed.

Lemma annotate_from_other (h : heap) (i : nat) (chunks : list chunk) (r : nat) :
  ~ In r (map md chunks) -> annotate_from h i chunks !! r = h !! r.
Proof.
  revert h i. induction chunks as [|c chunks IH]; intros h i Hr; [reflexivity|].
  cbn [annotate_from]. rewrite IH by (intros H; apply Hr; right; exact H).
  apply annotate_other. intros ->. apply Hr. left. reflexivity.
Qed.

Lemma annotate_self (h : heap) (i : nat) (c : chunk) (m : gmap string value) :
  h !! md c = Some m ->
  annotate h i c !! md c
  = Some (metadata (Pipeline.annotate i {| page_content := text c; metadata := m |})).
Proof.
  intros Hm. unfold annotate, view. rewrite Hm. cbn.
  apply lookup_insert_eq.
Qed.

Lemma annotate_allocated (h : heap) (i : nat) (c : chunk) (r : nat) :
  is_Some (h !! r) -> is_Some (annotate h i c !! r).
Proof.
  intros Hr. unfold annotate. destruct (view h c) as [d|]; [|exact Hr].
  destruct (decide (md c = r)) as [<-|Hne].
  - exists (metadata (Pipeline.annotate i d)). apply lookup_insert_eq.
  - destruct Hr as [x Hx]. exists x. rewrite <- Hx.
    apply lookup_insert_ne, Hne.
Qed.

(** With a dictionary of its own, the chunk at position [k] comes out of
    the loop as [Pipeline.annotate] leaves it. *)
Lemma annotate_from_unshared (h : heap) (i k : nat) (chunks : list chunk)
      (c : chunk) (d : Document) :
  unshared chunks ->
  chunks !! k = Some c ->
  view h c = Some d ->
  view (annotate_from h i chunks) c = Some (Pipeline.annotate (i + k) d).
Proof.
  revert h i k. induction chunks as [|c0 chunks IH]; intros h i k Hnd Hk Hv;
    [discriminate|].
  unfold unshared in Hnd. cbn [map] in Hnd. apply NoDup_cons_iff in Hnd as [Hc0 Hnd].
  destruct k as [|k].
  - injection Hk as ->. cbn [annotate_from].
    unfold view in *. destruct (h !! md c) as [m|] eqn:Hm; [|discriminate].
    cbn in Hv. injection Hv as <-.
    rewrite annotate_from_other by exact Hc0.
    rewrite (annotate_self h i c m Hm). cbn. rewrite Nat.add_0_r. reflexivity.
  - cbn in Hk. cbn [annotate_from].
    replace (i + S k) with (S i + k) by lia.
    apply IH; [exact Hnd | exact Hk |].
    unfold view in *. rewrite annotate_other; [exact Hv|].
    intros Heq. apply Hc0. rewrite <- Heq.
    apply in_map. apply list_elem_of_In. eapply list_elem_of_lookup_2, Hk.
Qed.

(** The dictionary of a chunk holds, after the loop, the numbers written
    for the last chunk that refers to it. *)
Lemma annotate_from_last_writer (h : heap) (i k : nat) (chunks : list chunk)
      (c : chunk) :
  chunks !! k = Some c ->
  is_Some (h !! md c) ->
  (forall k' c', k < k' -> chunks !! k' = Some c' -> md c' <> md c) ->
  exists m, annotate_from h i chunks !! md c = Some m
            /\ m !! "chunk_id" = Some (VInt (Z.of_nat (i + k)))
            /\ m !! "chunk_size" = Some (VInt (Z.of_nat (String.length (text c)))).
Proof.
  revert h i k. induction chunks as [|c0 chunks IH]; intros h i k Hk Hs Hlast;
    [discriminate|].
  destruct k as [|k].
  - injection Hk as ->. cbn [annotate_from].
    destruct Hs as [m Hm].
    rewrite annotate_from_other.
    + rewrite (annotate_self h i c m Hm). eexists. split; [reflexivity|].
      rewrite Nat.add_0_r. apply annotate_ids.
    + intros Hin. apply in_map_iff in Hin as (c' & Heq & Hin).
      apply list_elem_of_In, list_elem_of_lookup_1 in Hin as [k' Hk'].
      apply (Hlast (S k') c'); [lia | exact Hk' | exact Heq].
  - cbn in Hk. cbn [annotate_from].
    replace (i + S k) with (S i + k) by lia.
    apply IH; [exact Hk | apply annotate_allocated, Hs |].
    intros k' c' Hlt Hk'. apply (Hlast (S k') c'); [lia | exact Hk'].
Qed.

End InPlaceLoop.

(** X12. The loop of [create_vector_db] writes into the dictionaries of
    the chunks. When no two chunks share a dictionary, the chunks read
    after the loop are the chunks read before it, each annotated on its
    own with its position: the text is unchanged, [chunk_id] is the
    position and [chunk_size] the length of the text. Dictionaries that
    belong to no chunk are left as they were. *)
Theorem annotation_in_place_is_pointwise :
  forall (h : InPlace.heap) (chunks : list InPlace.chunk) (docs : list Document),
    unshared chunks ->
    mapM (InPlace.view h) chunks = Some docs ->
    let h' := InPlace.annotate_chunks h chunks in
    mapM (InPlace.view h') chunks = Some (Pipeline.annotate_chunks docs)
    /\ (forall (k : nat) (d : Document),
          docs !! k = Some d ->
          exists d', Pipeline.annotate_chunks docs !! k = Some d'
                     /\ page_content d' = page_content d
                     /\ metadata d' !! "chunk_id" = Some (VInt (Z.of_nat k))
                     /\ metadata d' !! "chunk_size"
                        = Some (VInt (Z.of_nat (String.length (page_content d)))))
    /\ (forall r : nat, ~ In r (map InPlace.md chunks) -> h' !! r = h !! r).
Proof.
  intros h chunks docs Hnd Hv h'. split; [|split].
  - apply mapM_Some in Hv. apply mapM_Some.
    apply Forall2_same_length_lookup. split.
    + unfold Pipeline.annotate_chunks. rewrite length_imap.
      eapply Forall2_length, Hv.
    + intros k c d' Hc Hd'. unfold Pipeline.annotate_chunks in Hd'.
      rewrite list_lookup_imap in Hd'.
      destruct (docs !! k) as [d|] eqn:Hd; [|discriminate].
      cbn in Hd'. injection Hd' as <-.
      pose proof (Forall2_lookup_lr _ _ _ _ _ _ Hv Hc Hd) as Hview.
      subst h'. unfold InPlace.annotate_chunks.
      apply (annotate_from_unshared h 0 k chunks c d Hnd Hc Hview).
  - intros k d Hd. exists (Pipeline.annotate k d).
    unfold Pipeline.annotate_chunks. rewrite list_lookup_imap, Hd.
    split; [reflexivity|]. split; [reflexivity|]. apply annotate_ids.
  - intros r Hr. subst h'. apply annotate_from_other, Hr.
Qed.

Lemma annotation_in_place_is_pointwise_witness :
  unshared two_chunks
  /\ mapM (InPlace.view (InPlace.annotate_chunks two_chunk_heap two_chunks)) two_chunks
     = Some (Pipeline.annotate_chunks
               [ {| page_content := "TOTAL: 40";
                    metadata := dict [("source", VStr "a.csv")] |};
                 {| page_content := "see notes";
                    metadata := dict [("source", VStr "a.csv")] |} ]).
Proof.
  assert (Hnd : unshared two_chunks).
  { unfold unshared, two_chunks. cbn [map InPlace.md].
    repeat constructor; cbn; intuition discriminate. }
  split; [exact Hnd|].
  apply (annotation_in_place_is_pointwise two_chunk_heap two_chunks _ Hnd).
  reflexivity.
Defined.

(** X13. When chunks do share a dictionary, the loop overwrites: after
    it, the dictionary of a chunk holds as [chunk_id] the position, and
    as [chunk_size] the text length, of the last chunk that refers to
    this dictionary. A chunk reads its own position only if no later
    chunk shares its dictionary. *)
Theorem shared_dictionary_keeps_last_position :
  forall (h : InPlace.heap) (chunks : list InPlace.chunk) (k : nat) (c : InPlace.chunk),
    chunks !! k = Some c ->
    is_Some (h !! InPlace.md c) ->
    (forall (k' : nat) (c' : InPlace.chunk),
        (k < k')%nat -> chunks !! k' = Some c' -> InPlace.md c' <> InPlace.md c) ->
    forall (j : nat) (c0 : InPlace.chunk),
      chunks !! j = Some c0 ->
      InPlace.md c0 = InPlace.md c ->
      exists d, InPlace.view (InPlace.annotate_chunks h chunks) c0 = Some d
                /\ page_content d = InPlace.text c0
                /\ metadata d !! "chunk_id" = Some (VInt (Z.of_nat k))
                /\ metadata d !! "chunk_size"
                   = Some (VInt (Z.of_nat (String.length (InPlace.text c)))).
Proof.
  intros h chunks k c Hk Hs Hlast j c0 Hj Heq.
  destruct (annotate_from_last_writer h 0 k chunks c Hk Hs Hlast)
    as (m & Hm & Hid & Hsize).
  exists {| page_content := InPlace.text c0; metadata := m |}.
  unfold InPlace.view, InPlace.annotate_chunks. rewrite Heq, Hm.
  split; [reflexivity|]. split; [reflexivity|]. split; [exact Hid | exact Hsize].
Qed.

Lemma shared_dictionary_keeps_last_position_witness :
  exists d,
    InPlace.view
      (InPlace.annotate_chunks two_chunk_heap
         [InPlace.mkChunk "TOTAL: 40" 7; InPlace.mkChunk "see notes" 7])
      (InPlace.mkChunk "TOTAL: 40" 7) = Some d
    /\ page_content d = "TOTAL: 40"
    /\ metadata d !! "chunk_id" = Some (VInt 1)
    /\ metadata d !! "chunk_size" = Some (VInt 9).
Proof.
  assert (Hs : is_Some (two_chunk_heap !! 7%nat)) by (vm_compute; eauto).
  assert (Hlast : forall (k' : nat) (c' : InPlace.chunk),
             (1 < k')%nat ->
             [InPlace.mkChunk "TOTAL: 40" 7; InPlace.mkChunk "see notes" 7] !! k'
             = Some c' ->
             InPlace.md c' <> 7%nat).
  { intros [|[|k']] c' Hlt Hk'; [lia | lia | discriminate]. }
  exact (shared_dictionary_keeps_last_position two_chunk_heap
           [InPlace.mkChunk "TOTAL: 40" 7; InPlace.mkChunk "see notes" 7]
           1 (InPlace.mkChunk "see notes" 7) eq_refl Hs Hlast
           0 (InPlace.mkChunk "TOTAL: 40" 7) eq_refl eq_refl).
Defined.

(** ** Table documents in front of the classifier *)
Section WholeDocuments.
Import Text Renderer Excel.
Local Open Scope nat_scope.

Lemma contains_skip (t a b : string) :
  contains t b = true -> contains t (a +:+ b) = true.
Proof.
  intros H. induction a as [|c a IH]; [rewrite str_app_nil_l; exact H|].
  rewrite str_app_cons. cbn [contains]. rewrite IH.
  destruct (String.prefix t _); reflexivity.
Qed.

Lemma annotate_priority (i : nat) (d : Document) :
  let content := lower (page_content d) in
  priority_of (Pipeline.annotate i d)
  = Some (VStr (if Pipeline.any_term Pipeline.critical_terms content then "critical"
                else if Pipeline.any_term Pipeline.high_terms content then "high"
                else if Pipeline.any_term Pipeline.medium_terms content then "medium"
                else "low")).
Proof.
  unfold priority_of, Pipeline.annotate. cbn [metadata page_content].
  destruct (Pipeline.any_term Pipeline.critical_terms _);
    [|destruct (Pipeline.any_term Pipeline.high_terms _);
      [|destruct (Pipeline.any_term Pipeline.medium_terms _)]];
    repeat (rewrite lookup_insert_ne by discriminate);
    apply lookup_insert_eq.
Qed.

Lemma medium_term_not_low (i : nat) (d : Document) :
  Pipeline.any_term Pipeline.medium_terms (lower (page_content d)) = true ->
  at_least_medium i d.
Proof.
  intros Hm. unfold at_least_medium. rewrite annotate_priority. rewrite Hm.
  destruct (Pipeline.any_term Pipeline.critical_terms _);
    [|destruct (Pipeline.any_term Pipeline.high_terms _)];
    eexists; (split; [|reflexivity]); cbn; auto.
Qed.

(** A rendered table mentions its rows. *)
Lemma rendered_mentions_rows (df : DataFrame) (title : string) :
  Frame.empty df = false ->
  Pipeline.any_term Pipeline.medium_terms (lower (_df_to_text df title)) = true.
Proof.
  intros Hne. destruct (rendered_head df title Hne) as [rest ->].
  assert (H : contains "row"
                (lower ("=== " +:+ title +:+ " ===" +:+ nl +:+ "Total Rows: "
                          +:+ str_nat (Frame.len df) +:+ nl +:+ "Total Columns: "
                          +:+ str_nat (Frame.width df) +:+ nl +:+ rest)) = true).
  { rewrite !lower_app. do 4 apply contains_skip.
    change (lower "Total Rows: ") with ("total " +:+ ("row" +:+ "s: ")).
    rewrite !str_app_assoc. apply contains_app. }
  unfold Pipeline.any_term, Pipeline.medium_terms. cbn [existsb].
  rewrite H. rewrite orb_true_r. reflexivity.
Qed.

Lemma empty_fillna (df : DataFrame) :
  Frame.empty (Frame.fillna df) = Frame.empty df.
Proof.
  unfold Frame.empty, Frame.fillna. cbn [columns rows].
  destruct (rows df); reflexivity.
Qed.

Lemma range_step_below (n i : nat) :
  In i (range_step n 200) -> i < n.
Proof.
  rewrite range_step_200. intros H.
  apply in_map_iff in H as (k & <- & Hk). apply in_seq in Hk.
  pose proof (Nat.div_mod_eq (n + 199) 200) as Hd.
  pose proof (Nat.mod_upper_bound (n + 199) 200 ltac:(discriminate)) as Hm.
  lia.
Qed.

Lemma summary_is_critical (source : string) (df : DataFrame) (i : nat) :
  Forall (fun d => priority_of (Pipeline.annotate i d) = Some (VStr "critical")
                   /\ metadata (Pipeline.annotate i d) !! "contains_totals"
                      = Some (VBool true))
         (summary_documents source df).
Proof.
  unfold summary_documents.
  destruct (Frame.select_dtypes df DNumber) as [|jc numeric_cols];
    [apply List.Forall_nil|].
  apply List.Forall_cons; [|apply List.Forall_nil].
  set (d := {| page_content := _; metadata := _ |}).
  assert (Hc : Pipeline.any_term Pipeline.critical_terms (lower (page_content d)) = true).
  { subst d. cbn [page_content].
    assert (Hj : exists rest,
               join nl ("=== FINANCIAL SUMMARY ===" ::
                          concat (map (fun jc0 : nat * string =>
                                         summary_lines (snd jc0)
                                           (Frame.ints (Frame.series df (fst jc0))))
                                      (jc :: numeric_cols)))
               = "=== FINANCIAL SUMMARY ===" +:+ rest).
    { destruct (concat _) as [|l ls].
      - exists "". reflexivity.
      - rewrite join_cons. eexists. reflexivity. }
    destruct Hj as [rest ->]. rewrite lower_app.
    change (lower "=== FINANCIAL SUMMARY ===")
      with ("=== " +:+ ("financial summary" +:+ " ===")).
    assert (H : contains "financial summary"
                  (("=== " +:+ ("financial summary" +:+ " ===")) +:+ lower rest) = true).
    { rewrite !str_app_assoc. apply contains_app. }
    unfold Pipeline.any_term, Pipeline.critical_terms. cbn [existsb].
    rewrite H. rewrite !orb_true_r. reflexivity. }
  split.
  - rewrite annotate_priority. rewrite Hc. reflexivity.
  - rewrite (annotate_critical i d Hc).
    apply lookup_insert_eq.
Qed.

End WholeDocuments.

(** X14. A table document that reaches the classifier as one chunk is
    never given priority [low]: the text of a table with at least one
    row and one column has the line [Total Rows: n], which matches the
    term [row]. This holds for every document of a CSV file and of an
    Excel workbook whose tables are not empty. The financial summary of a
    CSV file is classified [critical] and gets the flag
    [contains_totals]. *)
Theorem table_documents_are_never_low :
  forall (source : string) (i : nat),
    (forall raw : DataFrame,
        Frame.empty raw = false ->
        Forall (at_least_medium i) (Excel.csv_documents source raw))
    /\ (forall sheets : list (string * DataFrame),
          Forall (fun s : string * DataFrame => Frame.empty (snd s) = false) sheets ->
          Forall (at_least_medium i) (Excel.excel_documents source sheets))
    /\ (forall df : DataFrame,
          Forall (fun d => priority_of (Pipeline.annotate i d) = Some (VStr "critical")
                           /\ metadata (Pipeline.annotate i d) !! "contains_totals"
                              = Some (VBool true))
                 (Excel.summary_documents source df)).
Proof.
  intros source i. split; [|split].
  - intros raw Hne. unfold Excel.csv_documents.
    assert (Hdf : Frame.empty (Frame.fillna raw) = false)
      by (rewrite empty_fillna; exact Hne).
    set (df := Frame.fillna raw) in *.
    apply List.Forall_cons.
    { apply medium_term_not_low. unfold Excel.complete_document.
      cbn [page_content]. apply rendered_mentions_rows, Hdf. }
    apply Forall_app. split.
    + unfold Excel.group_documents.
      destruct (Nat.ltb 100 (Frame.len df)); [|apply List.Forall_nil].
      destruct (group_loop_cases source df (Excel.indexed_columns df))
        as [->|(j & col & t & _ & ->)]; [apply List.Forall_nil|].
      unfold Excel.groups_of_column. apply Forall_map.
      apply Forall_forall. intros g Hg. apply list_elem_of_In in Hg.
      apply List.filter_In in Hg as [Hg Hlen]. apply Nat.ltb_lt in Hlen.
      apply medium_term_not_low. unfold Excel.group_document.
      cbn [page_content]. apply rendered_mentions_rows.
      unfold Excel.groupby in Hg. apply in_map_iff in Hg as (key & <- & _).
      cbn [snd] in *. unfold Frame.len in Hlen. cbn [rows] in Hlen.
      pose proof (empty_false_columns df Hdf) as Hcols.
      unfold Frame.empty. cbn [columns rows].
      destruct (List.filter _ (rows df)); [cbn in Hlen; lia|].
      destruct (columns df); [contradiction | reflexivity].
    + eapply Forall_impl; [apply (summary_is_critical source df i)|].
      intros d [Hd _]. exists "critical". split; [left; reflexivity | exact Hd].
  - intros sheets Hsheets. unfold Excel.excel_documents.
    induction Hsheets as [|sheet sheets Hne _ IH]; [apply List.Forall_nil|].
    cbn [map concat]. apply Forall_app. split; [|exact IH].
    assert (Hdf : Frame.empty (Frame.fillna (snd sheet)) = false)
      by (rewrite empty_fillna; exact Hne).
    unfold Excel.sheet_documents. set (df := Frame.fillna (snd sheet)) in *.
    apply List.Forall_cons.
    { apply medium_term_not_low. unfold Excel.complete_document.
      cbn [page_content]. apply rendered_mentions_rows, Hdf. }
    unfold Excel.chunk_documents.
    destruct (Nat.ltb 200 (Frame.len df)); [|apply List.Forall_nil].
    apply Forall_map. apply Forall_forall. intros k Hk.
    apply list_elem_of_In, range_step_below in Hk.
    apply medium_term_not_low. unfold Excel.chunk_document.
    cbn [page_content]. apply rendered_mentions_rows.
    pose proof (empty_false_columns df Hdf) as Hcols.
    unfold Frame.empty, Frame.iloc. cbn [columns rows].
    destruct (take 200 (drop k (rows df))) eqn:Ht.
    + apply (f_equal (@length _)) in Ht.
      rewrite length_take, length_drop in Ht. unfold Frame.len in Hk.
      cbn [length] in Ht. lia.
    + destruct (columns df); [contradiction | reflexivity].
  - intros df. apply summary_is_critical.
Qed.

Lemma table_documents_are_never_low_witness :
  Frame.empty sales_table = false
  /\ Forall (at_least_medium 0) (Excel.csv_documents "sales.csv" sales_table).
Proof.
  assert (H : Frame.empty sales_table = false) by reflexivity.
  split; [exact H|].
  exact (proj1 (table_documents_are_never_low "sales.csv" 0) sales_table H).
Defined.

(** X15. With a database at hand, [process_question_with_rag] never
    raises: it returns the text the chain produced, unchanged, or the
    message that wraps the text of the failure. It asks the retriever for
    100 chunks, hands the question to the chain verbatim, and invokes the
    chain only after the chat model and the retriever have been built;
    after a failure no further call is made. *)
Theorem question_is_answered_or_excused :
  forall (w : Pipeline.env) (question model : string) (db : Pipeline.Chroma),
    let m := Pipeline.process_question_with_rag w question (Some db) model in
    (exists answer,
        fst m = Ok answer
        /\ (Pipeline.invoke_chain w = Ok answer
            \/ exists e, answer = rephrase_message e
                         /\ (Pipeline.chat_model w = Raise e
                             \/ Pipeline.as_retriever w = Raise e
                             \/ Pipeline.invoke_chain w = Raise e)))
    /\ (forall k, In (EvRetriever k) (trace m) ->
                  k = 100%nat /\ Pipeline.chat_model w = Ok tt)
    /\ (forall q, In (EvInvokeChain q) (trace m) ->
                  q = question
                  /\ Pipeline.chat_model w = Ok tt
                  /\ Pipeline.as_retriever w = Ok tt)
    /\ (exists n, trace m = take n [EvChatModel model; EvRetriever 100;
                                    EvInvokeChain question]).
Proof.
  intros w question model db m. subst m.
  unfold Pipeline.process_question_with_rag, trace, rephrase_message, call,
    try_except.
  destruct (Pipeline.chat_model w) as [[]|e1].
  2:{ cbn. split; [eauto 8|]. split; [|split].
      - intros k [H|[]]. discriminate.
      - intros q [H|[]]. discriminate.
      - exists 1%nat. reflexivity. }
  destruct (Pipeline.as_retriever w) as [[]|e2].
  2:{ cbn. split; [eauto 8|]. split; [|split].
      - intros k [H|[H|[]]]; [discriminate|]. injection H as <-. auto.
      - intros q [H|[H|[]]]; discriminate.
      - exists 2%nat. reflexivity. }
  destruct (Pipeline.invoke_chain w) as [r|e3]; cbn.
  - split; [eauto|]. split; [|split].
    + intros k [H|[H|[H|[]]]]; try discriminate. injection H as <-. auto.
    + intros q [H|[H|[H|[]]]]; try discriminate. injection H as <-. auto.
    + exists 3%nat. reflexivity.
  - split; [eauto 8|]. split; [|split].
    + intros k [H|[H|[H|[]]]]; try discriminate. injection H as <-. auto.
    + intros q [H|[H|[H|[]]]]; try discriminate. injection H as <-. auto.
    + exists 3%nat. reflexivity.
Qed.

Lemma question_is_answered_or_excused_witness :
  In (EvInvokeChain "What is the total?")
     (trace (Pipeline.process_question_with_rag answering_server
               "What is the total?" (Some (Pipeline.mkChroma "financial_rag"))
               "llama3"))
  /\ Pipeline.chat_model answering_server = Ok tt
  /\ Pipeline.as_retriever answering_server = Ok tt.
Proof.
  assert (H : In (EvInvokeChain "What is the total?")
                 (trace (Pipeline.process_question_with_rag answering_server
                           "What is the total?"
                           (Some (Pipeline.mkChroma "financial_rag")) "llama3"))).
  { vm_compute. right. right. left. reflexivity. }
  split; [exact H|].
  exact (proj2 (proj1 (proj2 (proj2 (question_is_answered_or_excused
                                       answering_server "What is the total?" "llama3"
                                       (Pipeline.mkChroma "financial_rag"))))
                      "What is the total?" H)).
Defined.

(** ** File names: the extension and the suffix test *)
Section FileNames.
Import Text.
Local Open Scope nat_scope.

Lemma length_str_app (a b : string) :
  String.length (a +:+ b) = String.length a + String.length b.
Proof.
  induction a as [|c a IH]; [reflexivity|].
  rewrite str_app_cons. cbn [String.length]. rewrite IH. reflexivity.
Qed.

Lemma substring_full (s : string) : String.substring 0 (String.length s) s = s.
Proof.
  induction s as [|c s IH]; [reflexivity|].
  cbn [String.length String.substring]. rewrite IH. reflexivity.
Qed.

Lemma substring_skip (pre suf : string) :
  String.substring (String.length pre) (String.length suf) (pre +:+ suf) = suf.
Proof.
  induction pre as [|c pre IH].
  - rewrite str_app_nil_l. apply substring_full.
  - rewrite str_app_cons. cbn [String.length String.substring]. exact IH.
Qed.

Lemma substring_split (s : string) (i : nat) :
  i <= String.length s ->
  s = String.substring 0 i s +:+ String.substring i (String.length s - i) s.
Proof.
  revert i. induction s as [|c s IH]; intros i Hi.
  - cbn in Hi. replace i with 0 by lia. reflexivity.
  - destruct i as [|i].
    + cbn [String.substring String.length Nat.sub]. rewrite str_app_nil_l.
      rewrite substring_full. reflexivity.
    + cbn [String.length] in Hi.
      cbn [String.substring String.length Nat.sub]. rewrite str_app_cons.
      f_equal. apply IH. lia.
Qed.

Lemma endswith_app (pre suf : string) : endswith (pre +:+ suf) suf = true.
Proof.
  unfold endswith. rewrite length_str_app.
  replace (Nat.leb (String.length suf) (String.length pre + String.length suf))
    with true by (symmetry; apply Nat.leb_le; lia).
  replace (String.length pre + String.length suf - String.length suf)
    with (String.length pre) by lia.
  rewrite substring_skip. apply String.eqb_refl.
Qed.

Lemma endswith_inv (s suf : string) :
  endswith s suf = true -> exists pre, s = pre +:+ suf.
Proof.
  unfold endswith. destruct (Nat.leb _ _) eqn:Hle; [|discriminate].
  apply Nat.leb_le in Hle. intros H. apply String.eqb_eq in H.
  exists (String.substring 0 (String.length s - String.length suf) s).
  pose proof (substring_split s (String.length s - String.length suf)
                ltac:(lia)) as Hs.
  replace (String.length s - (String.length s - String.length suf))
    with (String.length suf) in Hs by lia.
  rewrite H in Hs. exact Hs.
Qed.

Lemma last_app_nonempty {A : Type} (l1 l2 : list A) (d : A) :
  l2 <> [] -> List.last (l1 ++ l2) d = List.last l2 d.
Proof.
  intros Hne. induction l1 as [|a l1 IH]; [reflexivity|].
  cbn [app]. destruct (l1 ++ l2) as [|b l] eqn:Happ.
  - apply app_eq_nil in Happ as [_ ->]. contradiction.
  - cbn [List.last]. cbn [List.last] in IH. exact IH.
Qed.

(** The last piece after a separator that is known to be there. *)
Lemma last_split_app (c : ascii) (pre e : string) :
  has_char c e = false ->
  List.last (split_on c (pre +:+ String c e)) EmptyString = e.
Proof.
  intros He. rewrite split_on_app, last_app_nonempty by apply split_on_nonempty.
  rewrite (split_on_free c e He). reflexivity.
Qed.

Lemma split_singleton (c : ascii) (s p : string) :
  split_on c s = [p] -> p = s.
Proof.
  revert p. induction s as [|d s IH]; intros p H.
  - injection H as <-. reflexivity.
  - cbn [split_on] in H. destruct (Ascii.eqb d c).
    + injection H as _ H. destruct (split_on_nonempty c s H).
    + destruct (split_on c s) as [|q m] eqn:Hs; [destruct (split_on_nonempty c s Hs)|].
      injection H as <- ->. f_equal. apply IH. reflexivity.
Qed.

(** A text is its last piece, or ends with the separator followed by
    its last piece. *)
Lemma split_last_decompose (c : ascii) (s : string) :
  let e := List.last (split_on c s) EmptyString in
  (split_on c s = [s] /\ e = s) \/ exists pre, s = pre +:+ String c e.
Proof.
  induction s as [|d s IH]; [left; split; reflexivity|].
  cbn zeta in *. cbn [split_on]. destruct (Ascii.eqb d c) eqn:Hd.
  - apply Ascii.eqb_eq in Hd as ->. right.
    destruct (split_on c s) as [|q m] eqn:Hs; [destruct (split_on_nonempty c s Hs)|].
    change (List.last (EmptyString :: q :: m) EmptyString)
      with (List.last (q :: m) EmptyString).
    destruct IH as [[_ He]|[pre Hpre]].
    + exists EmptyString. rewrite He. reflexivity.
    + exists (String c pre). rewrite str_app_cons. f_equal. exact Hpre.
  - destruct (split_on c s) as [|q m] eqn:Hs; [destruct (split_on_nonempty c s Hs)|].
    destruct m as [|x m].
    + left. pose proof (split_singleton c s q Hs) as ->.
      split; reflexivity.
    + right.
      change (List.last (String d q :: x :: m) EmptyString)
        with (List.last (q :: x :: m) EmptyString).
      destruct IH as [[Hone _]|[pre Hpre]]; [discriminate|].
      exists (String d pre). rewrite str_app_cons. f_equal. exact Hpre.
Qed.

Lemma extension_csv (file_name : string) :
  Main.extension file_name = "csv"
  <-> endswith (lower file_name) ".csv" = true \/ lower file_name = "csv".
Proof.
  unfold Main.extension. split.
  - intros He.
    destruct (split_last_decompose "." (lower file_name)) as [[_ H]|[pre Hpre]].
    + right. rewrite <- H. exact He.
    + left. rewrite He in Hpre. rewrite Hpre.
      apply (endswith_app pre ".csv").
  - intros [H|H].
    + apply endswith_inv in H as [pre ->].
      apply (last_split_app "." pre "csv"). reflexivity.
    + rewrite H. reflexivity.
Qed.

Lemma extract_spreadsheet (w : Main.env) (file : upload) :
  to_spreadsheet (name file) = true ->
  Main.extract w file = Excel.extract_from_excel (Main.spreadsheet w) file.
Proof.
  unfold to_spreadsheet, Main.extract. intros H. rewrite H.
  destruct (String.eqb (Main.extension (name file)) "pdf") eqn:Hpdf; [|reflexivity].
  apply String.eqb_eq in Hpdf. rewrite Hpdf in H. discriminate H.
Qed.

End FileNames.

(** X16. The application chooses the extractor by the text after the last
    dot of the lowered file name, the spreadsheet extractor chooses its
    reader by the suffix [.csv] of the lowered name. The two tests agree
    except for a file named [csv] without any dot: the extension is [csv]
    exactly when the lowered name ends in [.csv] or is [csv]. So an upload
    sent to the spreadsheet extractor is read by [read_csv] only if its
    extension is [csv]; with the extension [csv] and a name other than
    [csv] no Excel engine is called; and the file named [csv] is opened
    as a workbook. *)
Theorem extension_agrees_with_suffix :
  forall (w : Main.env) (file : upload),
    let lowered := Text.lower (name file) in
    let t := trace (Main.extract w file) in
    (Main.extension (name file) = "csv"
     <-> Text.endswith lowered ".csv" = true \/ lowered = "csv")
    /\ (to_spreadsheet (name file) = true ->
        (In EvReadCsv t -> Main.extension (name file) = "csv")
        /\ (Main.extension (name file) = "csv" -> lowered <> "csv" ->
            forall engine, ~ reads_excel_with engine t)
        /\ (lowered = "csv" -> Excel.write_temp (Main.spreadsheet w) = Ok tt ->
            reads_excel_with "openpyxl" t /\ ~ In EvReadCsv t)).
Proof.
  intros w file lowered t. split; [apply extension_csv|].
  intros Hroute. subst t. rewrite (extract_spreadsheet w file Hroute).
  rewrite extract_from_excel_trace, extract_body_trace. fold lowered.
  split; [|split].
  - intros Hin. apply extension_csv. left. fold lowered.
    destruct (Text.endswith lowered ".csv"); [reflexivity|].
    exfalso. cbn [In app] in Hin. destruct Hin as [Hin|Hin]; [discriminate|].
    apply in_app_or in Hin as [Hin|Hin].
    + destruct (Excel.write_temp (Main.spreadsheet w)); [|destruct Hin].
      destruct Hin as [Hin|Hin]; [discriminate|].
      destruct (Excel.read_excel_openpyxl (Main.spreadsheet w)); [destruct Hin|].
      destruct Hin as [Hin|[]]. discriminate.
    + destruct (Excel.temp_exists (Main.spreadsheet w)); [|destruct Hin].
      destruct Hin as [Hin|[]]. discriminate.
  - intros Hext Hname engine Hin. apply extension_csv in Hext.
    destruct Hext as [Hsuf|Heq]; [|contradiction]. fold lowered in Hsuf.
    rewrite Hsuf in Hin. unfold reads_excel_with in Hin.
    cbn [In app] in Hin. destruct Hin as [Hin|Hin]; [discriminate|].
    apply in_app_or in Hin as [Hin|Hin].
    + destruct (Excel.write_temp (Main.spreadsheet w)); [|destruct Hin].
      destruct Hin as [Hin|[]]. discriminate.
    + destruct (Excel.temp_exists (Main.spreadsheet w)); [|destruct Hin].
      destruct Hin as [Hin|[]]. discriminate.
  - intros Heq Hw. rewrite Heq, Hw.
    change (Text.endswith "csv" ".csv") with false. cbn iota.
    split.
    + unfold reads_excel_with. right. left. reflexivity.
    + intros Hin. cbn [In app] in Hin. destruct Hin as [Hin|Hin]; [discriminate|].
      destruct Hin as [Hin|Hin]; [discriminate|].
      apply in_app_or in Hin as [Hin|Hin].
      * destruct (Excel.read_excel_openpyxl (Main.spreadsheet w)); [destruct Hin|].
        destruct Hin as [Hin|[]]. discriminate.
      * destruct (Excel.temp_exists (Main.spreadsheet w)); [|destruct Hin].
        destruct Hin as [Hin|[]]. discriminate.
Qed.

Lemma extension_agrees_with_suffix_witness :
  to_spreadsheet "CSV" = true
  /\ reads_excel_with "openpyxl"
       (trace (Main.extract working_application {| name := "CSV" |}))
  /\ ~ In EvReadCsv (trace (Main.extract working_application {| name := "CSV" |})).
Proof.
  assert (H : to_spreadsheet "CSV" = true) by reflexivity.
  split; [exact H|].
  exact (proj2 (proj2 (proj2 (extension_agrees_with_suffix working_application
                                {| name := "CSV" |}) H))
               eq_refl eq_refl).
Defined.

(** ** Results without documents *)
Section EmptyResults.
Import Text.

Lemma pdf_result_nonempty (w : Pdf.env) (f : upload) (enable_ocr : bool) :
  fst (Pdf.extract_from_pdf w f enable_ocr) <> Ok [].
Proof.
  destruct (Pdf.make_temp w) as [[]|e0] eqn:Hmk;
    [|rewrite (pdf_make_temp_failure_escapes w f enable_ocr e0 Hmk); discriminate].
  rewrite (pdf_extract_named w f enable_ocr Hmk). cbn [fst].
  destruct (pdf_cleanup_total w) as [t ->].
  unfold Pdf.extract_body.
  destruct (Pdf.write_temp w) as [[]|e]; [|cbn; discriminate].
  destruct (text_documents_from_tmp w (Pdf.tmp_path w) enable_ocr)
    as (docs & calls & -> & _).
  destruct (_tables_from_tmp w (Pdf.tmp_path w)) as (tdocs & -> & _).
  cbn [mbind M_bind mret M_ret fst snd try_except try_finally].
  destruct (map (Pdf.with_filename (name f)) (docs ++ tdocs)); cbn; discriminate.
Qed.

Lemma excel_documents_nil (source : string) (sheets : list (string * DataFrame)) :
  Excel.excel_documents source sheets = [] -> sheets = [].
Proof.
  destruct sheets as [|sheet sheets]; [reflexivity|].
  unfold Excel.excel_documents. cbn [map concat].
  unfold Excel.sheet_documents at 1. cbn [app]. discriminate.
Qed.

Lemma excel_result_empty (w : Excel.env) (f : upload) :
  fst (Excel.extract_from_excel w f) = Ok [] ->
  endswith (lower (name f)) ".csv" = false
  /\ (Excel.read_excel_openpyxl w = Ok []
      \/ (exists e, Excel.read_excel_openpyxl w = Raise e)
         /\ Excel.read_excel_xlrd w = Ok []).
Proof.
  unfold Excel.extract_from_excel, Excel.extract_body, try_finally, try_except, call.
  destruct (Excel.write_temp w) as [[]|e0].
  2:{ cbn. destruct (Excel.temp_exists w); cbn;
        [destruct (Excel.remove_temp w) as [[]|e']|]; cbn; discriminate. }
  destruct (endswith (lower (name f)) ".csv").
  - destruct (Excel.read_csv w) as [df|e1]; cbn;
      (destruct (Excel.temp_exists w); cbn;
       [destruct (Excel.remove_temp w) as [[]|e']|]; cbn; discriminate).
  - intros H. split; [reflexivity|].
    destruct (Excel.read_excel_openpyxl w) as [sheets|e1].
    + left. f_equal. apply (excel_documents_nil (name f)).
      cbn in H. destruct (Excel.temp_exists w); cbn in H;
        [destruct (Excel.remove_temp w) as [[]|e']|]; cbn in H; congruence.
    + right. split; [eauto|].
      destruct (Excel.read_excel_xlrd w) as [sheets|e2].
      * f_equal. apply (excel_documents_nil (name f)).
        cbn in H. destruct (Excel.temp_exists w); cbn in H;
          [destruct (Excel.remove_temp w) as [[]|e']|]; cbn in H; congruence.
      * exfalso. cbn in H. destruct (Excel.temp_exists w); cbn in H;
          [destruct (Excel.remove_temp w) as [[]|e']|]; cbn in H; discriminate.
Qed.

End EmptyResults.

(** X17. The extraction step of the application yields an empty list of
    documents, for which it reports that no data was extracted, in one
    case only: the upload went to the spreadsheet extractor, its lowered
    name does not end in [.csv], and the engine that read the workbook
    ([openpyxl], or [xlrd] after [openpyxl] raised) found no sheet. A PDF
    file, a CSV file, a text file and every failure caught by an
    extractor give at least one document. *)
Theorem no_data_only_for_workbook_without_sheets :
  forall (w : Main.env) (file : upload),
    fst (Main.extract w file) = Ok [] ->
    to_spreadsheet (name file) = true
    /\ Text.endswith (Text.lower (name file)) ".csv" = false
    /\ (Excel.read_excel_openpyxl (Main.spreadsheet w) = Ok []
        \/ (exists e, Excel.read_excel_openpyxl (Main.spreadsheet w) = Raise e)
           /\ Excel.read_excel_xlrd (Main.spreadsheet w) = Ok []).
Proof.
  intros w file. unfold Main.extract, to_spreadsheet.
  destruct (String.eqb (Main.extension (name file)) "pdf").
  - intros H. destruct (pdf_result_nonempty (Main.pdf w) file true H).
  - destruct (existsb _ _).
    + intros H. split; [reflexivity|]. apply excel_result_empty, H.
    + destruct (String.eqb _ "txt"); cbn; discriminate.
Qed.

Lemma no_data_only_for_workbook_without_sheets_witness :
  Text.endswith
    (Text.lower (name {| name := "empty.xlsx" |})) ".csv" = false
  /\ to_spreadsheet "empty.xlsx" = true.
Proof.
  pose (w := {| Main.pdf := scanned_pdf;
                Main.spreadsheet :=
                  {| Excel.write_temp := Ok tt;
                     Excel.read_csv := Raise "no columns";
                     Excel.read_excel_openpyxl := Ok [];
                     Excel.read_excel_xlrd := Ok [];
                     Excel.temp_exists := true;
                     Excel.remove_temp := Ok tt |};
                Main.decoded := "" |}).
  assert (H : fst (Main.extract w {| name := "empty.xlsx" |}) = Ok [])
    by (vm_compute; reflexivity).
  destruct (no_data_only_for_workbook_without_sheets w {| name := "empty.xlsx" |} H)
    as (Hroute & Hsuffix & _).
  split; [exact Hsuffix | exact Hroute].
Defined.

(** ** Counting documents by key *)
Section Tally.
Local Open Scope nat_scope.

Lemma key_eqb_class (a b : value) :
  Main.key_eqb a b = true <-> key_class a = key_class b.
Proof.
  destruct a as [s|x|c], b as [t|y|e]; cbn [Main.key_eqb key_class];
    try (split; [discriminate | intros H; discriminate H]).
  - rewrite String.eqb_eq. split; [intros ->; reflexivity | intros [= ->]; reflexivity].
  - rewrite Z.eqb_eq. split; [intros ->; reflexivity | intros [= ->]; reflexivity].
  - rewrite Z.eqb_eq. split; [intros ->; reflexivity | intros [= ->]; reflexivity].
  - rewrite Z.eqb_eq. split; [intros ->; reflexivity | intros [= H]; exact H].
  - destruct c, e; cbn; split; (reflexivity || discriminate || intros [= H]; discriminate H).
Qed.

Lemma key_eqb_trans_cases (k0 k k' : value) :
  Main.key_eqb k0 k = true ->
  Main.key_eqb k0 k' = Main.key_eqb k' k.
Proof.
  intros H. apply key_eqb_class in H.
  destruct (Main.key_eqb k0 k') eqn:H1, (Main.key_eqb k' k) eqn:H2;
    try reflexivity.
  - apply key_eqb_class in H1.
    assert (Hc : Main.key_eqb k' k = true) by (apply key_eqb_class; congruence).
    congruence.
  - apply key_eqb_class in H2.
    assert (Hc : Main.key_eqb k0 k' = true) by (apply key_eqb_class; congruence).
    congruence.
Qed.

Lemma bump_sum (k : value) (counts : list (value * nat)) :
  list_sum (map snd (Main.bump k counts)) = S (list_sum (map snd counts)).
Proof.
  induction counts as [|[k0 n] counts IH]; [reflexivity|].
  cbn [Main.bump]. destruct (Main.key_eqb k0 k); cbn [map snd].
  - rewrite !list_sum_cons. lia.
  - rewrite !list_sum_cons, IH. lia.
Qed.

Lemma bump_positive (k : value) (counts : list (value * nat)) :
  Forall (fun kn : value * nat => 1 <= snd kn) counts ->
  Forall (fun kn : value * nat => 1 <= snd kn) (Main.bump k counts).
Proof.
  intros H. induction H as [|[k0 n] counts Hn Hrest IH].
  - cbn. apply List.Forall_cons; [cbn; lia | apply List.Forall_nil].
  - cbn [Main.bump]. destruct (Main.key_eqb k0 k).
    + apply List.Forall_cons; [cbn in *; lia | exact Hrest].
    + apply List.Forall_cons; [exact Hn | exact IH].
Qed.

Lemma bump_count (k k' : value) (counts : list (value * nat)) :
  count_for k' (Main.bump k counts)
  = count_for k' counts + (if Main.key_eqb k' k then 1 else 0).
Proof.
  induction counts as [|[k0 n] counts IH].
  - cbn [Main.bump count_for].
    replace (Main.key_eqb k k') with (Main.key_eqb k' k); [reflexivity|].
    destruct (Main.key_eqb k' k) eqn:H1, (Main.key_eqb k k') eqn:H2;
      try reflexivity.
    + apply key_eqb_class in H1. symmetry in H1. apply key_eqb_class in H1. congruence.
    + apply key_eqb_class in H2. symmetry in H2. apply key_eqb_class in H2. congruence.
  - cbn [Main.bump]. destruct (Main.key_eqb k0 k) eqn:Hk; cbn [count_for].
    + rewrite <- (key_eqb_trans_cases k0 k k' Hk).
      destruct (Main.key_eqb k0 k'); lia.
    + destruct (Main.key_eqb k0 k') eqn:Hk'; [|exact IH].
      destruct (Main.key_eqb k' k) eqn:H2; [|lia].
      rewrite (key_eqb_trans_cases k0 k' k Hk') in Hk.
      apply key_eqb_class in H2. symmetry in H2. apply key_eqb_class in H2.
      assert (Hrefl : Main.key_eqb k k = true) by (apply key_eqb_class; reflexivity).
      rewrite (key_eqb_trans_cases k k' k) in Hrefl.
      * congruence.
      * apply key_eqb_class. apply key_eqb_class in H2. congruence.
Qed.

Lemma tally_snoc (key : string) (default : value) (docs : list Document) (d : Document) :
  Main.tally key default (docs ++ [d])
  = Main.bump (Main.get key default d) (Main.tally key default docs).
Proof. unfold Main.tally. rewrite fold_left_app. reflexivity. Qed.

End Tally.

(** X18. The count of documents by a metadata key, as the extraction
    summary shows it for [type] and [debug_retrieval] logs it for
    [priority], counts every document once: the counts add up to the
    number of documents, no count is zero, and the count read under a key
    is the number of documents whose value equals the key, a document
    without the key being counted under the default. *)
Theorem tally_counts_every_document :
  forall (key : string) (default : value) (docs : list Document),
    let counts := Main.tally key default docs in
    list_sum (counts_of counts) = length docs
    /\ Forall (fun kn : value * nat => (1 <= snd kn)%nat) counts
    /\ forall k : value,
         count_for k counts = length (filed_under key default k docs).
Proof.
  intros key default docs. cbn zeta.
  induction docs as [|d docs IH] using rev_ind.
  - split; [reflexivity|]. split; [apply List.Forall_nil|]. reflexivity.
  - destruct IH as (Hsum & Hpos & Hcount). rewrite tally_snoc.
    split; [|split].
    + unfold counts_of in *. rewrite bump_sum, Hsum, length_app. cbn. lia.
    + apply bump_positive, Hpos.
    + intros k. rewrite bump_count, Hcount. unfold filed_under.
      rewrite List.filter_app, length_app. cbn [List.filter].
      destruct (Main.key_eqb k (Main.get key default d)); reflexivity.
Qed.

(** ** Runs of the application over the session *)
Section SessionRuns.
Import Session.

Lemma differs_false (a : option string) (b : string) :
  differs a b = false -> a = Some b.
Proof.
  destruct a as [x|]; cbn [differs]; [|discriminate].
  intros H. apply negb_false_iff, String.eqb_eq in H. congruence.
Qed.

Lemma reset_consistent (s : state) : consistent (reset s).
Proof.
  unfold consistent, reset. cbn.
  repeat split; intros; try congruence; try discriminate.
Qed.

Lemma new_file_consistent (file_name hash : string) (s : state) :
  consistent (new_file file_name hash s).
Proof.
  unfold consistent, new_file. cbn.
  repeat split; intros; try congruence; try discriminate.
Qed.

Lemma clear_block_consistent (i : inputs) (s : state) :
  consistent s -> consistent (flow_state (clear_block i s)).
Proof.
  intros Hs. unfold clear_block.
  destruct (clear_pressed i); [|exact Hs].
  destruct (clear_cache i); [apply reset_consistent | exact Hs].
Qed.

Lemma process_consistent (i : inputs) (f : upload) (s : state) :
  consistent s ->
  last_uploaded_filename s <> None ->
  consistent (flow_state (process i f s)).
Proof.
  intros Hs Hname. unfold process.
  destruct (fst (Main.extract (files i) f)) as [[|d docs]|e]; try exact Hs.
  assert (Hdb : forall db, consistent (indexed db s)).
  { intros db. destruct Hs as (_ & _ & H3 & _). unfold consistent, indexed. cbn.
    repeat split; intros; try congruence; try discriminate; try apply H3; auto. }
  destruct (indexing i) as [e|db|[db|e]]; cbn [flow_state];
    first [exact Hs | apply Hdb].
Qed.

Lemma process_block_consistent (i : inputs) (f : upload) (s : state) :
  consistent s ->
  last_uploaded_filename s <> None ->
  consistent (flow_state (process_block i f s)).
Proof.
  intros Hs Hname. unfold process_block.
  destruct (negb (processing_complete s)); [|exact Hs].
  destruct (process_pressed i); [|exact Hs].
  apply process_consistent; assumption.
Qed.

Lemma upload_block_consistent (i : inputs) (s : state) :
  consistent s -> consistent (flow_state (upload_block i s)).
Proof.
  intros Hs. unfold upload_block.
  destruct (file i) as [[f hash]|].
  - destruct (differs (last_uploaded_filename s) (name f)) eqn:Hn; cbn [orb].
    + destruct (reset_cache i).
      * apply process_block_consistent; [apply new_file_consistent|].
        cbn. discriminate.
      * apply new_file_consistent.
    + pose proof (differs_false _ _ Hn) as Hlast.
      destruct (differs (file_hash s) hash).
      * destruct (reset_cache i).
        -- apply process_block_consistent; [apply new_file_consistent|].
           cbn. discriminate.
        -- apply new_file_consistent.
      * apply process_block_consistent; [exact Hs|]. rewrite Hlast. discriminate.
  - cbn [flow_state]. destruct (last_uploaded_filename s); [apply reset_consistent|].
    exact Hs.
Qed.

Lemma append_consistent (m : message) (s : state) :
  consistent s -> vector_db s <> None -> consistent (append m s).
Proof.
  intros (H1 & H2 & H3 & H4) Hdb. unfold consistent, append. cbn.
  split; [exact H1|]. split; [intros H; contradiction|]. split; assumption.
Qed.

Lemma chat_block_consistent (i : inputs) (selected_model : option string) (s : state) :
  consistent s -> consistent (fst (chat_block i selected_model s)).
Proof.
  intros Hs. unfold chat_block.
  destruct (vector_db s) as [db|] eqn:Hdb; [|exact Hs].
  destruct (truthy_db i db); [|exact Hs].
  destruct (user_q i) as [q|]; [|exact Hs].
  destruct (Text.truthy q); [|exact Hs].
  assert (H1 : consistent (append {| role := "user"; content := q |} s)).
  { apply append_consistent; [exact Hs|]. rewrite Hdb. discriminate. }
  destruct (fst (answer_to i selected_model db q)) as [answer|]; [|exact H1].
  destruct (Text.truthy answer); [|exact H1].
  apply append_consistent; [exact H1|]. cbn. rewrite Hdb. discriminate.
Qed.

Lemma main_state (i : inputs) (s : state) :
  fst (main i s)
  = match clear_block i s with
    | Halt s' _ => s'
    | Continue s1 _ =>
        match upload_block i s1 with
        | Halt s' _ => s'
        | Continue s2 _ =>
            fst (chat_block i
                   (match fst (models_of i) with
                    | [] => None
                    | _ => Some (selection i)
                    end) s2)
        end
    end.
Proof.
  unfold main. destruct (clear_block i s); [|reflexivity].
  destruct (upload_block i s0); reflexivity.
Qed.

Lemma main_consistent (i : inputs) (s : state) :
  consistent s -> consistent (fst (main i s)).
Proof.
  intros Hs. rewrite main_state.
  pose proof (clear_block_consistent i s Hs) as H1.
  destruct (clear_block i s) as [s1 t1|s1 t1]; cbn [flow_state] in H1; [|exact H1].
  pose proof (upload_block_consistent i s1 H1) as H2.
  destruct (upload_block i s1) as [s2 t2|s2 t2]; cbn [flow_state] in H2; [|exact H2].
  apply chat_block_consistent, H2.
Qed.

End SessionRuns.

(** X19. The keys of the session stay consistent from run to run,
    whatever the widgets and the libraries answer: [processing_complete]
    is true exactly when the session holds a vector store, the chat
    history is empty when there is no vector store, the name and the hash
    of the upload are set or unset together, and a vector store is only
    held together with the name of its file. This holds in the first
    state and is kept by every run. *)
Theorem session_stays_consistent :
  (forall (i : Session.inputs) (s : Session.state),
      consistent s -> consistent (fst (Session.main i s)))
  /\ (forall s : Session.state, reachable s -> consistent s).
Proof.
  split; [exact main_consistent|].
  intros s Hs. induction Hs as [|i s _ IH].
  - unfold consistent, Session.initial. cbn.
    repeat split; intros; try congruence; try discriminate.
  - apply main_consistent, IH.
Qed.

Lemma session_stays_consistent_witness :
  reachable (fst (Session.main processing_run Session.initial))
  /\ Session.vector_db (fst (Session.main processing_run Session.initial))
     = Some (Pipeline.mkChroma "financial_rag")
  /\ consistent (fst (Session.main processing_run Session.initial)).
Proof.
  assert (H : reachable (fst (Session.main processing_run Session.initial))).
  { apply reachable_run, reachable_initial. }
  split; [exact H|]. split; [vm_compute; reflexivity|].
  exact (proj2 session_stays_consistent _ H).
Defined.

(** ** The chat history and the calls of a run *)
Section SessionHistory.
Import Session.

Lemma rag_answer_cases (w : Pipeline.env) (q model : string) (db : Pipeline.Chroma)
      (a : string) :
  fst (Pipeline.process_question_with_rag w q (Some db) model) = Ok a ->
  Pipeline.invoke_chain w = Ok a \/ exists e, a = rephrase_message e.
Proof.
  unfold Pipeline.process_question_with_rag, try_except, call, rephrase_message.
  destruct (Pipeline.chat_model w) as [[]|e1]; [|cbn; intros [= <-]; eauto].
  destruct (Pipeline.as_retriever w) as [[]|e2]; [|cbn; intros [= <-]; eauto].
  destruct (Pipeline.invoke_chain w) as [r|e3]; cbn; intros [= <-]; eauto.
Qed.

Lemma answer_to_cases (i : inputs) (selected_model : option string)
      (db : Pipeline.Chroma) (q a : string) :
  fst (answer_to i selected_model db q) = Some a ->
  Pipeline.invoke_chain (server i) = Ok a \/ exists e, a = rephrase_message e.
Proof.
  unfold answer_to. destruct (negb (truthy_db i db)); [discriminate|].
  destruct selected_model as [model|]; [|discriminate].
  destruct (negb (Text.truthy model)); [discriminate|].
  destruct (fst (Pipeline.process_question_with_rag (server i) q (Some db) model))
    as [answer|e] eqn:Hr; cbn [fst]; [|discriminate].
  intros [= <-]. eapply rag_answer_cases, Hr.
Qed.

Lemma answer_to_asks (i : inputs) (selected_model : option string)
      (db : Pipeline.Chroma) (q : string) (ev : event) :
  In ev (snd (answer_to i selected_model db q)) ->
  truthy_db i db = true
  /\ exists model, selected_model = Some model /\ Text.truthy model = true.
Proof.
  unfold answer_to. destruct (truthy_db i db); cbn [negb]; [|intros []].
  destruct selected_model as [model|]; [|intros []].
  destruct (Text.truthy model) eqn:Hmodel; cbn [negb]; [|intros []].
  intros _. split; [reflexivity|]. exists model. split; [reflexivity | exact Hmodel].
Qed.

Lemma answer_to_without_model (i : inputs) (db : Pipeline.Chroma) (q : string) :
  answer_to i None db q = (None, []).
Proof. unfold answer_to. destruct (negb (truthy_db i db)); reflexivity. Qed.

Lemma chat_block_idle (i : inputs) (selected_model : option string) (s : state) :
  vector_db s = None -> chat_block i selected_model s = (s, []).
Proof. intros H. unfold chat_block. rewrite H. reflexivity. Qed.

Lemma chat_block_messages (i : inputs) (selected_model : option string) (s : state) :
  let s' := fst (chat_block i selected_model s) in
  messages s' = messages s
  \/ exists q,
      user_q i = Some q /\ Text.truthy q = true
      /\ (messages s' = messages s ++ [user_message q]
          \/ exists a,
              Text.truthy a = true
              /\ messages s' = messages s ++ [user_message q; assistant_message a]
              /\ selected_model <> None
              /\ (Pipeline.invoke_chain (server i) = Ok a
                  \/ exists e, a = rephrase_message e)).
Proof.
  cbn zeta. unfold chat_block.
  destruct (vector_db s) as [db|]; [|left; reflexivity].
  destruct (truthy_db i db); [|left; reflexivity].
  destruct (user_q i) as [q|]; [|left; reflexivity].
  destruct (Text.truthy q) eqn:Hq; [|left; reflexivity].
  right. exists q. split; [reflexivity|]. split; [exact Hq|].
  destruct (fst (answer_to i selected_model db q)) as [a|] eqn:Ha;
    [|left; reflexivity].
  destruct (Text.truthy a) eqn:Hta; [|left; reflexivity].
  right. exists a. split; [exact Hta|]. split.
  - cbn. rewrite <- List.app_assoc. reflexivity.
  - split; [|eapply answer_to_cases, Ha].
    intros ->. rewrite answer_to_without_model in Ha. discriminate Ha.
Qed.

(** The calls of the chat are calls for an answer. *)
Lemma chat_block_events (i : inputs) (selected_model : option string) (s : state)
      (ev : event) :
  In ev (snd (chat_block i selected_model s)) -> asks_chat ev = true.
Proof.
  unfold chat_block.
  destruct (vector_db s) as [db|]; [|intros []].
  destruct (truthy_db i db); [|intros []].
  destruct (user_q i) as [q|]; [|intros []].
  destruct (Text.truthy q); [|intros []].
  intros Hin.
  assert (Hev : In ev (snd (answer_to i selected_model db q))).
  { destruct (fst (answer_to i selected_model db q)) as [a|];
      [destruct (Text.truthy a)|]; exact Hin. }
  clear Hin. unfold answer_to in Hev.
  destruct (negb (truthy_db i db)); [destruct Hev|].
  destruct selected_model as [model|]; [|destruct Hev].
  destruct (negb (Text.truthy model)); [destruct Hev|].
  assert (Hall : Forall (fun ev0 => asks_chat ev0 = true)
                        (snd (Pipeline.process_question_with_rag
                                (server i) q (Some db) model))).
  { unfold Pipeline.process_question_with_rag, try_except, call.
    destruct (Pipeline.chat_model (server i)) as [[]|e1];
      [|cbn; repeat constructor].
    destruct (Pipeline.as_retriever (server i)) as [[]|e2];
      [|cbn; repeat constructor].
    destruct (Pipeline.invoke_chain (server i)) as [a|e3]; cbn; repeat constructor. }
  rewrite Forall_forall in Hall. apply Hall, list_elem_of_In.
  destruct (fst (Pipeline.process_question_with_rag (server i) q (Some db) model));
    exact Hev.
Qed.

Lemma chat_block_asks (i : inputs) (selected_model : option string) (s : state)
      (ev : event) :
  In ev (snd (chat_block i selected_model s)) ->
  (exists model, selected_model = Some model /\ Text.truthy model = true)
  /\ (exists q, user_q i = Some q /\ Text.truthy q = true
                /\ In (user_message q)
                      (messages (fst (chat_block i selected_model s))))
  /\ exists db, vector_db (fst (chat_block i selected_model s)) = Some db
                /\ truthy_db i db = true.
Proof.
  unfold chat_block.
  destruct (vector_db s) as [db|] eqn:Hdb; [|intros []].
  destruct (truthy_db i db) eqn:Hdbt; [|intros []].
  destruct (user_q i) as [q|]; [|intros []].
  destruct (Text.truthy q) eqn:Hq; [|intros []].
  intros Hin.
  assert (Hev : In ev (snd (answer_to i selected_model db q))).
  { destruct (fst (answer_to i selected_model db q)) as [a|];
      [destruct (Text.truthy a)|]; exact Hin. }
  destruct (answer_to_asks i selected_model db q ev Hev) as [_ Hmodel].
  split; [exact Hmodel|].
  destruct (fst (answer_to i selected_model db q)) as [a|];
    [destruct (Text.truthy a)|]; cbn [fst append messages vector_db].
  - split; [|exists db; split; [exact Hdb | exact Hdbt]].
    exists q. split; [reflexivity|]. split; [exact Hq|].
    apply in_or_app. left. apply in_or_app. right. left. reflexivity.
  - split; [|exists db; split; [exact Hdb | exact Hdbt]].
    exists q. split; [reflexivity|]. split; [exact Hq|].
    apply in_or_app. right. left. reflexivity.
  - split; [|exists db; split; [exact Hdb | exact Hdbt]].
    exists q. split; [reflexivity|]. split; [exact Hq|].
    apply in_or_app. right. left. reflexivity.
Qed.

Lemma clear_block_cases (i : inputs) (s : state) :
  clear_block i s = if cleared i then Halt (reset s) [] else Continue s [].
Proof.
  unfold clear_block, cleared. destruct (clear_pressed i); [|reflexivity].
  destruct (clear_cache i); reflexivity.
Qed.

(** The handler of the processing button leaves the history alone, and
    when the run goes on after it the session is as before. *)
Lemma process_block_flow (i : inputs) (f : upload) (s : state) :
  match process_block i f s with
  | Continue s' _ => s' = s
  | Halt s' _ => messages s' = messages s
  end
  /\ (flow_trace (process_block i f s) = []
      \/ flow_trace (process_block i f s) = snd (Main.extract (files i) f)
      \/ (flow_trace (process_block i f s)
          = snd (Main.extract (files i) f) ++ [EvCreateVectorDb]
          /\ process_pressed i = true
          /\ processing_complete s = false
          /\ (exists d docs, fst (Main.extract (files i) f) = Ok (d :: docs))
          /\ exists r, indexing i = Created r)).
Proof.
  unfold process_block, process.
  destruct (processing_complete s); cbn [negb];
    [split; [reflexivity | left; reflexivity]|].
  destruct (process_pressed i); [|split; [reflexivity | left; reflexivity]].
  destruct (fst (Main.extract (files i) f)) as [[|d docs]|e];
    try (split; [reflexivity | right; left; reflexivity]).
  destruct (indexing i) as [e|db|[db|e]]; cbn [flow_trace];
    try (split; [reflexivity | right; left; reflexivity]);
    (split; [reflexivity|]); right; right;
    (split; [reflexivity|]); (split; [reflexivity|]); (split; [reflexivity|]);
    split; eauto.
Qed.

Lemma upload_block_same (i : inputs) (s : state) :
  same_file i s = true ->
  exists f hash, file i = Some (f, hash) /\ upload_block i s = process_block i f s.
Proof.
  unfold same_file, upload_block. destruct (file i) as [[f hash]|]; [|discriminate].
  intros H. apply negb_true_iff in H. rewrite H. eauto.
Qed.

Lemma upload_block_other (i : inputs) (s : state) :
  consistent s ->
  same_file i s = false ->
  match upload_block i s with
  | Continue s' _ => vector_db s' = None /\ messages s' = []
  | Halt s' _ => messages s' = []
  end.
Proof.
  intros (_ & H2 & _ & H4) Hsame. unfold same_file, upload_block in *.
  destruct (file i) as [[f hash]|].
  - apply negb_false_iff in Hsame. rewrite Hsame.
    destruct (reset_cache i); [|reflexivity].
    destruct (process_block_flow i f (new_file (name f) hash s)) as [H _].
    destruct (process_block i f (new_file (name f) hash s)) as [s' t|s' t].
    + subst s'. split; reflexivity.
    + rewrite H. reflexivity.
  - destruct (last_uploaded_filename s) eqn:Hlast; [split; reflexivity|].
    destruct (vector_db s) eqn:Hdb.
    + exfalso. apply H4; [discriminate | reflexivity].
    + split; [reflexivity | apply H2; reflexivity].
Qed.

Lemma upload_block_trace (i : inputs) (s : state) :
  flow_trace (upload_block i s) = []
  \/ exists f hash,
      file i = Some (f, hash)
      /\ (flow_trace (upload_block i s) = snd (Main.extract (files i) f)
          \/ (flow_trace (upload_block i s)
              = snd (Main.extract (files i) f) ++ [EvCreateVectorDb]
              /\ process_pressed i = true
              /\ (exists d docs, fst (Main.extract (files i) f) = Ok (d :: docs))
              /\ exists r, indexing i = Created r)).
Proof.
  unfold upload_block. destruct (file i) as [[f hash]|]; [|left; reflexivity].
  destruct (_ || _)%bool.
  - destruct (reset_cache i); [|left; reflexivity].
    destruct (process_block_flow i f (new_file (name f) hash s))
      as [_ [H|[H|(H & Hp & _ & Hd & Hr)]]]; [left; exact H | |];
      right; exists f, hash; (split; [reflexivity|]); [left; exact H|].
    right. split; [exact H|]. split; [exact Hp|]. split; assumption.
  - destruct (process_block_flow i f s)
      as [_ [H|[H|(H & Hp & _ & Hd & Hr)]]]; [left; exact H | |];
      right; exists f, hash; (split; [reflexivity|]); [left; exact H|].
    right. split; [exact H|]. split; [exact Hp|]. split; assumption.
Qed.

Lemma upload_block_history (i : inputs) (s : state) :
  messages (flow_state (upload_block i s)) = messages s
  \/ messages (flow_state (upload_block i s)) = [].
Proof.
  unfold upload_block. destruct (file i) as [[f hash]|].
  - destruct (_ || _)%bool.
    + right. destruct (reset_cache i); [|reflexivity].
      destruct (process_block_flow i f (new_file (name f) hash s)) as [H _].
      destruct (process_block i f (new_file (name f) hash s)) as [s' t|s' t];
        cbn [flow_state]; [subst s'; reflexivity | rewrite H; reflexivity].
    + left. destruct (process_block_flow i f s) as [H _].
      destruct (process_block i f s) as [s' t|s' t];
        cbn [flow_state]; [subst s'; reflexivity | exact H].
  - cbn [flow_state]. destruct (last_uploaded_filename s);
      [right | left]; reflexivity.
Qed.

(** The extractors never call the model server. *)
Lemma pdf_trace_files (w : Pdf.env) (f : upload) (enable_ocr : bool) :
  Forall (fun ev => asks_model ev = false) (snd (Pdf.extract_from_pdf w f enable_ocr)).
Proof.
  destruct (Pdf.make_temp w) as [[]|e0] eqn:Hmk;
    [|rewrite (pdf_make_temp_failure_escapes w f enable_ocr e0 Hmk);
      repeat constructor].
  rewrite (pdf_extract_named w f enable_ocr Hmk). cbn [snd].
  apply List.Forall_cons; [reflexivity|].
  unfold Pdf.extract_body.
  assert (Hclean : snd (try_except (call EvRemoveTemp (Pdf.remove_temp w))
                                    (fun _ => mret tt)) = [EvRemoveTemp]
                   /\ exists u, fst (try_except (call EvRemoveTemp (Pdf.remove_temp w))
                                                (fun _ => mret tt)) = Ok u).
  { destruct (Pdf.remove_temp w) as [[]|e]; split; try reflexivity; eexists;
      reflexivity. }
  destruct Hclean as [Hsnd [u Hfst]].
  destruct (try_except (call EvRemoveTemp _) _) as [c tc]. cbn [fst snd] in *.
  subst c tc.
  destruct (Pdf.write_temp w) as [[]|e];
    [|cbn; repeat (apply List.Forall_cons; [reflexivity|]); apply List.Forall_nil].
  rewrite (text_documents_choice w (Pdf.tmp_path w) enable_ocr). cbn zeta.
  destruct (_tables_from_tmp w (Pdf.tmp_path w)) as (tdocs & -> & _).
  unfold call.
  repeat match goal with
         | |- context [if ?b then _ else _] => destruct b
         end;
    cbn [mbind M_bind mret M_ret fst snd try_except try_finally app];
    repeat (apply List.Forall_cons; [reflexivity|]); apply List.Forall_nil.
Qed.

Lemma extract_trace_files (w : Main.env) (f : upload) :
  Forall (fun ev => asks_model ev = false) (snd (Main.extract w f)).
Proof.
  unfold Main.extract.
  destruct (String.eqb _ "pdf"); [apply pdf_trace_files|].
  destruct (existsb _ _).
  - change (snd (Excel.extract_from_excel (Main.spreadsheet w) f))
      with (trace (Excel.extract_from_excel (Main.spreadsheet w) f)).
    rewrite extract_from_excel_trace, extract_body_trace.
    destruct (Excel.write_temp (Main.spreadsheet w));
      [destruct (Text.endswith _ _);
       [|destruct (Excel.read_excel_openpyxl (Main.spreadsheet w))]|];
      destruct (Excel.temp_exists (Main.spreadsheet w)); cbn [app];
      repeat (apply List.Forall_cons; [reflexivity|]); apply List.Forall_nil.
  - destruct (String.eqb _ "txt"); apply List.Forall_nil.
Qed.

Lemma main_trace (i : inputs) (s : state) :
  snd (main i s)
  = snd (models_of i)
      ++ match clear_block i s with
         | Halt _ t => t
         | Continue s1 t1 =>
             match upload_block i s1 with
             | Halt _ t2 => t1 ++ t2
             | Continue s2 t2 =>
                 t1 ++ t2
                    ++ snd (chat_block i
                              (match fst (models_of i) with
                               | [] => None
                               | _ => Some (selection i)
                               end) s2)
             end
         end.
Proof.
  unfold main. destruct (clear_block i s); [|reflexivity].
  destruct (upload_block i s0); reflexivity.
Qed.

End SessionHistory.

(** X20. The chat history belongs to one upload. A run in which the
    vector store is cleared, the upload is gone, or the upload differs in
    name or hash from the one the session knows, ends with an empty
    history. In every other run the history is only extended at its end:
    by nothing, by the question of the user, or by the question and a
    non-empty answer, which is the text of the chain or the message that
    wraps a failure. *)
Theorem history_belongs_to_one_upload :
  forall (i : Session.inputs) (s : Session.state),
    consistent s ->
    let s' := fst (Session.main i s) in
    (cleared i = true \/ same_file i s = false -> Session.messages s' = [])
    /\ (cleared i = false -> same_file i s = true ->
        Session.messages s' = Session.messages s
        \/ exists q,
            Session.user_q i = Some q /\ Text.truthy q = true
            /\ (Session.messages s' = Session.messages s ++ [user_message q]
                \/ exists a,
                    Text.truthy a = true
                    /\ Session.messages s'
                       = Session.messages s ++ [user_message q; assistant_message a]
                    /\ (Pipeline.invoke_chain (Session.server i) = Ok a
                        \/ exists e, a = rephrase_message e))).
Proof.
  intros i s Hs s'. subst s'. rewrite main_state, clear_block_cases.
  split.
  - intros H. destruct (cleared i); [reflexivity|].
    destruct H as [H|H]; [discriminate|].
    pose proof (upload_block_other i s Hs H) as Hu.
    destruct (Session.upload_block i s) as [s2 t2|s2 t2]; [|exact Hu].
    destruct Hu as [Hdb Hm]. rewrite chat_block_idle by exact Hdb. exact Hm.
  - intros -> Hsame.
    destruct (upload_block_same i s Hsame) as (f & hash & _ & ->).
    destruct (process_block_flow i f s) as [Hp _].
    destruct (Session.process_block i f s) as [s2 t2|s2 t2]; [|left; exact Hp].
    subst s2.
    destruct (chat_block_messages i
                (match fst (Session.models_of i) with
                 | [] => None
                 | _ => Some (Session.selection i)
                 end) s) as [H|(q & Hq & Htq & H)]; [left; exact H|].
    right. exists q. split; [exact Hq|]. split; [exact Htq|].
    destruct H as [H|(a & Ha & Hm & _ & Hcases)]; [left; exact H|].
    right. exists a. split; [exact Ha|]. split; [exact Hm | exact Hcases].
Qed.

Lemma history_belongs_to_one_upload_witness :
  consistent ready_session
  /\ Session.messages (fst (Session.main processing_run ready_session))
     = [user_message "What is the total?";
        assistant_message "Total revenue is 1,200."]
  /\ (cleared processing_run = true \/ same_file processing_run Session.initial = false)
  /\ Session.messages (fst (Session.main processing_run Session.initial)) = [].
Proof.
  assert (H0 : consistent Session.initial).
  { unfold consistent. cbn. repeat split; intros; congruence. }
  assert (H1 : consistent ready_session).
  { unfold consistent. cbn. repeat split; intros; congruence. }
  assert (H2 : cleared processing_run = true
               \/ same_file processing_run Session.initial = false)
    by (right; reflexivity).
  split; [exact H1|]. split; [vm_compute; reflexivity|]. split; [exact H2|].
  exact (proj1 (history_belongs_to_one_upload processing_run Session.initial H0) H2).
Defined.

(** X21. A run reaches the model server in three places only.
    [ollama.list()] is called when the list of the models is not cached.
    [create_vector_db], which embeds the chunks, is called only when the
    processing button was pressed for an upload whose extraction gave at
    least one document, the store not being cached. The chat model, the
    retriever and the chain are called only to answer a question: when a
    model is listed and the selected one is not the empty text, the user
    has put a non-empty question, which the history then holds, and the
    session holds a vector store that is true. The extractors never call
    the model server. When no model is listed no answer is stored,
    although the question is; and [get_ollama_models] lists none whenever
    [ollama.list()] raises, has no [models], or one entry has no [model]:
    its list is all of the names or empty. *)
Theorem model_server_is_reached_in_three_places :
  forall (i : Session.inputs) (s : Session.state),
    let r := Session.main i s in
    let models := fst (Session.models_of i) in
    (forall ev, In ev (snd r) -> asks_model ev = true ->
        (ev = EvListModels /\ Session.cached_models i = None)
        \/ (ev = EvCreateVectorDb
            /\ Session.process_pressed i = true
            /\ cleared i = false
            /\ exists f hash r0,
                Session.file i = Some (f, hash)
                /\ Session.indexing i = Session.Created r0
                /\ exists d docs,
                    fst (Main.extract (Session.files i) f) = Ok (d :: docs))
        \/ (asks_chat ev = true
            /\ models <> [] /\ Text.truthy (Session.selection i) = true
            /\ (exists q, Session.user_q i = Some q /\ Text.truthy q = true
                          /\ In (user_message q) (Session.messages (fst r)))
            /\ exists db, Session.vector_db (fst r) = Some db
                          /\ Session.truthy_db i db = true))
    /\ (models = [] ->
        forall m, In m (Session.messages (fst r)) ->
                  Session.role m = "assistant" -> In m (Session.messages s))
    /\ (forall listing,
          Session.get_ollama_models listing = []
          \/ exists entries,
              listing = Ok (Some entries)
              /\ Forall2 (fun (e : gmap string string) n => e !! "model" = Some n)
                         entries (Session.get_ollama_models listing)).
Proof.
  intros i s r models. subst r. split; [|split].
  - intros ev Hin Hev. rewrite main_trace in Hin. rewrite main_state.
    apply in_app_or in Hin as [Hin|Hin].
    { left. unfold Session.models_of in Hin.
      destruct (Session.cached_models i) as [ms|]; [destruct Hin|].
      destruct Hin as [<-|[]]. split; reflexivity. }
    right. rewrite clear_block_cases in *.
    destruct (cleared i) eqn:Hcl; [destruct Hin|].
    pose proof (upload_block_trace i s) as Ht.
    assert (Hfiles : forall f, In ev (snd (Main.extract (Session.files i) f)) -> False).
    { intros f Hf. pose proof (extract_trace_files (Session.files i) f) as Hall.
      rewrite Forall_forall in Hall. apply list_elem_of_In in Hf.
      rewrite (Hall _ Hf) in Hev. discriminate. }
    assert (Hup : forall t2, flow_trace (Session.upload_block i s) = t2 ->
                             In ev t2 ->
                             ev = EvCreateVectorDb
                             /\ Session.process_pressed i = true
                             /\ false = false
                             /\ exists f hash r0,
                                 Session.file i = Some (f, hash)
                                 /\ Session.indexing i = Session.Created r0
                                 /\ exists d docs,
                                     fst (Main.extract (Session.files i) f)
                                     = Ok (d :: docs)).
    { intros t2 Ht2 Hin2. rewrite Ht2 in Ht.
      destruct Ht as [->|(f & hash & Hfile & [->|(-> & Hp & Hd & r0 & Hr)])].
      - destruct Hin2.
      - destruct (Hfiles f Hin2).
      - apply in_app_or in Hin2 as [Hin2|[<-|[]]]; [destruct (Hfiles f Hin2)|].
        split; [reflexivity|]. split; [exact Hp|]. split; [reflexivity|].
        exists f, hash, r0. split; [exact Hfile|]. split; [exact Hr | exact Hd]. }
    destruct (Session.upload_block i s) as [s2 t2|s2 t2]; cbn [flow_trace app] in *.
    + apply in_app_or in Hin as [Hin|Hin]; [left; apply (Hup t2 eq_refl Hin)|].
      right.
      destruct (chat_block_asks i _ s2 ev Hin) as ((model & Hsel & Hmodel) & Hq & Hdb).
      split; [apply (chat_block_events i _ s2 ev Hin)|].
      subst models. revert Hsel Hq Hdb.
      destruct (fst (Session.models_of i)) as [|n ns];
        intros Hsel Hq Hdb; [discriminate|].
      injection Hsel as <-.
      split; [discriminate|]. split; [exact Hmodel|]. split; assumption.
    + left. apply (Hup t2 eq_refl Hin).
  - intros Hnone m Hin Hrole. rewrite main_state in Hin.
    fold models in Hin. rewrite Hnone in Hin. rewrite clear_block_cases in Hin.
    destruct (cleared i); [destruct Hin|].
    pose proof (upload_block_history i s) as Hu.
    assert (Hflow : forall s2, Session.messages s2 = Session.messages s
                               \/ Session.messages s2 = [] ->
                               In m (Session.messages s2) -> In m (Session.messages s)).
    { intros s2 [->| ->]; [auto | intros []]. }
    destruct (Session.upload_block i s) as [s2 t2|s2 t2]; cbn [flow_state] in Hu;
      [|exact (Hflow s2 Hu Hin)].
    apply (Hflow s2 Hu).
    destruct (chat_block_messages i None s2) as [H|(q & _ & _ & [H|H])].
    + rewrite H in Hin. exact Hin.
    + rewrite H in Hin. apply in_app_or in Hin as [Hin|[<-|[]]]; [exact Hin|].
      discriminate Hrole.
    + destruct H as (a & _ & _ & Hsel & _). contradiction.
  - intros listing. unfold Session.get_ollama_models.
    destruct listing as [[entries|]|e]; [|left; reflexivity..].
    destruct (mapM _ entries) as [names|] eqn:Hm; [|left; reflexivity].
    right. exists entries. split; [reflexivity|].
    apply mapM_Some in Hm. exact Hm.
Qed.

Lemma model_server_is_reached_in_three_places_witness :
  In (EvInvokeChain "What is the total?")
     (snd (Session.main processing_run ready_session))
  /\ In EvCreateVectorDb (snd (Session.main processing_run Session.initial))
  /\ fst (Session.models_of processing_run) <> []
  /\ Session.process_pressed processing_run = true.
Proof.
  assert (H : In (EvInvokeChain "What is the total?")
                 (snd (Session.main processing_run ready_session))).
  { vm_compute. right. right. right. left. reflexivity. }
  assert (H' : In EvCreateVectorDb
                  (snd (Session.main processing_run Session.initial))).
  { vm_compute. right. right. right. right. right. left. reflexivity. }
  split; [exact H|]. split; [exact H'|].
  destruct (proj1 (model_server_is_reached_in_three_places processing_run ready_session)
                  _ H eq_refl) as [[Hev _]|[[Hev _]|(_ & Hm & _)]];
    [discriminate Hev | discriminate Hev |].
  split; [exact Hm|].
  destruct (proj1 (model_server_is_reached_in_three_places processing_run
                     Session.initial) _ H' eq_refl)
    as [[Hev _]|[(_ & Hp & _)|(Hev & _)]];
    [discriminate Hev | exact Hp | discriminate Hev].
Defined.

(** ** The categorical summary *)
Section CategoricalSummary.
Import Text Renderer.
Local Open Scope nat_scope.

Lemma insert_desc_perm (x : string * nat) (l : list (string * nat)) :
  Permutation (Frame.insert_desc x l) (x :: l).
Proof.
  induction l as [|y l IH]; [reflexivity|].
  cbn [Frame.insert_desc]. destruct (Nat.ltb (snd y) (snd x)); [reflexivity|].
  rewrite IH. apply perm_swap.
Qed.

Lemma fold_insert_desc_perm (xs acc : list (string * nat)) :
  Permutation (fold_left (fun a x => Frame.insert_desc x a) xs acc) (xs ++ acc).
Proof.
  revert acc. induction xs as [|x xs IH]; intros acc; [reflexivity|].
  cbn [fold_left app]. rewrite IH, insert_desc_perm.
  symmetry. apply Permutation_middle.
Qed.

Lemma insert_desc_hd (a x : string * nat) (l : list (string * nat)) :
  count_ge a x -> HdRel count_ge a l -> HdRel count_ge a (Frame.insert_desc x l).
Proof.
  intros Hx Hl. destruct l as [|y l]; cbn [Frame.insert_desc].
  - constructor. exact Hx.
  - destruct (Nat.ltb (snd y) (snd x)); constructor; [exact Hx|].
    inversion Hl. assumption.
Qed.

Lemma insert_desc_sorted (x : string * nat) (l : list (string * nat)) :
  Sorted count_ge l -> Sorted count_ge (Frame.insert_desc x l).
Proof.
  induction 1 as [|y l Hs IH Hhd]; cbn [Frame.insert_desc].
  - repeat constructor.
  - destruct (Nat.ltb (snd y) (snd x)) eqn:Hlt.
    + apply Nat.ltb_lt in Hlt. constructor; [constructor; assumption|].
      constructor. unfold count_ge. lia.
    + apply Nat.ltb_ge in Hlt. constructor; [exact IH|].
      apply insert_desc_hd; [exact Hlt | exact Hhd].
Qed.

Lemma fold_insert_desc_sorted (xs acc : list (string * nat)) :
  Sorted count_ge acc ->
  Sorted count_ge (fold_left (fun a x => Frame.insert_desc x a) xs acc).
Proof.
  revert acc. induction xs as [|x xs IH]; intros acc Hacc; [exact Hacc|].
  cbn [fold_left]. apply IH, insert_desc_sorted, Hacc.
Qed.

Lemma value_counts_perm (s : list cell) :
  Permutation (Frame.value_counts s) (counted s).
Proof.
  unfold Frame.value_counts, counted.
  rewrite fold_insert_desc_perm, List.app_nil_r. reflexivity.
Qed.

Lemma list_sum_perm (l l' : list nat) :
  Permutation l l' -> list_sum l = list_sum l'.
Proof. induction 1; rewrite ?list_sum_cons; cbn [list_sum fold_right]; lia. Qed.

Lemma lookup_map {A B : Type} (f : A -> B) (l : list A) (k : nat) (a : A) :
  l !! k = Some a -> map f l !! k = Some (f a).
Proof.
  revert k. induction l as [|x l IH]; intros [|k] H; try discriminate.
  - injection H as ->. reflexivity.
  - cbn in *. apply IH, H.
Qed.

Lemma counted_positive (s : list cell) :
  Forall (fun vn : string * nat => 1 <= snd vn) (counted s).
Proof.
  unfold counted. apply Forall_map. apply Forall_forall. intros v Hv.
  apply list_elem_of_In in Hv. cbn [snd].
  apply occurrences_present, distinct_In, Hv.
Qed.

End CategoricalSummary.

(** X22. The counts of the categorical summary are those of the column:
    [value_counts] holds every distinct value once, with the number of
    its occurrences, the larger counts first; the counts are at least 1
    and add up to the number of cells that are not missing. The summary
    of a column has its heading, with the number of distinct values, and
    one line for each of the first ten of these counts. *)
Theorem categorical_summary_counts :
  forall (col : string) (s : list cell),
    let vc := Frame.value_counts s in
    let lines := Renderer.categorical_lines col s in
    Permutation vc (counted s)
    /\ Sorted count_ge vc
    /\ Forall (fun vn : string * nat => (1 <= snd vn)%nat) vc
    /\ list_sum (map snd vc) = length (Frame.texts s)
    /\ length lines = (1 + Nat.min 10 (Frame.nunique s))%nat
    /\ lines !! 0%nat
       = Some (col +:+ ": " +:+ Text.str_nat (Frame.nunique s) +:+ " unique values")
    /\ forall (k : nat) (vn : string * nat),
         (k < 10)%nat ->
         vc !! k = Some vn ->
         lines !! S k
         = Some ("  " +:+ fst vn +:+ ": " +:+ Text.str_nat (snd vn) +:+ " occurrences").
Proof.
  intros col s vc lines.
  pose proof (value_counts_perm s) as Hperm. fold vc in Hperm.
  split; [exact Hperm|]. split; [|split; [|split; [|split; [|split]]]].
  - subst vc. unfold Frame.value_counts. apply fold_insert_desc_sorted. constructor.
  - eapply Permutation_Forall; [symmetry; exact Hperm | apply counted_positive].
  - rewrite (list_sum_perm _ _ (Permutation_map snd Hperm)).
    unfold counted. rewrite map_map. cbn [snd]. apply occurrences_total.
  - subst lines. unfold Renderer.categorical_lines. cbn [length].
    rewrite length_map, length_take. fold vc.
    rewrite (Permutation_length Hperm). unfold counted, Frame.nunique.
    rewrite length_map. reflexivity.
  - reflexivity.
  - intros k vn Hk Hvn. subst lines. unfold Renderer.categorical_lines.
    cbn [lookup list_lookup]. fold vc.
    apply (lookup_map (fun vc0 : string * nat =>
                         "  " +:+ fst vc0 +:+ ": " +:+ Text.str_nat (snd vc0)
                              +:+ " occurrences")).
    rewrite (lookup_take_lt _ _ _ Hk). exact Hvn.
Qed.

Lemma categorical_summary_counts_witness :
  Frame.value_counts (Frame.series sales_table 0) !! 0%nat = Some ("East", 2%nat)
  /\ Renderer.categorical_lines "Region" (Frame.series sales_table 0) !! 1%nat
     = Some "  East: 2 occurrences".
Proof.
  assert (H : Frame.value_counts (Frame.series sales_table 0) !! 0%nat
              = Some ("East", 2%nat)) by (vm_compute; reflexivity).
  split; [exact H|].
  exact (proj2 (proj2 (proj2 (proj2 (proj2 (proj2
           (categorical_summary_counts "Region" (Frame.series sales_table 0)))))))
           0%nat ("East", 2%nat) ltac:(lia) H).
Defined.

(** ** Pages that are kept *)
Section KeptPages.
Import Text Pdf.
Local Open Scope nat_scope.

Lemma rstrip_blank (s : string) : truthy (rstrip s) = negb (blank s).
Proof.
  induction s as [|c s IH]; [reflexivity|].
  cbn [rstrip]. unfold blank in *. cbn [list_ascii_of_string forallb].
  destruct (rstrip s) as [|d kept].
  - cbn [truthy] in IH. symmetry in IH. apply negb_false_iff in IH. rewrite IH.
    rewrite andb_true_r. destruct (is_space c); reflexivity.
  - cbn [truthy] in *. symmetry in IH. apply negb_true_iff in IH. rewrite IH.
    rewrite andb_false_r. reflexivity.
Qed.

Lemma lstrip_blank (s : string) : blank (lstrip s) = blank s.
Proof.
  induction s as [|c s IH]; [reflexivity|].
  cbn [lstrip]. destruct (is_space c) eqn:Hc; [|reflexivity].
  rewrite IH. unfold blank. cbn [list_ascii_of_string forallb]. rewrite Hc.
  reflexivity.
Qed.

Lemma strip_blank (s : string) : truthy (strip s) = negb (blank s).
Proof. unfold strip. rewrite rstrip_blank, lstrip_blank. reflexivity. Qed.

Lemma page_text_or (extracted : option string) :
  match extracted with
  | Some t => if truthy t then t else ""
  | None => ""
  end = page_text extracted.
Proof. destruct extracted as [[|c t]|]; reflexivity. Qed.

Lemma text_pages_keeps (path method : string) (i k : nat)
      (pages : list (outcome (option string))) (extracted : option string) :
  pages !! k = Some (Ok extracted) ->
  read_through pages k ->
  blank (page_text extracted) = false ->
  In (page_document path method (i + k) (page_text extracted))
     (text_pages path method i pages).
Proof.
  revert i k. induction pages as [|p pages IH]; intros i k Hk Hread Hblank;
    [discriminate|].
  destruct k as [|k].
  - injection Hk as ->. rewrite text_pages_cons. cbn zeta.
    rewrite page_text_or, strip_blank, Hblank. cbn [negb].
    rewrite Nat.add_0_r. left. reflexivity.
  - destruct (Hread 0 ltac:(lia)) as [x Hx]. injection Hx as ->.
    rewrite text_pages_cons. apply in_or_app. right.
    replace (i + S k) with (S i + k) by lia.
    apply IH; [exact Hk | | exact Hblank].
    intros j Hj. apply (Hread (S j)). lia.
Qed.

Lemma text_pages_count (path method : string) (i : nat)
      (pages : list (option string)) :
  length (text_pages path method i (map Ok pages))
  = length (List.filter (fun x => negb (blank (page_text x))) pages).
Proof.
  revert i. induction pages as [|x pages IH]; intros i; [reflexivity|].
  cbn [map]. rewrite text_pages_cons. cbn zeta.
  rewrite page_text_or, strip_blank, length_app, IH.
  cbn [List.filter]. destruct (negb (blank (page_text x))); reflexivity.
Qed.

End KeptPages.

(** X23. A text strategy loses no page: a page read without an exception
    before it gives a document exactly when its text has a character
    that is not white space, and the document holds the text as
    extracted, under the number of the page. For a file read to its end
    the strategy returns as many documents as there are pages with such
    a text. *)
Theorem strategy_loses_no_page :
  forall (path method : string) (pages : list (outcome (option string)))
         (k : nat) (extracted : option string),
    pages !! k = Some (Ok extracted) ->
    read_through pages k ->
    (In (Pdf.page_document path method (k + 1) (page_text extracted))
        (Pdf.text_pages path method 1 pages)
     <-> blank (page_text extracted) = false)
    /\ forall (ev : event) (texts : list (option string)),
         length (yield (Pdf.run_strategy ev path method (Ok (map Ok texts))))
         = length (List.filter (fun x => negb (blank (page_text x))) texts).
Proof.
  intros path method pages k extracted Hk Hread. split.
  - split.
    + intros Hin.
      pose proof (text_pages_from path method 1 pages) as Hall.
      rewrite Forall_forall in Hall. apply list_elem_of_In in Hin.
      destruct (Hall _ Hin) as (k' & txt & Heq & _ & Htxt).
      apply (f_equal page_content) in Heq. cbn [page_content Pdf.page_document] in Heq.
      rewrite Heq. rewrite strip_blank in Htxt.
      apply negb_true_iff in Htxt. exact Htxt.
    + intros Hblank. rewrite Nat.add_comm.
      apply text_pages_keeps; assumption.
  - intros ev texts. rewrite yield_run_strategy. apply text_pages_count.
Qed.

Lemma strategy_loses_no_page_witness :
  read_through [Ok None; Ok (Some "Balance 10")] 1
  /\ blank "Balance 10" = false
  /\ In (Pdf.page_document "/tmp/tmpcd34.pdf" "pypdf" 2 "Balance 10")
        (Pdf.text_pages "/tmp/tmpcd34.pdf" "pypdf" 1 [Ok None; Ok (Some "Balance 10")]).
Proof.
  assert (H : read_through [Ok None; Ok (Some "Balance 10")] 1).
  { intros [|j] Hj; [exists None; reflexivity | lia]. }
  split; [exact H|]. split; [reflexivity|].
  exact (proj2 (proj1 (strategy_loses_no_page "/tmp/tmpcd34.pdf" "pypdf"
                         [Ok None; Ok (Some "Balance 10")] 1 (Some "Balance 10")
                         eq_refl H))
               eq_refl).
Defined.
